(** * inventory_sync: a shallow embedding of the synchronisation and
    order-fulfilment engine, and the properties of its specification.

    The Python sources embedded here are [inventory_sync.py] (file locator,
    inventory validator and synchroniser, sales aggregator and
    synchroniser, polling loop, printer list, resolver and dispatcher, item
    groups of the order form, order polling, orders and settings windows,
    pending-action mailbox), [print-orders-polling.py]
    ([mark_order_printed], [poll_for_orders]), [reset_orders_for_reprint.py],
    [auto_updater.py] ([parse_version], [check_for_update],
    [run_update_check]) and [fedex_shipping.py] ([get_fedex_token],
    [has_shipping_items], [get_ship_from_location]).

    Conventions of the embedding.
    - A Python [str] is the [string] of the bytes of its UTF-8 encoding;
      equality, [in], [startswith] and [endswith] are the same on the bytes
      as on the characters.  [strip] removes the ASCII white space.
    - [PyStr.lower] maps A-Z to a-z and leaves every other byte alone; it
      is used where the program compares a lowered text with a word in
      small ASCII letters (a store name, a marker word, an extension).  The
      printer resolver compares two lowered names with each other and takes
      [str.lower] of the interpreter as a collaborator.
    - A call that may raise returns an [Outcome]: [Returned v] or
      [Raised msg], where [msg] is [str(exception)].
    - External collaborators (the remote store, the file system, the PDF
      renderer, the rasteriser, the clock) are the fields of a world
      record; every theorem quantifies over them.
    - [print] calls produce no value the program reads and are left out,
      except where a log line is the only trace of a step.
    - Numbers of a spreadsheet are Python integers and binary64 floats
      ([PyFloat]), and the arithmetic on them is that of IEEE 754.  What
      [int] and [float] make of a text, and the sum pandas takes of a
      column, are collaborators. *)

From Stdlib Require Import ZArith QArith Qround Qabs Lia Lqa String Ascii List Bool Sorted Permutation.
From Stdlib Require Import DecimalString.
From Stdlib Require DecimalPos.
From Stdlib Require Import Floats.SpecFloat.
From stdpp Require Import base option list gmap strings.

Local Open Scope string_scope.

(* ===================================================================== *)
(** * Part I: the program                                                 *)
(* ===================================================================== *)

(** ** Results of calls that may raise *)

Inductive Outcome (A : Type) : Type :=
| Returned (a : A)
| Raised (msg : string).

Arguments Returned {A} a.
Arguments Raised {A} msg.

(** The statements after a call that may raise. *)
Definition and_then {A B : Type} (o : Outcome A) (k : A -> Outcome B) : Outcome B :=
  match o with
  | Returned a => k a
  | Raised msg => Raised msg
  end.

Notation "x <-- o ;; k" := (and_then o (fun x => k))
  (at level 200, o at level 99, k at level 200, right associativity).

(** ** Python string operations *)

Module PyStr.

Definition is_upper (c : ascii) : bool :=
  let n := nat_of_ascii c in Nat.leb 65 n && Nat.leb n 90.

Definition lower_ascii (c : ascii) : ascii :=
  if is_upper c then ascii_of_nat (nat_of_ascii c + 32) else c.

(** [s.lower()] *)
Fixpoint lower (s : string) : string :=
  match s with
  | EmptyString => EmptyString
  | String c s' => String (lower_ascii c) (lower s')
  end.

(** The characters [str.strip()] removes when called without argument:
    tab, line feed, vertical tab, form feed, carriage return, the four
    separators 0x1c-0x1f and the space. *)
Definition is_space (c : ascii) : bool :=
  let n := nat_of_ascii c in
  (Nat.leb 9 n && Nat.leb n 13) || (Nat.leb 28 n && Nat.leb n 32).

Fixpoint lstrip (s : string) : string :=
  match s with
  | EmptyString => EmptyString
  | String c s' => if is_space c then lstrip s' else s
  end.

Fixpoint rstrip (s : string) : string :=
  match s with
  | EmptyString => EmptyString
  | String c s' =>
      match rstrip s' with
      | EmptyString => if is_space c then EmptyString else String c EmptyString
      | r => String c r
      end
  end.

(** [s.strip()] *)
Definition strip (s : string) : string := rstrip (lstrip s).

(** [s.startswith(p)] *)
Fixpoint startswith (s p : string) {struct p} : bool :=
  match p, s with
  | EmptyString, _ => true
  | String _ _, EmptyString => false
  | String a p', String b s' => Ascii.eqb a b && startswith s' p'
  end.

(** [sub in s] *)
Fixpoint contains (sub s : string) : bool :=
  startswith s sub ||
  match s with
  | EmptyString => false
  | String _ s' => contains sub s'
  end.

(** [s.endswith(suf)] *)
Fixpoint endswith (s suf : string) : bool :=
  String.eqb s suf ||
  match s with
  | EmptyString => false
  | String _ s' => endswith s' suf
  end.

(** [s.replace(c, "")] for a one-character [c] *)
Fixpoint remove_char (c : ascii) (s : string) : string :=
  match s with
  | EmptyString => EmptyString
  | String a s' => if Ascii.eqb a c then remove_char c s' else String a (remove_char c s')
  end.

(** [x in l] for a list of strings *)
Definition str_in (x : string) (l : list string) : bool :=
  existsb (String.eqb x) l.

(** Truth value of a string: the empty string is falsy. *)
Definition truthy (s : string) : bool :=
  match s with EmptyString => false | _ => true end.

(** [str(n)] for an integer *)
Definition str_of_Z (n : Z) : string := NilZero.string_of_int (Z.to_int n).

End PyStr.

(** ** Stable sort by a key, largest first

    [l.sort(key=k, reverse=True)]: Python's sort is stable, and with
    [reverse=True] elements with equal keys keep their original order.  The
    stable sorted arrangement of a list is unique, so insertion sort gives
    the list Python builds. *)

Section SortDesc.
Context {A : Type} (key : A -> Z).

Fixpoint insert_desc (x : A) (l : list A) : list A :=
  match l with
  | [] => [x]
  | y :: l' => if (key x <? key y)%Z then y :: insert_desc x l' else x :: l
  end.

Fixpoint sort_desc (l : list A) : list A :=
  match l with
  | [] => []
  | x :: l' => insert_desc x (sort_desc l')
  end.

End SortDesc.

(** ** Python floats

    A Python [float] is an IEEE 754 binary64 number.  The operations are
    those of the standard library's executable specification of binary
    floating point, at precision 53 and maximal exponent 1024, rounding to
    nearest with ties to even, as the hardware does. *)

Module PyFloat.

Definition float : Set := spec_float.

Definition prec : Z := 53.
Definition emax : Z := 1024.

(** [float(n)] for an integer: the nearest double. *)
Definition of_Z (n : Z) : float := binary_normalize prec emax n 0 false.

Definition zero : float := S754_zero false.

(** [x / y] for a non-zero [y], and [x * y] *)
Definition div (x y : float) : float := SFdiv prec emax x y.
Definition mul (x y : float) : float := SFmul prec emax x y.

(** [x > y] *)
Definition gt (x y : float) : bool := SFltb y x.

Definition is_nan (x : float) : bool :=
  match x with S754_nan => true | _ => false end.

(** The number a finite float stands for, in lowest terms. *)
Definition value (x : float) : option Q :=
  match x with
  | S754_zero _ => Some 0%Q
  | S754_finite s m e =>
      let magnitude :=
        match e with
        | Z0 => Qmake (Zpos m) 1
        | Zpos k => Qmake (Zpos m * 2 ^ Zpos k) 1
        | Zneg k => Qmake (Zpos m) (2 ^ k)%positive
        end in
      Some (Qred (if s then Qopp magnitude else magnitude))
  | S754_infinity _ | S754_nan => None
  end.

(** [int(x)]: the integer part, towards zero; [None] where Python
    raises, on an infinity and on NaN. *)
Definition trunc (x : float) : option Z :=
  match x with
  | S754_zero _ => Some 0%Z
  | S754_finite s m e =>
      let magnitude :=
        match e with
        | Z0 => Zpos m
        | Zpos k => (Zpos m * 2 ^ Zpos k)%Z
        | Zneg k => (Zpos m / 2 ^ Zpos k)%Z
        end in
      Some (if s then (- magnitude)%Z else magnitude)
  | S754_infinity _ | S754_nan => None
  end.

(** The double that the decimal [n / 10 ^ places] reads as, [4500.00] for
    [decimal 450000 2]: division is correctly rounded, and [n] and the
    power of ten are doubles themselves as long as [n] is below 2 ^ 53 and
    [places] is at most 22. *)
Definition decimal (n : Z) (places : nat) : float :=
  div (of_Z n) (of_Z (10 ^ Z.of_nat places)).

End PyFloat.

(** ** File locator *)

Module Locator.

(** One entry of the watch folder: the name [os.listdir] reports and the
    time [os.path.getmtime] reports for it.  Every listed entry has a
    time: an entry that vanishes between the two calls is not modelled. *)
Record DirEntry := mkEntry { file_name : string; mod_time : Z }.

(** The watch folder: [None] when it cannot be listed ([os.listdir]
    raises), otherwise its entries in listing order. *)
Definition Folder := option (list DirEntry).

(** [os.path.join(folder, name)] for a relative [name]: a separator is
    added unless [folder] is empty or already ends with one. *)
Definition os_path_join (folder name : string) : string :=
  if negb (PyStr.truthy folder) || PyStr.endswith folder "\" || PyStr.endswith folder "/"
  then folder ++ name
  else folder ++ "\" ++ name.

(** The triple [(file_path, mod_time, file_name)] the scan appends. *)
Definition FileInfo : Type := string * Z * string.

Definition is_inventory_file (file_pattern : string) (e : DirEntry) : bool :=
  PyStr.contains file_pattern (file_name e) && PyStr.endswith (file_name e) ".xlsx".

Fixpoint scan (watch_folder file_pattern : string) (entries : list DirEntry)
  : list FileInfo :=
  match entries with
  | [] => []
  | e :: rest =>
      if is_inventory_file file_pattern e
      then (os_path_join watch_folder (file_name e), mod_time e, file_name e)
             :: scan watch_folder file_pattern rest
      else scan watch_folder file_pattern rest
  end.

(** [find_all_inventory_files]: a folder that cannot be listed is caught
    and gives the empty list. *)
Definition find_all_inventory_files (fs : Folder) (watch_folder file_pattern : string)
  : list FileInfo :=
  match fs with
  | None => []
  | Some entries => scan watch_folder file_pattern entries
  end.

(** [get_latest_inventory_file]: [(None, [])] without candidates, otherwise
    the path of the first file after sorting by modification time, newest
    first, and the paths of all of them. *)
Definition get_latest_inventory_file (fs : Folder) (watch_folder file_pattern : string)
  : option string * list string :=
  let files := find_all_inventory_files fs watch_folder file_pattern in
  match sort_desc (fun f : FileInfo => snd (fst f)) files with
  | [] => (None, [])
  | f :: rest => (Some (fst (fst f)), map (fun g : FileInfo => fst (fst g)) (f :: rest))
  end.

(** [os.remove(path)] inside the watch folder: a path that names no entry
    raises; so does a path for which [remove_error] has a message (the
    file is open in Excel or read-only, or the entry is a directory), and
    the entry then stays; otherwise the entry with that path disappears. *)
Definition has_path (watch_folder path : string) (e : DirEntry) : bool :=
  String.eqb (os_path_join watch_folder (file_name e)) path.

Definition os_remove (remove_error : string -> option string) (watch_folder path : string)
  (entries : list DirEntry) : Outcome (list DirEntry) :=
  if existsb (has_path watch_folder path) entries
  then
    match remove_error path with
    | Some msg => Raised msg
    | None => Returned (List.filter (fun e => negb (has_path watch_folder path e)) entries)
    end
  else Raised "FileNotFoundError".

(** [delete_all_inventory_files]: each removal is tried on its own; one
    that raises is reported and skipped. *)
Fixpoint delete_all_inventory_files (remove_error : string -> option string)
  (watch_folder : string) (file_list : list string) (entries : list DirEntry)
  : list DirEntry :=
  match file_list with
  | [] => entries
  | file_path :: rest =>
      match os_remove remove_error watch_folder file_path entries with
      | Returned entries' =>
          delete_all_inventory_files remove_error watch_folder rest entries'
      | Raised _ => delete_all_inventory_files remove_error watch_folder rest entries
      end
  end.

End Locator.

(** ** Inventory validator and synchroniser *)

Module Inventory.

Import PyFloat.

(** A cell of a text column as pandas hands it over: a string, an
    integer, a float, or the missing value NaN.  A column of whole numbers
    with a blank in it arrives as floats, 99999.0 for 99999: [CFloat n] is
    the float of the whole number [n], of less than 16 digits.  Floats with
    a fraction in a text column are not modelled. *)
Inductive Cell := CStr (s : string) | CInt (n : Z) | CFloat (whole : Z) | CNaN.

(** [str(cell)] *)
Definition py_str (c : Cell) : string :=
  match c with
  | CStr s => s
  | CInt n => PyStr.str_of_Z n
  | CFloat n => PyStr.str_of_Z n ++ ".0"
  | CNaN => "nan"
  end.

(** [pd.notna(cell)] *)
Definition notna (c : Cell) : bool :=
  match c with CNaN => false | _ => true end.

(** A cell of a number column: an integer, a float, a text, or blank.  A
    blank cell is the float NaN, and so is every NaN.  Cells holding dates
    or booleans are not modelled. *)
Inductive NumCell := NInt (n : Z) | NFloat (x : float) | NStr (s : string) | NBlank.

(** [pd.notna(cell)] *)
Definition notna_num (c : NumCell) : bool :=
  match c with
  | NBlank => false
  | NFloat x => negb (is_nan x)
  | _ => true
  end.

(** One row of the inventory sheet. *)
Record Row := mkRow {
  r_product_name : Cell;
  r_sku : Cell;
  r_vendor : Cell;
  r_brand : Cell;
  r_price : NumCell;
  r_cost : NumCell;
  r_total_stock : NumCell;
  r_committed : NumCell;
  r_open_stock : NumCell;
  r_qty_on_order : NumCell;
  r_gross_margin : NumCell;
  r_total_retail : NumCell;
  r_total_cost : NumCell
}.

(** The record sent to the [inventory] table.  A number that the code
    sets to the integer 0 for a blank cell is the float zero here. *)
Record InventoryRecord := mkRecord {
  product_name : option string;
  sku : option string;
  vendor : option string;
  brand : option string;
  price : float;
  cost : float;
  total_stock : Z;
  committed : Z;
  open_stock : Z;
  qty_on_order : Z;
  gross_margin : float;
  total_retail : float;
  total_cost : float
}.

(** The numbers of a row once converted, in the order in which
    [clean_data] converts them. *)
Record Numbers := mkNumbers {
  n_gross_margin : float;
  n_price : float;
  n_cost : float;
  n_total_stock : Z;
  n_committed : Z;
  n_open_stock : Z;
  n_qty_on_order : Z;
  n_total_retail : float;
  n_total_cost : float
}.

(** State of the scan of the validator: the quantity last seen on each
    marker. *)
Record Markers := mkMarkers {
  toppenish_qty : option Z;
  yakima_qty : option Z
}.

Definition is_toppenish_marker (row : Row) : bool :=
  let product_name := PyStr.lower (PyStr.strip (py_str (r_product_name row))) in
  let sku := PyStr.strip (py_str (r_sku row)) in
  PyStr.contains "toppenish" product_name && String.eqb sku "99999".

Definition is_yakima_marker (row : Row) : bool :=
  let product_name := PyStr.lower (PyStr.strip (py_str (r_product_name row))) in
  let sku := PyStr.strip (py_str (r_sku row)) in
  PyStr.contains "yakima" product_name && String.eqb sku "9999".

(** What one iteration of the loop over the rows does with the quantity
    of the row. *)
Definition scan_row (m : Markers) (row : Row) (qty : Z) : Markers :=
  let m1 := if is_toppenish_marker row
            then mkMarkers (Some qty) (yakima_qty m) else m in
  if is_yakima_marker row
  then mkMarkers (toppenish_qty m1) (Some qty) else m1.

(** The triple [(is_valid, error_type, message)]. *)
Definition Validation : Type := bool * option string * string.

Definition text_field (c : Cell) : option string :=
  if notna c then Some (py_str c) else None.

Definition sku_field (c : Cell) : option string :=
  if notna c then Some (PyStr.strip (py_str c)) else None.

Definition make_record (row : Row) (numbers : Numbers) : InventoryRecord :=
  {| product_name := text_field (r_product_name row);
     sku := sku_field (r_sku row);
     vendor := text_field (r_vendor row);
     brand := text_field (r_brand row);
     price := n_price numbers;
     cost := n_cost numbers;
     total_stock := n_total_stock numbers;
     committed := n_committed numbers;
     open_stock := n_open_stock numbers;
     qty_on_order := n_qty_on_order numbers;
     gross_margin := n_gross_margin numbers;
     total_retail := n_total_retail numbers;
     total_cost := n_total_cost numbers |}.

(** [if record["sku"]]: neither [None] nor the empty string. *)
Definition has_sku (record : InventoryRecord) : bool :=
  match sku record with Some s => PyStr.truthy s | None => false end.

(** What [sync_inventory] does to the outside, in order. *)
Inductive SyncEvent :=
| EvUpsert (records : list InventoryRecord)
| EvRemove (file_path : string)
| EvNotify (message title : string).

(** The collaborators of one call.  [remove_error] tells for which paths
    [os.remove] raises although the file is there (a file that is open or
    read-only, a directory), and with which message. *)
Record SyncWorld := mkSyncWorld {
  read_excel : string -> Outcome (list Row);
  upsert : list InventoryRecord -> Outcome unit;
  remove_error : string -> option string;
  tray_icon : bool;
  config_store_name : option string
}.

(** The watch folder and the events issued so far. *)
Record SyncState := mkSyncState {
  folder : Locator.Folder;
  sync_events : list SyncEvent
}.

Definition sync_emit (e : SyncEvent) (st : SyncState) : SyncState :=
  mkSyncState (folder st) (sync_events st ++ [e]).

Definition notify (w : SyncWorld) (message title : string) (st : SyncState) : SyncState :=
  if tray_icon w then sync_emit (EvNotify message title) st else st.

(** [delete_all_inventory_files] on the state: every removal is recorded,
    also one that fails. *)
Definition delete_files (w : SyncWorld) (watch_folder : string) (file_list : list string)
  (st : SyncState) : SyncState :=
  mkSyncState
    (match folder st with
     | Some entries =>
         Some (Locator.delete_all_inventory_files (remove_error w) watch_folder file_list
                 entries)
     | None => None
     end)
    (sync_events st ++ map EvRemove file_list).

(** The rows kept by the marker filter.  [.str.lower()] is NaN on a cell
    that is not a string, and [contains(..., na=False)] is then false. *)
Definition name_contains (word : string) (c : Cell) : bool :=
  match c with
  | CStr s => PyStr.contains word (PyStr.lower s)
  | _ => false
  end.

Definition is_marker_row (row : Row) : bool :=
  (name_contains "toppenish" (r_product_name row)
     && String.eqb (PyStr.strip (py_str (r_sku row))) "99999")
  || (name_contains "yakima" (r_product_name row)
        && String.eqb (PyStr.strip (py_str (r_sku row))) "9999").

Definition filter_markers (df : list Row) : list Row :=
  List.filter (fun row => negb (is_marker_row row)) df.

(** [error_type == name], where [error_type] may be [None]. *)
Definition error_type_is (error_type : option string) (name : string) : bool :=
  match error_type with
  | Some e => String.eqb e name
  | None => false
  end.

(** The first 50 characters of a message, [str(e)[:50]]. *)
Definition first50 (s : string) : string := String.substring 0 50 s.

Section WithParsers.

(** [int(s)] and [float(s)] on a string: the number, or the message of
    the [ValueError] raised. *)
Variable int_of_string : string -> Outcome Z.
Variable float_of_string : string -> Outcome float.

(** [int(cell)] *)
Definition int_of_cell (c : NumCell) : Outcome Z :=
  match c with
  | NInt n => Returned n
  | NFloat x =>
      match trunc x with
      | Some n => Returned n
      | None =>
          Raised (if is_nan x then "cannot convert float NaN to integer"
                  else "cannot convert float infinity to integer")
      end
  | NStr s => int_of_string s
  | NBlank => Raised "cannot convert float NaN to integer"
  end.

(** [float(cell)] *)
Definition float_of_cell (c : NumCell) : Outcome float :=
  match c with
  | NInt n => Returned (of_Z n)
  | NFloat x => Returned x
  | NStr s => float_of_string s
  | NBlank => Returned S754_nan
  end.

(** [int(cell) if pd.notna(cell) else 0] and
    [float(cell) if pd.notna(cell) else 0] *)
Definition int_or_zero (c : NumCell) : Outcome Z :=
  if notna_num c then int_of_cell c else Returned 0%Z.

Definition float_or_zero (c : NumCell) : Outcome float :=
  if notna_num c then float_of_cell c else Returned zero.

(** *** validate_inventory_file *)

(** [int(row.get("Total Stock", 0)) if pd.notna(...) else 0], which the
    loop evaluates on every row, marker or not. *)
Definition row_qty (row : Row) : Outcome Z := int_or_zero (r_total_stock row).

(** The loop over the rows: an exception of [int] leaves it. *)
Fixpoint scan_markers_from (df : list Row) (m : Markers) : Outcome Markers :=
  match df with
  | [] => Returned m
  | row :: rest =>
      qty <-- row_qty row;;
      scan_markers_from rest (scan_row m row qty)
  end.

Definition scan_markers (df : list Row) : Outcome Markers :=
  scan_markers_from df (mkMarkers None None).

Definition validate_inventory_file (df : list Row) : Outcome Validation :=
  m <-- scan_markers df;;
  Returned
    match toppenish_qty m, yakima_qty m with
    | Some t, Some y =>
        if (t =? 1)%Z && (y =? 0)%Z
        then (true, None, "Correct inventory file (Toppenish=1, Yakima=0)")
        else if (y =? 1)%Z
        then (false, Some "wrong_file",
              "Wrong inventory file detected (Yakima=" ++ PyStr.str_of_Z y
                ++ ", Toppenish=" ++ PyStr.str_of_Z t ++ ")")
        else (false, Some "wrong_file",
              "Invalid marker quantities (Toppenish=" ++ PyStr.str_of_Z t
                ++ ", Yakima=" ++ PyStr.str_of_Z y ++ ")")
    | _, _ => (false, Some "no_marker", "No inventory ID markers found")
    end.

(** *** clean_data *)

(** The Gross Margin of a row: a text such as ["45%"] is read as a
    percentage, anything else as the number it is. *)
Definition convert_gross_margin (c : NumCell) : Outcome float :=
  match c with
  | NStr s =>
      x <-- float_of_string (PyStr.remove_char "%" s);;
      Returned (div x (of_Z 100))
  | _ => float_or_zero c
  end.

(** The conversions of one iteration, in the order of the code: the
    first that raises ends [clean_data]. *)
Definition convert_row (row : Row) : Outcome Numbers :=
  gross_margin <-- convert_gross_margin (r_gross_margin row);;
  price <-- float_or_zero (r_price row);;
  cost <-- float_or_zero (r_cost row);;
  total_stock <-- int_or_zero (r_total_stock row);;
  committed <-- int_or_zero (r_committed row);;
  open_stock <-- int_or_zero (r_open_stock row);;
  qty_on_order <-- int_or_zero (r_qty_on_order row);;
  total_retail <-- float_or_zero (r_total_retail row);;
  total_cost <-- float_or_zero (r_total_cost row);;
  Returned (mkNumbers gross_margin price cost total_stock committed open_stock
              qty_on_order total_retail total_cost).

Fixpoint clean_data_from (df : list Row) (records : list InventoryRecord)
  : Outcome (list InventoryRecord) :=
  match df with
  | [] => Returned records
  | row :: rest =>
      numbers <-- convert_row row;;
      let record := make_record row numbers in
      clean_data_from rest (if has_sku record then records ++ [record] else records)
  end.

Definition clean_data (df : list Row) : Outcome (list InventoryRecord) :=
  clean_data_from df [].

(** *** sync_inventory *)

(** The body of the [try] block once the file is chosen: [Raised] stands
    for an exception that reaches the handler at the end of the function. *)
Definition sync_body (w : SyncWorld) (watch_folder : string) (show_notification : bool)
  (latest_file : string) (all_files : list string) (st : SyncState)
  : Outcome bool * SyncState :=
  match read_excel w latest_file with
  | Raised msg => (Raised msg, st)
  | Returned df =>
      match validate_inventory_file df with
      | Raised msg => (Raised msg, st)
      | Returned (is_valid, error_type, validation_msg) =>
          if error_type_is error_type "wrong_file" then
            let st := notify w
              "Wrong inventory file! This appears to be the Yakima inventory. File deleted."
              "Inventory Sync Error" st in
            (Returned false, delete_files w watch_folder all_files st)
          else if error_type_is error_type "no_marker" then
            let st := notify w
              "Are you sure this is Toppenish inventory? Could not detect correct inventory ID. File deleted."
              "Inventory Sync Warning" st in
            (Returned false, delete_files w watch_folder all_files st)
          else
            match clean_data (filter_markers df) with
            | Raised msg => (Raised msg, st)
            | Returned [] => (Returned false, st)
            | Returned records =>
                let st := sync_emit (EvUpsert records) st in
                match upsert w records with
                | Raised msg => (Raised msg, st)
                | Returned _ =>
                    let st := delete_files w watch_folder all_files st in
                    let st :=
                      if show_notification
                      then notify w
                             (default "Store" (config_store_name w)
                                ++ " inventory synced to site")
                             "Inventory Sync" st
                      else st in
                    (Returned true, st)
                end
            end
      end
  end.

Definition sync_inventory (w : SyncWorld) (watch_folder file_pattern : string)
  (show_notification : bool) (st : SyncState) : bool * SyncState :=
  match Locator.get_latest_inventory_file (folder st) watch_folder file_pattern with
  | (None, _) => (false, st)
  | (Some latest_file, all_files) =>
      if negb (PyStr.truthy latest_file) then (false, st)
      else
        match sync_body w watch_folder show_notification latest_file all_files st with
        | (Returned b, st') => (b, st')
        | (Raised msg, st') =>
            (false, notify w ("Sync error: " ++ first50 msg) "Inventory Sync Error" st')
        end
  end.

End WithParsers.

End Inventory.

(** ** Sales aggregator *)

Module Sales.

Import PyFloat Inventory.

(** One row of the sales sheet. *)
Record SalesRow := mkSalesRow {
  trans_id : Cell;
  date : Cell;
  qty_sold : NumCell;
  sales : NumCell;
  cogs : NumCell;
  gross_profit : NumCell;
  disc_mkd : NumCell;
  tax : NumCell;
  receipt_total : NumCell
}.

(** The result of [round(x, 2)]: for a finite [x] the double nearest to
    a whole number of hundredths, given here by that number of hundredths
    (2667 for 26.67, and 0 for a zero of either sign); an infinity or NaN
    is returned as it is. *)
Inductive Amount := Hundredths (n : Z) | Unrounded (x : float).

(** The record sent to the [daily_sales] table. *)
Record DailySales := mkDailySales {
  store_name : string;
  report_date : string;
  total_transactions : Z;
  total_qty_sold : Z;
  total_sales : Amount;
  total_cogs : Amount;
  total_gross_profit : Amount;
  avg_gross_margin : Amount;
  total_discounts : Amount;
  total_tax : Amount;
  total_receipts : Amount
}.

(** Nearest integer, ties to the even one. *)
Definition round_half_even (q : Q) : Z :=
  let f := Qfloor q in
  match Qcompare (q - inject_Z f) (1 # 2) with
  | Lt => f
  | Gt => (f + 1)%Z
  | Eq => if Z.even f then f else (f + 1)%Z
  end.

(** [round(x, 2)]: Python rounds the exact value of the double to the
    nearest hundredth, a tie to the even one. *)
Definition round2 (x : float) : Amount :=
  match value x with
  | Some q => Hundredths (round_half_even (q * 100))
  | None => Unrounded x
  end.

(** [df['Trans ID'] == 'Total'], cell by cell. *)
Definition is_total (row : SalesRow) : bool :=
  match trans_id row with
  | CStr s => String.eqb s "Total"
  | _ => false
  end.

(** The totals before rounding.  A total that the code sets to the
    integer 0 for a blank cell is the float zero here. *)
Record Totals := mkTotals {
  t_transactions : Z;
  t_qty_sold : Z;
  t_sales : float;
  t_cogs : float;
  t_gross_profit : float;
  t_discounts : float;
  t_tax : float;
  t_receipts : float
}.

(** [if total_sales > 0: (total_gross_profit / total_sales) * 100 else 0] *)
Definition margin_of (t : Totals) : float :=
  if gt (t_sales t) zero
  then mul (div (t_gross_profit t) (t_sales t)) (of_Z 100)
  else zero.

Section WithParsers.

(** [int(s)] and [float(s)] on a string, and [column.sum()] of pandas on
    the cells of a column: the order in which pandas adds floats is its
    own, so the sum is a collaborator. *)
Variable int_of_string : string -> Outcome Z.
Variable float_of_string : string -> Outcome float.
Variable column_sum : list NumCell -> Outcome NumCell.

(** The date of the report from the Date cell of the first transaction:
    the two parsers in turn, then today's date. *)
Variable parse_report_date : Cell -> string.

(** The totals from the first Total row, or from the columns of the
    transaction rows. *)
Definition compute_totals (total_row transaction_rows : list SalesRow) : Outcome Totals :=
  let total_of (as_number : NumCell -> Outcome float) (column : SalesRow -> NumCell) :=
    s <-- column_sum (map column transaction_rows);; as_number s in
  match total_row with
  | row :: _ =>
      total_qty_sold <-- int_or_zero int_of_string (qty_sold row);;
      total_sales <-- float_or_zero float_of_string (sales row);;
      total_cogs <-- float_or_zero float_of_string (cogs row);;
      total_gross_profit <-- float_or_zero float_of_string (gross_profit row);;
      total_discounts <-- float_or_zero float_of_string (disc_mkd row);;
      total_tax <-- float_or_zero float_of_string (tax row);;
      total_receipts <-- float_or_zero float_of_string (receipt_total row);;
      Returned (mkTotals (Z.of_nat (length transaction_rows)) total_qty_sold total_sales
                  total_cogs total_gross_profit total_discounts total_tax total_receipts)
  | [] =>
      total_qty_sold <--
        (s <-- column_sum (map qty_sold transaction_rows);; int_of_cell int_of_string s);;
      total_sales <-- total_of (float_of_cell float_of_string) sales;;
      total_cogs <-- total_of (float_of_cell float_of_string) cogs;;
      total_gross_profit <-- total_of (float_of_cell float_of_string) gross_profit;;
      total_discounts <-- total_of (float_of_cell float_of_string) disc_mkd;;
      total_tax <-- total_of (float_of_cell float_of_string) tax;;
      total_receipts <-- total_of (float_of_cell float_of_string) receipt_total;;
      Returned (mkTotals (Z.of_nat (length transaction_rows)) total_qty_sold total_sales
                  total_cogs total_gross_profit total_discounts total_tax total_receipts)
  end.

Definition make_summary (store : string) (first_row : SalesRow) (t : Totals)
  : DailySales :=
  {| store_name := store;
     report_date := parse_report_date (date first_row);
     total_transactions := t_transactions t;
     total_qty_sold := t_qty_sold t;
     total_sales := round2 (t_sales t);
     total_cogs := round2 (t_cogs t);
     total_gross_profit := round2 (t_gross_profit t);
     avg_gross_margin := round2 (margin_of t);
     total_discounts := round2 (t_discounts t);
     total_tax := round2 (t_tax t);
     total_receipts := round2 (t_receipts t) |}.

(** [process_sales_file]: [None] when the file cannot be read, holds no
    transaction row, or a number in it cannot be converted. *)
Definition process_sales_file (read_excel : string -> Outcome (list SalesRow))
  (file_path store : string) : option DailySales :=
  match read_excel file_path with
  | Raised _ => None
  | Returned df =>
      let total_row := List.filter (fun row => is_total row) df in
      let transaction_rows := List.filter (fun row => negb (is_total row)) df in
      match transaction_rows with
      | [] => None
      | first_row :: _ =>
          match compute_totals total_row transaction_rows with
          | Returned t => Some (make_summary store first_row t)
          | Raised _ => None
          end
      end
  end.

End WithParsers.

End Sales.

(** ** Printer resolver and print dispatcher *)

Module Printer.

(** What the dispatcher finds on the machine; [str_lower] is [str.lower]
    of the interpreter, which follows the Unicode tables. *)
Record PrintEnv := mkPrintEnv {
  str_lower : string -> string;
  available_printers : list string;
  default_printer : option string;
  ghostscript_path : option string;
  path_exists : string -> bool;
  run_ghostscript : string -> string -> string -> Outcome Z
}.

(** [get_actual_printer_name], on the list [get_available_printers]
    returned. *)
Definition get_actual_printer_name (lower : string -> string) (available : list string)
  (printer_name : string) : string :=
  match available with
  | [] => printer_name
  | _ =>
      if PyStr.str_in printer_name available then printer_name
      else
        match find (fun p => String.eqb (lower p) (lower printer_name)) available with
        | Some p => p
        | None =>
            match find (fun p => PyStr.contains (lower printer_name) (lower p))
                    available with
            | Some p => p
            | None => printer_name
            end
        end
  end.

(** [send_via_ghostscript]: false without the rasteriser, without the
    document, on a non-zero exit code and when the subprocess call raises. *)
Definition send_via_ghostscript (env : PrintEnv) (pdf_path printer_name : string) : bool :=
  match ghostscript_path env with
  | None => false
  | Some gs_path =>
      if negb (PyStr.truthy gs_path) then false
      else if negb (path_exists env pdf_path) then false
      else
        match run_ghostscript env gs_path printer_name pdf_path with
        | Returned returncode => (returncode =? 0)%Z
        | Raised _ => false
        end
  end.

(** [send_pdf_to_printer] *)
Definition send_pdf_to_printer (env : PrintEnv) (pdf_path : string)
  (printer_name : option string) : bool :=
  if negb (path_exists env pdf_path) then false
  else
    let printer_name :=
      match printer_name with
      | None => default_printer env
      | Some n => Some n
      end in
    match printer_name with
    | None => false
    | Some n =>
        send_via_ghostscript env pdf_path
          (get_actual_printer_name (str_lower env) (available_printers env) n)
    end.

End Printer.

(** ** Order fulfilment *)

Module Orders.

(** A row of the [orders] table, without its primary key [id]. *)
Record OrderRow := mkOrderRow {
  order_number : string;
  order_location : string;
  printed : bool;
  printed_at : option string;
  pdf_path : option string;
  created_at : Z
}.

(** An order as a query returns it: the [id] and the other columns. *)
Definition Order : Type := string * OrderRow.

Definition order_id (order : Order) : string := fst order.

(** The [orders] table, keyed by [id]. *)
Abbreviation Store := (gmap string OrderRow).

(** The dictionary passed to [update]: [upd_pdf_path] is [None] when the
    key [pdf_path] is not in it. *)
Record Update := mkUpdate {
  upd_printed : bool;
  upd_printed_at : string;
  upd_pdf_path : option string
}.

Definition apply_update (u : Update) (row : OrderRow) : OrderRow :=
  {| order_number := order_number row;
     order_location := order_location row;
     printed := upd_printed u;
     printed_at := Some (upd_printed_at u);
     pdf_path := match upd_pdf_path u with
                 | Some p => Some p
                 | None => pdf_path row
                 end;
     created_at := created_at row |}.

(** The query [select('*').eq('printed', v).or_(...).order('created_at',
    desc=True)]; [q_location_in] is [None] without the [or_] filter. *)
Record Query := mkQuery {
  q_printed_eq : bool;
  q_location_in : option (list string)
}.

Definition matches (q : Query) (order : Order) : bool :=
  Bool.eqb (printed (snd order)) (q_printed_eq q)
  && match q_location_in q with
     | None => true
     | Some locations => PyStr.str_in (order_location (snd order)) locations
     end.

(** The rows the store returns for a query, newest first. *)
Definition run_query (q : Query) (store : Store) : list Order :=
  sort_desc (fun order : Order => created_at (snd order))
    (List.filter (fun order => matches q order) (map_to_list store)).

(** The configuration file, as far as polling reads it. *)
Record Config := mkConfig {
  store_name : string;
  enable_printer : bool;
  printer_name : option string
}.

(** The collaborators of one polling pass. *)
Record OrderWorld := mkOrderWorld {
  pdf_output_dir : string;
  now_stamp : string;
  now_iso : string;
  utcnow_iso : string;
  create_pdf_order : Order -> string -> Outcome bool;
  print_env : Printer.PrintEnv;
  select_error : option string;
  update_error : string -> Update -> option string;
  orders_tray_icon : bool
}.

(** What a pass does to the outside, in order. *)
Inductive OrderEvent :=
| EvProcessing (id : string)
| EvUpdate (id : string) (u : Update)
| EvOrderReady (message title : string).

Record PollState := mkPollState {
  store : Store;
  events : list OrderEvent
}.

Definition emit (e : OrderEvent) (st : PollState) : PollState :=
  mkPollState (store st) (events st ++ [e]).

(** [supabase.table('orders').update(u).eq('id', id).execute()]: the call
    is recorded; the row changes unless the store answers with an error. *)
Definition db_update (w : OrderWorld) (id : string) (u : Update) (st : PollState)
  : Outcome unit * PollState :=
  let st := emit (EvUpdate id u) st in
  match update_error w id u with
  | Some msg => (Raised msg, st)
  | None => (Returned tt, mkPollState (alter (apply_update u) id (store st)) (events st))
  end.

Definition pdf_path_of (w : OrderWorld) (order : Order) : string :=
  pdf_output_dir w ++ "\" ++ "order_" ++ order_number (snd order) ++ "_" ++ now_stamp w ++ ".pdf".

(** [print_order_pdf]: the path of the document, or [None]. *)
Definition print_order_pdf (w : OrderWorld) (order : Order) (send_to_printer : bool)
  (printer : option string) (st : PollState) : option string * PollState :=
  let pdf_path := pdf_path_of w order in
  match create_pdf_order w order pdf_path with
  | Raised _ => (None, st)
  | Returned false => (None, st)
  | Returned true =>
      if send_to_printer && negb (Printer.send_pdf_to_printer (print_env w) pdf_path printer)
      then (None, st)
      else
        let update_data := mkUpdate true (now_iso w) (Some pdf_path) in
        match db_update w (order_id order) update_data st with
        | (Returned _, st) => (Some pdf_path, st)
        | (Raised error_msg, st) =>
            if PyStr.contains "pdf_path" error_msg || PyStr.contains "PGRST204" error_msg
            then
              let update_data_simple := mkUpdate true (now_iso w) None in
              match db_update w (order_id order) update_data_simple st with
              | (Returned _, st) => (Some pdf_path, st)
              | (Raised _, st) => (None, st)
              end
            else (None, st)
        end
  end.

(** The query of a pass: the location filter is only added for the two
    known store names. *)
Definition build_query (store_name : string) : Query :=
  if PyStr.str_in store_name ["yakima"; "toppenish"]
  then mkQuery false (Some [store_name; "both"])
  else mkQuery false None.

Definition lowered_store_name (config : option Config) : string :=
  match config with
  | Some c => PyStr.lower (store_name c)
  | None => ""
  end.

(** The body of the loop over [response.data]. *)
Definition process_order (w : OrderWorld) (config : option Config) (st : PollState) (order : Order)
  : PollState :=
  let enable_printer := match config with Some c => enable_printer c | None => false end in
  let printer := match config with Some c => printer_name c | None => None end in
  let st := emit (EvProcessing (order_id order)) st in
  match print_order_pdf w order enable_printer printer st with
  | (Some _, st) =>
      if orders_tray_icon w
      then emit (EvOrderReady ("Order #" ++ order_number (snd order) ++ " ready") "New Order") st
      else st
  | (None, st) => st
  end.

(** [poll_for_orders_once]: the number it returns and the state it
    leaves. *)
Definition poll_for_orders_once (w : OrderWorld) (config : option Config) (st : PollState)
  : Z * PollState :=
  match select_error w with
  | Some _ => (0%Z, st)
  | None =>
      let data := run_query (build_query (lowered_store_name config)) (store st) in
      match data with
      | [] => (0%Z, st)
      | _ => (Z.of_nat (length data), fold_left (process_order w config) data st)
      end
  end.

End Orders.

(** ** The stand-alone polling script *)

Module PollingScript.

Import Orders.

(** [mark_order_printed] of [print-orders-polling.py]. *)
Definition mark_order_printed (w : OrderWorld) (order_id : string) (pdf_path : option string)
  (st : PollState) : bool * PollState :=
  let update_data := mkUpdate true (utcnow_iso w) None in
  let attempt_with_path :=
    match pdf_path with
    | Some p => if PyStr.truthy p then Some p else None
    | None => None
    end in
  match attempt_with_path with
  | Some p =>
      match db_update w order_id (mkUpdate true (utcnow_iso w) (Some p)) st with
      | (Returned _, st) => (true, st)
      | (Raised db_error, st) =>
          if PyStr.contains "pdf_path" db_error
          then
            match db_update w order_id update_data st with
            | (Returned _, st) => (true, st)
            | (Raised _, st) => (false, st)
            end
          else (false, st)
      end
  | None =>
      match db_update w order_id update_data st with
      | (Returned _, st) => (true, st)
      | (Raised _, st) => (false, st)
      end
  end.

End PollingScript.

(** ** Pending-action mailbox *)

Module Mailbox.

(** The values the global [pending_action] takes besides [None]. *)
Inductive Action :=
| Settings
| Orders
| Update (latest_version download_url : string).

(** The calls [check_pending_actions] makes on the UI thread. *)
Inductive UICall :=
| DoShowSettings
| DoShowOrders
| PromptUpdate (latest_version download_url : string).

Record MailboxState := mkMailbox {
  pending_action : option Action;
  executed : list UICall
}.

Definition request_show_settings (st : MailboxState) : MailboxState :=
  mkMailbox (Some Settings) (executed st).

Definition request_show_orders (st : MailboxState) : MailboxState :=
  mkMailbox (Some Orders) (executed st).

Definition on_update_available (latest_version download_url : string) (st : MailboxState) : MailboxState :=
  mkMailbox (Some (Update latest_version download_url)) (executed st).

Definition check_pending_actions (st : MailboxState) : MailboxState :=
  match pending_action st with
  | Some Settings => mkMailbox None (executed st ++ [DoShowSettings])
  | Some Orders => mkMailbox None (executed st ++ [DoShowOrders])
  | Some (Update latest_version download_url) =>
      mkMailbox None (executed st ++ [PromptUpdate latest_version download_url])
  | None => st
  end.

(** The steps of the threads that touch the mailbox, interleaved. *)
Inductive Step :=
| Request (a : Action)
| DrainTick.

Definition request (a : Action) (st : MailboxState) : MailboxState :=
  match a with
  | Settings => request_show_settings st
  | Orders => request_show_orders st
  | Update v u => on_update_available v u st
  end.

Definition step (st : MailboxState) (s : Step) : MailboxState :=
  match s with
  | Request a => request a st
  | DrainTick => check_pending_actions st
  end.

Definition run (steps : list Step) (st : MailboxState) : MailboxState :=
  fold_left step steps st.

End Mailbox.


(** ** The script that resets the orders for a reprint *)

Module ResetScript.

Import Orders.

(** The id the script excludes so that the update has a filter. *)
Definition nil_id : string := "00000000-0000-0000-0000-000000000000".

(** [{'printed': False, 'printed_at': None, 'pdf_path': None}] on a row. *)
Definition reset_row (row : OrderRow) : OrderRow :=
  {| order_number := order_number row;
     order_location := order_location row;
     printed := false;
     printed_at := None;
     pdf_path := None;
     created_at := created_at row |}.

(** [update({...}).neq('id', nil_id).execute()] on the table. *)
Definition reset_table (store : Store) : Store :=
  map_imap (fun id row => Some (if String.eqb id nil_id then row else reset_row row)) store.

(** The script: the number it prints, [len(result.data)] or 0, and the
    table it leaves. *)
Definition reset_orders (store : Store) : nat * Store :=
  let store' := reset_table store in
  (length (List.filter (fun order : Order => negb (String.eqb (order_id order) nil_id))
             (map_to_list store')),
   store').

End ResetScript.

(** ** Sales synchroniser *)

Module SalesSync.

Import Inventory Sales.

Definition SALES_FILE_PATTERN : string := "Sales by Transaction".

(** [find_sales_files]: the scan of [find_all_inventory_files] with the
    fixed pattern. *)
Definition find_sales_files (fs : Locator.Folder) (watch_folder : string)
  : list Locator.FileInfo :=
  match fs with
  | None => []
  | Some entries => Locator.scan watch_folder SALES_FILE_PATTERN entries
  end.

(** [get_latest_sales_file] *)
Definition get_latest_sales_file (fs : Locator.Folder) (watch_folder : string)
  : option string * list string :=
  let files := find_sales_files fs watch_folder in
  match sort_desc (fun f : Locator.FileInfo => snd (fst f)) files with
  | [] => (None, [])
  | f :: rest =>
      (Some (fst (fst f)), map (fun g : Locator.FileInfo => fst (fst g)) (f :: rest))
  end.

(** What [sync_sales] does to the outside, in order. *)
Inductive SalesEvent :=
| EvSalesUpsert (record : DailySales)
| EvSalesRemove (file_path : string)
| EvSalesNotify (message title : string).

Record SalesWorld := mkSalesWorld {
  sales_read_excel : string -> Outcome (list SalesRow);
  sales_upsert : DailySales -> Outcome unit;
  sales_remove_error : string -> option string;
  sales_tray_icon : bool
}.

Record SalesState := mkSalesState {
  sales_folder : Locator.Folder;
  sales_events : list SalesEvent
}.

Definition sales_emit (e : SalesEvent) (st : SalesState) : SalesState :=
  mkSalesState (sales_folder st) (sales_events st ++ [e]).

Definition sales_notify (w : SalesWorld) (message title : string) (st : SalesState)
  : SalesState :=
  if sales_tray_icon w then sales_emit (EvSalesNotify message title) st else st.

(** The loop over [all_files] at the end of [sync_sales]: the loop of
    [delete_all_inventory_files], written out in place. *)
Definition remove_sales_files (w : SalesWorld) (watch_folder : string)
  (file_list : list string) (st : SalesState) : SalesState :=
  mkSalesState
    (match sales_folder st with
     | Some entries =>
         Some (Locator.delete_all_inventory_files (sales_remove_error w) watch_folder
                 file_list entries)
     | None => None
     end)
    (sales_events st ++ map EvSalesRemove file_list).

Section WithFormats.

(** The collaborators of [process_sales_file], and the text of an amount
    with two decimals, [f"{x:.2f}"]. *)
Variable int_of_string : string -> Outcome Z.
Variable float_of_string : string -> Outcome PyFloat.float.
Variable column_sum : list NumCell -> Outcome NumCell.
Variable parse_report_date : Cell -> string.
Variable format_2f : Amount -> string.

Definition synced_message (record : DailySales) : string :=
  "Sales synced: " ++ PyStr.str_of_Z (total_transactions record) ++ " transactions, $"
    ++ format_2f (total_receipts record).

(** [sync_sales] *)
Definition sync_sales (w : SalesWorld) (watch_folder store : string)
  (show_notification : bool) (st : SalesState) : bool * SalesState :=
  match get_latest_sales_file (sales_folder st) watch_folder with
  | (None, _) => (false, st)
  | (Some latest_file, all_files) =>
      if negb (PyStr.truthy latest_file) then (false, st)
      else
        match process_sales_file int_of_string float_of_string column_sum parse_report_date
                (sales_read_excel w) latest_file store with
        | None => (false, st)
        | Some record =>
            let st := sales_emit (EvSalesUpsert record) st in
            match sales_upsert w record with
            | Raised msg =>
                (false, sales_notify w ("Sales sync error: " ++ first50 msg)
                          "Sales Sync Error" st)
            | Returned _ =>
                let st := remove_sales_files w watch_folder all_files st in
                let st :=
                  if show_notification
                  then sales_notify w (synced_message record) "Sales Sync" st
                  else st in
                (true, st)
            end
        end
  end.

End WithFormats.

End SalesSync.

(** ** One cycle of the polling loop *)

Module Cycle.

Import Inventory SalesSync.




Section WithParsers.

Variable int_of_string : string -> Outcome Z.
Variable float_of_string : string -> Outcome PyFloat.float.
Variable column_sum : list Inventory.NumCell -> Outcome Inventory.NumCell.
Variable parse_report_date : Cell -> string.
Variable format_2f : Sales.Amount -> string.



End WithParsers.

End Cycle.

(** ** The pass of the stand-alone polling script *)

Module ScriptPass.

Import Orders PollingScript.

(** The loop over [response.data] in [poll_for_orders] of
    [print-orders-polling.py]. The script's own [create_pdf_order] returns
    the path it was given, which is truthy, or raises; an exception leaves
    the loop for the handler around the whole pass. *)
Fixpoint process_orders (w : OrderWorld) (data : list Order) (st : PollState)
  : Outcome unit * PollState :=
  match data with
  | [] => (Returned tt, st)
  | order :: rest =>
      let st := emit (EvProcessing (order_id order)) st in
      let pdf_path := pdf_path_of w order in
      match create_pdf_order w order pdf_path with
      | Raised e => (Raised e, st)
      | Returned false => process_orders w rest st
      | Returned true =>
          process_orders w rest
            (snd (mark_order_printed w (order_id order) (Some pdf_path) st))
      end
  end.

(** [poll_for_orders]: every unprinted order, newest first. *)
Definition poll_for_orders (w : OrderWorld) (st : PollState) : PollState :=
  match select_error w with
  | Some _ => st
  | None => snd (process_orders w (run_query (mkQuery false None) (store st)) st)
  end.

End ScriptPass.

(** ** The item groups of the order form *)

Module OrderForm.

(** A value of the item data as [json] decodes it: null (also for a key
    that is missing, which [dict.get] turns into [None]), a boolean, an
    integer or a string. *)
Inductive Json := JNull | JBool (b : bool) | JInt (n : Z) | JStr (s : string).

(** Truth value of a decoded value. *)
Definition json_truthy (v : Json) : bool :=
  match v with
  | JNull => false
  | JBool b => b
  | JInt n => negb (n =? 0)%Z
  | JStr s => PyStr.truthy s
  end.

(** [a or b] *)
Definition py_or (a b : Json) : Json := if json_truthy a then a else b.

(** [v == n] for an integer literal [n]: [True == 1] and [False == 0]
    hold in Python. *)
Definition eq_int (v : Json) (n : Z) : bool :=
  match v with
  | JInt m => (m =? n)%Z
  | JBool b => ((if b then 1 else 0) =? n)%Z
  | _ => false
  end.

(** [v == s] for a string literal [s] *)
Definition eq_str (v : Json) (s : string) : bool :=
  match v with
  | JStr t => String.eqb t s
  | _ => false
  end.

(** [str(v)] *)
Definition json_str (v : Json) : string :=
  match v with
  | JNull => "None"
  | JBool true => "True"
  | JBool false => "False"
  | JInt n => PyStr.str_of_Z n
  | JStr s => s
  end.

(** The [fulfillment] dictionary of an item; [f_method] is [None] when
    the key is missing, and a string otherwise. *)
Record Fulfillment := mkFulfillment {
  f_method : option string;
  f_location : Json;
  f_pickup_location : Json;
  f_ship_from : Json
}.

Record Item := mkItem {
  item_name : string;
  item_sku : option string;
  item_fulfillment : option Fulfillment
}.

(** [item.get('fulfillment', {})] *)
Definition fulfillment_of (item : Item) : Fulfillment :=
  default (mkFulfillment None JNull JNull JNull) (item_fulfillment item).

(** The store a pickup is grouped under. *)
Definition pickup_location_name (location : Json) : string :=
  if eq_int location 1 || eq_str location "1"
     || String.eqb (PyStr.lower (json_str location)) "yakima"
  then "Yakima"
  else if eq_int location 2 || eq_str location "2"
          || String.eqb (PyStr.lower (json_str location)) "toppenish"
  then "Toppenish"
  else "Toppenish".

(** The key an item is filed under. *)
Definition group_key (item : Item) : string :=
  let fulfillment := fulfillment_of item in
  let method := default "unknown" (f_method fulfillment) in
  if String.eqb method "pickup"
  then "pickup_" ++ pickup_location_name
                      (py_or (f_location fulfillment) (f_pickup_location fulfillment))
  else method.

(** A dictionary from keys to item lists, in insertion order. *)
Definition Groups : Type := list (string * list Item).

Fixpoint dict_get (key : string) (d : Groups) : option (list Item) :=
  match d with
  | [] => None
  | (k, v) :: rest => if String.eqb k key then Some v else dict_get key rest
  end.

(** [if key not in d: d[key] = []] followed by [d[key].append(item)] *)
Fixpoint dict_append (key : string) (item : Item) (d : Groups) : Groups :=
  match d with
  | [] => [(key, [item])]
  | (k, v) :: rest =>
      if String.eqb k key then (k, (v ++ [item])%list) :: rest
      else (k, v) :: dict_append key item rest
  end.

(** The loop over [order['items']]. *)
Definition items_by_fulfillment (items : list Item) : Groups :=
  fold_left (fun d item => dict_append (group_key item) item d) items [].

Definition known_order : list string :=
  ["shipping"; "delivery"; "pickup_Yakima"; "pickup_Toppenish"].

(** [fulfillment_order], once the keys it does not list are appended. *)
Definition fulfillment_order (d : Groups) : list string :=
  fold_left (fun order key => if PyStr.str_in key order then order else (order ++ [key])%list)
    (map fst d) known_order.

(** The groups the drawing loop goes through, in order, each with its
    items. *)
Definition drawn_groups (items : list Item) : Groups :=
  let d := items_by_fulfillment items in
  flat_map (fun key => match dict_get key d with
                       | Some group => [(key, group)]
                       | None => []
                       end)
    (fulfillment_order d).

End OrderForm.

(** ** The update check *)

Module Updater.

(** [s.lstrip('v')] *)
Fixpoint lstrip_v (s : string) : string :=
  match s with
  | EmptyString => EmptyString
  | String c s' => if Ascii.eqb c "v" then lstrip_v s' else s
  end.

(** [s.split('.')]: one more piece than there are dots. *)
Fixpoint split_dot (s : string) : list string :=
  match s with
  | EmptyString => [EmptyString]
  | String c s' =>
      if Ascii.eqb c "." then EmptyString :: split_dot s'
      else
        match split_dot s' with
        | piece :: rest => String c piece :: rest
        | [] => [String c EmptyString]
        end
  end.

(** The underscores of an integer literal stand alone and between two
    characters; [after_digit] tells whether the previous character was
    one that an underscore may follow. The empty text is refused. *)
Fixpoint well_grouped (s : string) (after_digit : bool) : bool :=
  match s with
  | EmptyString => after_digit
  | String c s' =>
      if Ascii.eqb c "_" then after_digit && well_grouped s' false
      else well_grouped s' true
  end.

Section WithDigitLimit.

(** [sys.get_int_max_str_digits()]: [None] for an interpreter without the
    limit, or with the limit switched off. *)
Variable max_str_digits : option nat.

Definition exceeds_limit (digits : string) : bool :=
  match max_str_digits with
  | Some limit => Nat.ltb limit (String.length digits)
  | None => false
  end.

(** [int(x)] on a string: [None] when it raises [ValueError]. White space
    around the literal is dropped, one sign may lead, and the rest are
    decimal digits, possibly grouped by underscores. *)
Definition py_int (x : string) : option Z :=
  let t := PyStr.strip x in
  let '(negative, body) :=
    match t with
    | String c r =>
        if Ascii.eqb c "-" then (true, r)
        else if Ascii.eqb c "+" then (false, r)
        else (false, t)
    | EmptyString => (false, t)
    end in
  if well_grouped body false then
    let digits := PyStr.remove_char "_" body in
    if exceeds_limit digits then None
    else
      match NilEmpty.uint_of_string digits with
      | Some d => Some (if negative then (- Z.of_uint d)%Z else Z.of_uint d)
      | None => None
      end
  else None.

(** [tuple(int(x) for x in pieces)], [None] when one [int] raises. *)
Fixpoint ints (pieces : list string) : option (list Z) :=
  match pieces with
  | [] => Some []
  | x :: rest =>
      match py_int x with
      | Some n =>
          match ints rest with
          | Some ns => Some (n :: ns)
          | None => None
          end
      | None => None
      end
  end.

(** [parse_version] *)
Definition parse_version (version_str : string) : list Z :=
  let v := lstrip_v (PyStr.strip version_str) in
  match ints (split_dot v) with
  | Some t => t
  | None => [0; 0; 0]%Z
  end.

(** [a <= b] on tuples of integers. *)
Fixpoint tuple_le (a b : list Z) : bool :=
  match a, b with
  | [], _ => true
  | _ :: _, [] => false
  | x :: a', y :: b' =>
      if (x <? y)%Z then true
      else if (x =? y)%Z then tuple_le a' b'
      else false
  end.

Record Asset := mkAsset {
  asset_name : string;
  browser_download_url : string
}.

(** The release as [resp.json()] returns it; [tag_name] is [None] when
    the key is missing. *)
Record Release := mkRelease {
  tag_name : option string;
  assets : list Asset
}.

(** What [requests.get] does: it raises, or answers with a status code
    and a body that [resp.json()] decodes or fails to decode. *)
Inductive Reply :=
| ReplyError (msg : string)
| ReplyStatus (status_code : Z) (body : Outcome Release).

Definition no_update : bool * option string * option string := (false, None, None).

(** [check_for_update]; [GITHUB_REPO] is a non-empty constant. *)
Definition check_for_update (has_requests : bool) (reply : Reply) (current_version : string)
  : bool * option string * option string :=
  if negb has_requests then no_update
  else
    match reply with
    | ReplyError _ => no_update
    | ReplyStatus status_code body =>
        if (status_code =? 404)%Z then no_update
        else if (400 <=? status_code)%Z && (status_code <? 600)%Z then no_update
        else
          match body with
          | Raised _ => no_update
          | Returned release =>
              let latest_version := default "" (tag_name release) in
              if negb (PyStr.truthy latest_version) then no_update
              else if tuple_le (parse_version latest_version) (parse_version current_version)
              then no_update
              else
                match find (fun asset => PyStr.endswith (PyStr.lower (asset_name asset)) ".exe")
                        (assets release) with
                | Some asset =>
                    if PyStr.truthy (browser_download_url asset)
                    then (true, Some latest_version, Some (browser_download_url asset))
                    else no_update
                | None => no_update
                end
          end
    end.

End WithDigitLimit.

End Updater.

(** ** FedEx: the access token and the ship-from store *)

Module FedEx.

Import OrderForm.

Definition FEDEX_AUTH_URL : string := "https://apis.fedex.com/oauth/token".
Definition FEDEX_AUTH_URL_SANDBOX : string := "https://apis-sandbox.fedex.com/oauth/token".

(** [_token_cache]; times are readings of [datetime.now()] in
    microseconds. *)
Record TokenCache := mkTokenCache {
  cached_token : option string;
  expires_at : option Z
}.

(** What [requests.post] does: it raises a [RequestException], or answers
    with a status code and, for the body of a 200, the keys
    [access_token] and [expires_in] (in seconds) when present. *)
Inductive AuthReply :=
| AuthError (msg : string)
| AuthStatus (status_code : Z) (access_token : option string) (expires_in : option Z).

(** A request as the authentication endpoint sees it. *)
Record AuthRequest := mkAuthRequest {
  auth_url : string;
  client_id : string;
  client_secret : string
}.

Record TokenState := mkTokenState {
  cache : TokenCache;
  requests : list AuthRequest
}.

Definition seconds (n : Z) : Z := (n * 1000000)%Z.

(** [get_fedex_token]; [now] is the clock when the cache is looked at,
    [now_stored] the clock when the answer is stored. *)
Definition get_fedex_token (post : AuthRequest -> AuthReply) (api_key secret_key : string)
  (use_sandbox : bool) (now now_stored : Z) (st : TokenState) : option string * TokenState :=
  let fresh :=
    match cached_token (cache st), expires_at (cache st) with
    | Some token, Some expiry => PyStr.truthy token && (now <? expiry)%Z
    | _, _ => false
    end in
  if fresh then (cached_token (cache st), st)
  else
    let request :=
      mkAuthRequest (if use_sandbox then FEDEX_AUTH_URL_SANDBOX else FEDEX_AUTH_URL)
        api_key secret_key in
    let st := mkTokenState (cache st) (requests st ++ [request]) in
    match post request with
    | AuthStatus status_code token expires_in =>
        if (status_code =? 200)%Z
        then
          let expiry := (now_stored + seconds (default 3600 expires_in - 300))%Z in
          (token, mkTokenState (mkTokenCache token (Some expiry)) (requests st))
        else (None, st)
    | AuthError _ => (None, st)
    end.

(** [has_shipping_items] *)
Definition is_shipping (item : Item) : bool :=
  match f_method (fulfillment_of item) with
  | Some method => String.eqb method "shipping"
  | None => false
  end.

Definition has_shipping_items (items : list Item) : bool := existsb is_shipping items.

(** The loop over the items in [get_ship_from_location]. *)
Fixpoint ship_from_items (items : list Item) (default_location : string) : string :=
  match items with
  | [] => default_location
  | item :: rest =>
      if is_shipping item then
        let fulfillment := fulfillment_of item in
        let location := py_or (f_location fulfillment) (f_ship_from fulfillment) in
        if json_truthy location then
          if String.eqb (PyStr.lower (json_str location)) "yakima" || eq_int location 1
          then "Yakima"
          else if String.eqb (PyStr.lower (json_str location)) "toppenish" || eq_int location 2
          then "Toppenish"
          else ship_from_items rest default_location
        else ship_from_items rest default_location
      else ship_from_items rest default_location
  end.

(** [get_ship_from_location], on the [order_location] and the items of
    the order. *)
Definition get_ship_from_location (order_location : string) (items : list Item)
  (default_location : string) : string :=
  let order_location := PyStr.lower order_location in
  if String.eqb order_location "yakima" then "Yakima"
  else if String.eqb order_location "toppenish" then "Toppenish"
  else ship_from_items items default_location.

(** The store [print_shipping_label] ships from. *)
Definition label_ship_from (config_store_name order_location : string) (items : list Item)
  : string :=
  let store_name := PyStr.lower config_store_name in
  if String.eqb store_name "yakima" then "Yakima"
  else if String.eqb store_name "toppenish" then "Toppenish"
  else get_ship_from_location order_location items "Toppenish".

End FedEx.

(** ** The settings window *)

Module Settings.

(** [c.isalnum()] *)
Definition isalnum (c : ascii) : bool :=
  let n := nat_of_ascii c in
  (Nat.leb 48 n && Nat.leb n 57) || (Nat.leb 65 n && Nat.leb n 90)
  || (Nat.leb 97 n && Nat.leb n 122).

(** [any(c.isalnum() for c in s)] *)
Fixpoint any_alnum (s : string) : bool :=
  match s with
  | EmptyString => false
  | String c s' => isalnum c || any_alnum s'
  end.

Record Address := mkAddress {
  company : string;
  street : string;
  city : string;
  state : string;
  zip : string;
  phone : string
}.

(** The variables of the window that [_save_settings] reads. *)
Record Form := mkForm {
  store_var : string;
  folder_var : string;
  pattern_var : string;
  url_var : string;
  key_var : string;
  enable_printer_var : Z;
  printer_name_var : string;
  fedex_api_key_var : string;
  fedex_secret_key_var : string;
  fedex_account_var : string;
  yakima_address : Address;
  toppenish_address : Address;
  fedex_sandbox_var : Z
}.

(** The dictionary [save_config] writes and returns. *)
Record AppConfig := mkAppConfig {
  store_name : string;
  watch_folder : string;
  file_pattern : string;
  supabase_url : string;
  supabase_key : string;
  enable_printer : bool;
  printer_name : option string;
  fedex_api_key : option string;
  fedex_secret_key : option string;
  fedex_account_number : option string;
  shipper_yakima : Address;
  shipper_toppenish : Address;
  fedex_use_sandbox : bool
}.

(** [not value or not any(c.isalnum() for c in value)] *)
Definition lacks_text (value : string) : bool :=
  negb (PyStr.truthy value) || negb (any_alnum value).

(** The error list of [validate_all_fields]; [isdir] is
    [os.path.isdir]. *)
Definition field_errors (isdir : string -> bool) (form : Form) : list string :=
  let store_value := PyStr.strip (store_var form) in
  (if negb (PyStr.truthy store_value) || negb (PyStr.str_in store_value ["Yakima"; "Toppenish"])
   then ["Please select a Store Location (Yakima or Toppenish)"] else [])
  ++ (if negb (PyStr.truthy (folder_var form)) || negb (isdir (folder_var form))
      then ["Please select a valid folder"] else [])
  ++ (if lacks_text (PyStr.strip (pattern_var form))
      then ["File Name pattern is required"] else [])
  ++ (if lacks_text (PyStr.strip (url_var form))
      then ["Supabase URL is required"] else [])
  ++ (if lacks_text (PyStr.strip (key_var form))
      then ["Supabase Key is required"] else []).

(** [validate_all_fields] *)
Definition validate_all_fields (isdir : string -> bool) (form : Form) : bool :=
  match field_errors isdir form with
  | [] => true
  | _ => false
  end.

(** [value if value else None] *)
Definition text_or_none (value : string) : option string :=
  if PyStr.truthy value then Some value else None.

(** [_save_settings]: the configuration handed to [on_complete], or
    [None] when validation refuses the form. *)
Definition save_settings (isdir : string -> bool) (form : Form) : option AppConfig :=
  if negb (validate_all_fields isdir form) then None
  else
    Some {| store_name := store_var form;
            watch_folder := folder_var form;
            file_pattern := pattern_var form;
            supabase_url := url_var form;
            supabase_key := key_var form;
            enable_printer := negb (enable_printer_var form =? 0)%Z;
            printer_name := text_or_none (printer_name_var form);
            fedex_api_key := text_or_none (fedex_api_key_var form);
            fedex_secret_key := text_or_none (fedex_secret_key_var form);
            fedex_account_number := text_or_none (fedex_account_var form);
            shipper_yakima := yakima_address form;
            shipper_toppenish := toppenish_address form;
            fedex_use_sandbox := negb (fedex_sandbox_var form =? 0)%Z |}.

(** The keys of the configuration that order polling reads. *)
Definition polling_config (config : AppConfig) : Orders.Config :=
  Orders.mkConfig (store_name config) (enable_printer config) (printer_name config).

End Settings.

(** ** From the update check to the prompt *)

Module UpdateNotice.

Import Mailbox Updater.

Definition APP_VERSION : string := "1.0.0".

(** The body of the thread [run_update_check] starts, after its delay,
    with [on_update_available] of [inventory_sync.py] as the callback. *)
Definition run_update_check (max_str_digits : option nat) (has_requests : bool)
  (reply : Reply) (st : MailboxState) : MailboxState :=
  match check_for_update max_str_digits has_requests reply APP_VERSION with
  | (true, Some latest_version, Some download_url) =>
      on_update_available latest_version download_url st
  | _ => st
  end.

End UpdateNotice.

(** ** The orders window *)

Module OrdersWindow.

Import Orders.

(** The message boxes of [print_selected]. *)
Inductive Dialog :=
| NoSelection
| NoPrinterSelected
| PrintedSuccessfully
| FailedToPrint
| OrderNotFound
| FailedWith (msg : string).

(** [print_selected]; [selected] is the id kept in the tags of the
    selected line, [None] without a selection. The order is fetched anew
    by its id before it is printed. *)
Definition print_selected (w : OrderWorld) (config : option Config) (selected : option string)
  (st : PollState) : Dialog * PollState :=
  match selected with
  | None => (NoSelection, st)
  | Some id =>
      let configured :=
        match config with
        | Some c =>
            match printer_name c with
            | Some name => if PyStr.truthy name then Some name else None
            | None => None
            end
        | None => None
        end in
      match configured with
      | None => (NoPrinterSelected, st)
      | Some name =>
          match select_error w with
          | Some msg => (FailedWith msg, st)
          | None =>
              match store st !! id with
              | None => (OrderNotFound, st)
              | Some row =>
                  match print_order_pdf w (id, row) true (Some name) st with
                  | (Some _, st) => (PrintedSuccessfully, st)
                  | (None, st) => (FailedToPrint, st)
                  end
              end
          end
      end
  end.

End OrdersWindow.

(** ** The printer list *)

Module PrinterList.

(** [s.split(sep)] for a one-character separator. *)
Fixpoint split_char (sep : ascii) (s : string) : list string :=
  match s with
  | EmptyString => [EmptyString]
  | String c s' =>
      if Ascii.eqb c sep then EmptyString :: split_char sep s'
      else
        match split_char sep s' with
        | piece :: rest => String c piece :: rest
        | [] => [String c EmptyString]
        end
  end.

Definition newline : ascii := ascii_of_nat 10.

(** [get_available_printers], on what running PowerShell gave: the return
    code and the standard output, or an exception. *)
Definition get_available_printers (result : Outcome (Z * string)) : list string :=
  match result with
  | Returned (returncode, stdout) =>
      if (returncode =? 0)%Z
      then map PyStr.strip
             (List.filter (fun p => PyStr.truthy (PyStr.strip p))
                (split_char newline (PyStr.strip stdout)))
      else []
  | Raised _ => []
  end.

End PrinterList.
(* ===================================================================== *)
(** * Part II: vocabulary of the properties                               *)
(* ===================================================================== *)

(** Newest first: every element is at least as large as all after it. *)
Definition descending {A : Type} (key : A -> Z) (l : list A) : Prop :=
  StronglySorted (fun a b => (key b <= key a)%Z) l.

Module PyStrSpec.

Import PyStr.

(** Every character of [s] passes the test [P]. *)
Fixpoint all_chars (P : ascii -> bool) (s : string) : bool :=
  match s with
  | EmptyString => true
  | String c s' => P c && all_chars P s'
  end.

Definition not_space (c : ascii) : bool := negb (is_space c).



End PyStrSpec.

Module LocatorSpec.

Import Locator.

Definition info_of (watch_folder : string) (e : DirEntry) : FileInfo :=
  (os_path_join watch_folder (file_name e), mod_time e, file_name e).

Definition path_of (f : FileInfo) : string := fst (fst f).
Definition mtime_of (f : FileInfo) : Z := snd (fst f).

(** A name is a candidate when the pattern occurs in it and it ends with
    the extension, stated on the characters of the name. *)
Definition candidate_name (file_pattern name : string) : Prop :=
  (exists pre post, name = (pre ++ file_pattern ++ post)%string)
  /\ (exists stem, name = (stem ++ ".xlsx")%string).

End LocatorSpec.

Module InventorySpec.

Import PyFloat Inventory.

(** The three verdicts of the specification. *)
Inductive Verdict := valid | wrong_source | unmarked.

(** The verdict a result triple of [validate_inventory_file] stands for. *)
Definition verdict_of (v : Validation) : option Verdict :=
  match v with
  | (true, None, _) => Some valid
  | (false, Some error_type, _) =>
      if String.eqb error_type "wrong_file" then Some wrong_source
      else if String.eqb error_type "no_marker" then Some unmarked
      else None
  | _ => None
  end.

(** The verdict of a call of the validator; none when it raises. *)
Definition verdict (o : Outcome Validation) : option Verdict :=
  match o with
  | Returned v => verdict_of v
  | Raised _ => None
  end.



(** The quantity in a cell, such as Total Stock: the whole number it
    holds, the integer part of a fraction, the number a text spells, and 0
    when the cell is blank. *)
Inductive quantity_in (int_of_string : string -> Outcome Z) : NumCell -> Z -> Prop :=
| quantity_blank : quantity_in int_of_string NBlank 0
| quantity_nan : quantity_in int_of_string (NFloat S754_nan) 0
| quantity_whole (n : Z) : quantity_in int_of_string (NInt n) n
| quantity_fraction (x : float) (n : Z) :
    trunc x = Some n -> quantity_in int_of_string (NFloat x) n
| quantity_text (s : string) (n : Z) :
    int_of_string s = Returned n -> quantity_in int_of_string (NStr s) n.




End InventorySpec.

Module SyncSpec.

Import Inventory.

(** A file with this path is in the watch folder. *)
Definition present (watch_folder : string) (fs : Locator.Folder) (path : string) : Prop :=
  exists entries e,
    fs = Some entries /\ In e entries
    /\ Locator.os_path_join watch_folder (Locator.file_name e) = path.

(** [os.remove] raises on this path although the file is there. *)
Definition removal_fails (w : SyncWorld) (path : string) : Prop :=
  remove_error w path <> None.

(** The record lists upserted and the paths removed, among some events. *)
Definition upserts_of (evs : list SyncEvent) : list (list InventoryRecord) :=
  flat_map (fun e => match e with EvUpsert records => [records] | _ => [] end) evs.

Definition removals_of (evs : list SyncEvent) : list string :=
  flat_map (fun e => match e with EvRemove path => [path] | _ => [] end) evs.

(** A row without a usable sku: blank, or empty once stripped. *)
Definition lacks_sku (row : Row) : Prop :=
  r_sku row = CNaN \/ PyStr.strip (py_str (r_sku row)) = "".

(** The notifications of [sync_inventory]. *)
Definition wrong_file_notice (w : SyncWorld) (st : SyncState) : SyncState :=
  notify w "Wrong inventory file! This appears to be the Yakima inventory. File deleted."
    "Inventory Sync Error" st.

Definition no_marker_notice (w : SyncWorld) (st : SyncState) : SyncState :=
  notify w
    "Are you sure this is Toppenish inventory? Could not detect correct inventory ID. File deleted."
    "Inventory Sync Warning" st.

Definition error_notice (w : SyncWorld) (msg : string) (st : SyncState) : SyncState :=
  notify w ("Sync error: " ++ first50 msg) "Inventory Sync Error" st.

Definition synced_notice (w : SyncWorld) (show_notification : bool) (st : SyncState) : SyncState :=
  if show_notification
  then notify w (default "Store" (config_store_name w) ++ " inventory synced to site")
         "Inventory Sync" st
  else st.

End SyncSpec.

(** A watch folder with two exports and a stray file, and the sheets the
    examples read from it.  In every sheet the SKU column holds texts and
    blanks, and the name column texts, so pandas hands the cells over as
    they are written here. *)
Module SyncScenario.

Import PyFloat Locator Inventory.

Definition watch_folder : string := "C:\exports".
Definition file_pattern : string := "Inventory".

Definition entries : list DirEntry :=
  [ mkEntry "Inventory_monday.xlsx" 100;
    mkEntry "notes.txt" 300;
    mkEntry "Inventory_tuesday.xlsx" 200 ].

Definition sync_start : SyncState := mkSyncState (Some entries) [].

(** A row with price 2.5, cost 1.0 and margin 0.6; the columns Qty On
    Order, Total Retail and Total Cost are blank throughout. *)
Definition product_with (name : string) (s : Cell) (stock margin : NumCell) : Row :=
  mkRow (CStr name) s (CStr "Acme") CNaN (NFloat (decimal 25 1)) (NFloat (of_Z 1)) stock
    (NInt 0) (NInt 0) NBlank margin NBlank NBlank.

Definition product (name : string) (s : Cell) (stock : Z) : Row :=
  product_with name s (NInt stock) (NFloat (decimal 6 1)).

Definition toppenish_marker (stock : Z) : Row :=
  product "Toppenish Store Marker" (CStr "99999") stock.

Definition yakima_marker (stock : Z) : Row :=
  product " YAKIMA store marker " (CStr " 9999 ") stock.

(** The export of the right store, with one product. *)
Definition good_sheet : list Row :=
  [ toppenish_marker 1; product "Widget" (CStr "W-1") 12; yakima_marker 0 ].

(** The export of the other store. *)
Definition other_store_sheet : list Row :=
  [ toppenish_marker 0; product "Widget" (CStr "W-1") 12; yakima_marker 1 ].

(** A sheet without the secondary marker. *)
Definition unmarked_sheet : list Row :=
  [ toppenish_marker 1; product "Widget" (CStr "W-1") 12 ].

(** A valid sheet whose product rows have no SKU: one cell is blank, the
    other holds spaces. *)
Definition sheet_without_sku : list Row :=
  [ toppenish_marker 1; product "Widget" CNaN 12; product "Gadget" (CStr "  ") 3;
    yakima_marker 0 ].

(** The right export with the markers in place, in which the stock of one
    product was typed as a text. *)
Definition sheet_with_odd_stock : list Row :=
  [ toppenish_marker 1;
    product_with "Widget" (CStr "W-1") (NStr "12 pcs") (NFloat (decimal 6 1));
    yakima_marker 0 ].

(** The right export with a SKU column of numbers and one blank: pandas
    hands such a column over as floats. *)
Definition sheet_with_number_keys : list Row :=
  [ product "Toppenish Store Marker" (CFloat 99999) 1;
    product "Widget" CNaN 12;
    product "Yakima Store Marker" (CFloat 9999) 0 ].

(** [int] and [float] of the interpreter on the texts of the examples: a
    text that spells a whole number is that number, and every other text
    of the examples is refused with the message of the interpreter.  Texts
    with a fraction or an exponent do not occur in the examples. *)
Definition int_of_text (s : string) : Outcome Z :=
  match Updater.py_int None s with
  | Some n => Returned n
  | None => Raised ("invalid literal for int() with base 10: '" ++ s ++ "'")
  end.

Definition float_of_text (s : string) : Outcome float :=
  match Updater.py_int None s with
  | Some n => Returned (of_Z n)
  | None => Raised ("could not convert string to float: '" ++ s ++ "'")
  end.

(** A world in which [os.remove] fails on the paths that [locked] names. *)
Definition locked_world (sheet : list Row) (store_up : bool)
  (locked : string -> option string) : SyncWorld :=
  {| read_excel := fun _ => Returned sheet;
     upsert := fun _ => if store_up then Returned tt else Raised "connection refused";
     remove_error := locked;
     tray_icon := true;
     config_store_name := Some "Toppenish" |}.

Definition sync_world (sheet : list Row) (store_up : bool) : SyncWorld :=
  locked_world sheet store_up (fun _ => None).

(** Monday's export is still open in Excel. *)
Definition monday_is_open (path : string) : option string :=
  if String.eqb path "C:\exports\Inventory_monday.xlsx"
  then Some "[WinError 32] The process cannot access the file because it is being used by another process"
  else None.

End SyncScenario.

Module SalesSpec.

Import PyFloat Inventory Sales.

(** [a] is the number [q] rounded to two decimals: a whole number of
    hundredths, at most half a hundredth away. *)
Definition rounded_to_2_decimals (q : Q) (a : Amount) : Prop :=
  exists n : Z, a = Hundredths n /\ (Qabs (Qmake n 100 - q) <= 1 # 200)%Q.

(** The amount in a cell of the Total row: the number it holds, the number
    a text spells, and 0 when the cell is blank. *)
Inductive amount_in (float_of_string : string -> Outcome float) : NumCell -> float -> Prop :=
| amount_blank : amount_in float_of_string NBlank zero
| amount_nan : amount_in float_of_string (NFloat S754_nan) zero
| amount_whole (n : Z) : amount_in float_of_string (NInt n) (of_Z n)
| amount_fraction (x : float) : is_nan x = false -> amount_in float_of_string (NFloat x) x
| amount_text (s : string) (x : float) :
    float_of_string s = Returned x -> amount_in float_of_string (NStr s) x.

(** The totals of a sheet, as [process_sales_file] takes them. *)
Definition totals_of (int_of_string : string -> Outcome Z)
  (float_of_string : string -> Outcome float)
  (column_sum : list NumCell -> Outcome NumCell) (df : list SalesRow) : Outcome Totals :=
  compute_totals int_of_string float_of_string column_sum
    (List.filter (fun row => is_total row) df)
    (List.filter (fun row => negb (is_total row)) df).

End SalesSpec.

(** Sales sheets in whole dollars: an ordinary day, a day of refunds, and
    a day with a thin margin. *)
Module SalesScenario.

Import PyFloat Inventory Sales.

Definition transaction (id : Z) (qty : Z) (amount profit : Z) : SalesRow :=
  mkSalesRow (CInt id) (CStr "03/14/2025") (NInt qty) (NFloat (of_Z amount))
    (NFloat (of_Z (amount - profit))) (NFloat (of_Z profit)) (NFloat zero) (NFloat zero)
    (NFloat (of_Z amount)).

Definition total_line (qty : Z) (amount profit : Z) : SalesRow :=
  mkSalesRow (CStr "Total") CNaN (NInt qty) (NFloat (of_Z amount))
    (NFloat (of_Z (amount - profit))) (NFloat (of_Z profit)) (NFloat zero) (NFloat zero)
    (NFloat (of_Z amount)).

Definition ordinary_day : list SalesRow :=
  [ transaction 1001 3 3000 800; transaction 1002 2 1500 400; total_line 5 4500 1200 ].

Definition refund_day : list SalesRow :=
  [ transaction 2001 (-1) (-100) (-30); total_line (-1) (-100) (-30) ].

Definition thin_margin_day : list SalesRow :=
  [ transaction 3001 1 4000 1; total_line 1 4000 1 ].

(** The date of the report, in ISO format, on the cells of the examples;
    a cell that holds no date gives the day the program runs, here the day
    after. *)
Definition date_text (c : Cell) : string :=
  if String.eqb (py_str c) "03/14/2025" then "2025-03-14" else "2025-03-15".

Definition reader (df : list SalesRow) : string -> Outcome (list SalesRow) :=
  fun _ => Returned df.

(** [column.sum()] on the columns of the examples: whole numbers, and
    floats that are whole numbers of dollars, which add up without
    rounding in any order; blanks are skipped. *)
Definition column_total (cells : list NumCell) : Outcome NumCell :=
  fold_left
    (fun (acc : Outcome NumCell) (c : NumCell) =>
       total <-- acc;;
       match total, c with
       | _, NStr _ | NStr _, _ =>
           Raised "unsupported operand type(s) for +: 'int' and 'str'"
       | _, NBlank => Returned total
       | NBlank, _ => Returned c
       | NInt a, NInt b => Returned (NInt (a + b))
       | NInt a, NFloat y => Returned (NFloat (SFadd prec emax (of_Z a) y))
       | NFloat x, NInt b => Returned (NFloat (SFadd prec emax x (of_Z b)))
       | NFloat x, NFloat y => Returned (NFloat (SFadd prec emax x y))
       end)
    cells (Returned (NInt 0)).

(** [f"{x:.2f}"] on an amount. *)
Definition two_decimals (a : Amount) : string :=
  match a with
  | Hundredths n =>
      let cents := Z.abs n in
      (if (n <? 0)%Z then "-" else "")
        ++ PyStr.str_of_Z (cents / 100) ++ "."
        ++ PyStr.str_of_Z (cents mod 100 / 10) ++ PyStr.str_of_Z (cents mod 10)
  | Unrounded (S754_infinity true) => "-inf"
  | Unrounded (S754_infinity false) => "inf"
  | Unrounded _ => "nan"
  end.

(** A watch folder with today's report and an older copy of it. *)
Definition sales_entries : list Locator.DirEntry :=
  [ Locator.mkEntry "Sales by Transaction (1).xlsx" 40;
    Locator.mkEntry "notes.txt" 300;
    Locator.mkEntry "Sales by Transaction.xlsx" 50 ].

Definition sales_world (df : list SalesRow) (locked : string -> option string)
  : SalesSync.SalesWorld :=
  {| SalesSync.sales_read_excel := reader df;
     SalesSync.sales_upsert := fun _ => Returned tt;
     SalesSync.sales_remove_error := locked;
     SalesSync.sales_tray_icon := true |}.

(** The older copy is still open in Excel. *)
Definition copy_is_open (path : string) : option string :=
  if String.eqb path "C:\exports\Sales by Transaction (1).xlsx"
  then Some "[WinError 32] The process cannot access the file because it is being used by another process"
  else None.

End SalesScenario.

Module PrinterSpec.

(** [p] is the first element of [l] with property [P]. *)
Definition first_such (P : string -> Prop) (l : list string) (p : string) : Prop :=
  exists before after,
    l = (before ++ p :: after)%list /\ P p /\ forall q, In q before -> ~ P q.

Section IgnoringCase.

(** [str.lower] of the interpreter. *)
Variable lower : string -> string.

(** The two names are equal once case is ignored. *)
Definition same_ignoring_case (a b : string) : Prop :=
  lower a = lower b.

(** [name] occurs in [p] once case is ignored. *)
Definition occurs_ignoring_case (name p : string) : Prop :=
  exists pre post, lower p = (pre ++ lower name ++ post)%string.

End IgnoringCase.

(** [str.lower] on the two letters that the examples hold outside the
    ASCII range, as UTF-8: the capital E with acute accent (bytes 195,
    137) becomes the small one (bytes 195, 169). *)
Fixpoint lower_latin (s : string) : string :=
  match s with
  | String a ((String b rest) as tail) =>
      if (Ascii.eqb a (ascii_of_nat 195) && Ascii.eqb b (ascii_of_nat 137))%bool
      then String a (String (ascii_of_nat 169) (lower_latin rest))
      else String (PyStr.lower_ascii a) (lower_latin tail)
  | String a EmptyString => String (PyStr.lower_ascii a) EmptyString
  | EmptyString => EmptyString
  end.

(** Two spellings of one printer name, in UTF-8: the first letter is the
    small e with acute accent in the one and the capital in the other. *)
Definition accented_small : string :=
  String (ascii_of_nat 195) (String (ascii_of_nat 169) "pson").

Definition accented_capital : string :=
  String (ascii_of_nat 195) (String (ascii_of_nat 137) "PSON").

End PrinterSpec.

Module OrdersSpec.

Import Orders.

(** What polling reads from the configuration. *)
Definition printing_enabled (config : option Config) : bool :=
  match config with Some c => enable_printer c | None => false end.

Definition configured_printer (config : option Config) : option string :=
  match config with Some c => printer_name c | None => None end.

(** The document of the order was rendered. *)
Definition render_ok (w : OrderWorld) (order : Order) : Prop :=
  create_pdf_order w order (pdf_path_of w order) = Returned true.

(** The document of the order was handed to the printer. *)
Definition dispatch_ok (w : OrderWorld) (config : option Config) (order : Order) : Prop :=
  Printer.send_pdf_to_printer (print_env w) (pdf_path_of w order) (configured_printer config)
  = true.

(** The updates requested and the orders taken up, among some events. *)
Definition updates_of (evs : list OrderEvent) : list (string * Update) :=
  flat_map (fun e => match e with EvUpdate id u => [(id, u)] | _ => [] end) evs.

Definition processing_of (evs : list OrderEvent) : list string :=
  flat_map (fun e => match e with EvProcessing id => [id] | _ => [] end) evs.

(** The two field sets of the commit in [print_order_pdf]. *)
Definition full_update (w : OrderWorld) (order : Order) : Update :=
  mkUpdate true (now_iso w) (Some (pdf_path_of w order)).

Definition reduced_update (w : OrderWorld) : Update :=
  mkUpdate true (now_iso w) None.

(** The two field sets of the commit in [mark_order_printed]. *)
Definition script_full_update (w : OrderWorld) (pdf_path : string) : Update :=
  mkUpdate true (utcnow_iso w) (Some pdf_path).

Definition script_reduced_update (w : OrderWorld) : Update :=
  mkUpdate true (utcnow_iso w) None.

(** The text of the error mentions [word]. *)
Definition mentions (word msg : string) : Prop :=
  exists pre post, msg = (pre ++ word ++ post)%string.

(** The store name is one of the two the query filters on. *)
Definition known_store (name : string) : Prop :=
  name = "yakima" \/ name = "toppenish".

End OrdersSpec.

(** Four orders, a printer, and stores that answer as the examples need. *)
Module OrdersScenario.

Import Orders.

Definition order_row (number location : string) (is_printed : bool) (created : Z)
  : OrderRow :=
  mkOrderRow number location is_printed None None created.

Definition orders_table : Store :=
  <[ "a1" := order_row "1001" "yakima" false 10 ]>
  (<[ "b2" := order_row "1002" "toppenish" false 20 ]>
  (<[ "c3" := order_row "1003" "both" false 30 ]>
  (<[ "d4" := order_row "1004" "yakima" true 5 ]> ∅))).

Definition orders_start : PollState := mkPollState orders_table [].

Definition yakima_config : Config :=
  mkConfig "Yakima" true (Some "canon tr4700 series").

Definition unnamed_config : Config :=
  mkConfig "Main Street" true (Some "canon tr4700 series").

(** A machine whose rasteriser exits with [exit_code]. *)
Definition machine (exit_code : Z) : Printer.PrintEnv :=
  {| Printer.str_lower := PyStr.lower;
     Printer.available_printers := ["Microsoft Print to PDF"; "Canon TR4700 series"];
     Printer.default_printer := Some "Microsoft Print to PDF";
     Printer.ghostscript_path := Some "C:\gs\bin\gswin64c.exe";
     Printer.path_exists := fun _ => true;
     Printer.run_ghostscript := fun _ _ _ => Returned exit_code |}.

(** A world whose rasteriser exits with [exit_code] and whose store answers
    updates with [answer]. *)
Definition orders_world (exit_code : Z) (answer : string -> Update -> option string) : OrderWorld :=
  {| pdf_output_dir := "C:\app\order_pdfs";
     now_stamp := "20250314_101500";
     now_iso := "2025-03-14T10:15:00";
     utcnow_iso := "2025-03-14T17:15:00";
     create_pdf_order := fun _ _ => Returned true;
     print_env := machine exit_code;
     select_error := None;
     update_error := answer;
     orders_tray_icon := true |}.

Definition accepts_all : string -> Update -> option string := fun _ _ => None.

(** A store without the [pdf_path] column. *)
Definition no_pdf_path_column : string -> Update -> option string :=
  fun _ u =>
    match upd_pdf_path u with
    | Some _ =>
        Some "{'code': 'PGRST204', 'message': 'Could not find the pdf_path column of orders in the schema cache'}"
    | None => None
    end.

(** A store without the [printed_at] column. *)
Definition printed_at_error : string :=
  "{'code': 'PGRST204', 'message': 'Could not find the printed_at column of orders in the schema cache'}".

Definition no_printed_at_column : string -> Update -> option string :=
  fun _ _ => Some printed_at_error.

Definition document : string := "C:\app\order_pdfs\order_1001_20250314_101500.pdf".

(** A store that cannot be reached. *)
Definition unreachable : string -> Update -> option string :=
  fun _ _ => Some "[Errno 11001] getaddrinfo failed".

End OrdersScenario.

Module SalesSyncSpec.

Import SalesSync.

(** The records upserted and the paths removed, among some events. *)
Definition sales_upserts_of (evs : list SalesEvent) : list Sales.DailySales :=
  flat_map (fun e => match e with EvSalesUpsert record => [record] | _ => [] end) evs.

Definition sales_removals_of (evs : list SalesEvent) : list string :=
  flat_map (fun e => match e with EvSalesRemove path => [path] | _ => [] end) evs.

End SalesSyncSpec.


Module CycleSpec.

Import Locator SalesSync Cycle.



End CycleSpec.

(** A world in which rendering the document of one order raises. *)
Module ScriptScenario.

Import Orders OrdersScenario.

Definition failing_renderer (number : string) : OrderWorld :=
  {| pdf_output_dir := "order_pdfs";
     now_stamp := "20250314_101500";
     now_iso := "2025-03-14T10:15:00";
     utcnow_iso := "2025-03-14T17:15:00";
     create_pdf_order := fun order _ =>
       if String.eqb (order_number (snd order)) number
       then Raised "'NoneType' object has no attribute 'get'"
       else Returned true;
     print_env := machine 0;
     select_error := None;
     update_error := accepts_all;
     orders_tray_icon := false |}.

End ScriptScenario.

(** A machine on which Ghostscript is not installed. *)
Module DispatchScenario.

Import Orders OrdersScenario.

Definition bare_machine : Printer.PrintEnv :=
  {| Printer.str_lower := PyStr.lower;
     Printer.available_printers := ["Microsoft Print to PDF"; "Canon TR4700 series"];
     Printer.default_printer := Some "Microsoft Print to PDF";
     Printer.ghostscript_path := None;
     Printer.path_exists := fun _ => true;
     Printer.run_ghostscript := fun _ _ _ => Returned 0%Z |}.

Definition bare_world : OrderWorld :=
  {| pdf_output_dir := "C:\app\order_pdfs";
     now_stamp := "20250314_101500";
     now_iso := "2025-03-14T10:15:00";
     utcnow_iso := "2025-03-14T17:15:00";
     create_pdf_order := fun _ _ => Returned true;
     print_env := bare_machine;
     select_error := None;
     update_error := accepts_all;
     orders_tray_icon := true |}.

End DispatchScenario.

Module UpsertSpec.

Import Inventory.

(** The number cells of the row convert to [numbers]. *)
Definition converted (int_of_string : string -> Outcome Z)
  (float_of_string : string -> Outcome PyFloat.float) (row : Row) (numbers : Numbers)
  : Prop :=
  convert_row int_of_string float_of_string row = Returned numbers.



End UpsertSpec.

Module OrderFormSpec.

Import OrderForm.

(** The items filed under a key, in the order of the order. *)
Definition filed_under (key : string) (items : list Item) : list Item :=
  List.filter (fun item => String.eqb (group_key item) key) items.

(** Some item is filed under the key. *)
Definition in_use (items : list Item) (key : string) : bool :=
  existsb (fun item => String.eqb (group_key item) key) items.

End OrderFormSpec.

Module UpdaterSpec.

Import PyStr Updater.

(** The text of a version: its numbers in decimal, joined by dots. *)
Fixpoint dotted (ns : list Z) : string :=
  match ns with
  | [] => ""
  | [n] => str_of_Z n
  | n :: rest => str_of_Z n ++ "." ++ dotted rest
  end.

(** [a] comes strictly before [b]: at the first place where they differ
    [a] is smaller, or [a] ends there and [b] goes on. *)
Inductive older : list Z -> list Z -> Prop :=
| older_prefix (y : Z) (b : list Z) : older [] (y :: b)
| older_head (x y : Z) (a b : list Z) : (x < y)%Z -> older (x :: a) (y :: b)
| older_tail (x : Z) (a b : list Z) : older a b -> older (x :: a) (x :: b).

Definition is_digit (c : ascii) : bool :=
  Nat.leb 48 (nat_of_ascii c) && Nat.leb (nat_of_ascii c) 57.

Definition digit_or_dot (c : ascii) : bool := is_digit c || Ascii.eqb c ".".

(** The release tag is not a dotted list of integer literals. *)
Definition malformed (max_str_digits : option nat) (tag : string) : Prop :=
  ints max_str_digits (split_dot (lstrip_v (strip tag))) = None.

(** A setting the interpreter accepts for the limit: it refuses values
    between 1 and 639. *)
Definition valid_limit (max_str_digits : option nat) : Prop :=
  match max_str_digits with
  | Some limit => (640 <= limit)%nat
  | None => True
  end.

(** The asset the loop over the assets stops at. *)
Definition first_installer (release : Release) : option Asset :=
  find (fun asset => endswith (lower (asset_name asset)) ".exe") (assets release).

End UpdaterSpec.

Module FedExSpec.

Import OrderForm FedEx.

(** A call of [get_fedex_token]: its arguments and the two clock
    readings. *)
Record Call := mkCall {
  call_api_key : string;
  call_secret_key : string;
  call_use_sandbox : bool;
  call_now : Z;
  call_now_stored : Z
}.

Definition serve (post : AuthRequest -> AuthReply) (st : TokenState) (c : Call)
  : option string * TokenState :=
  get_fedex_token post (call_api_key c) (call_secret_key c) (call_use_sandbox c)
    (call_now c) (call_now_stored c) st.

(** The tokens a sequence of calls returns, and the state it leaves. *)
Fixpoint serve_all (post : AuthRequest -> AuthReply) (st : TokenState) (calls : list Call)
  : list (option string) * TokenState :=
  match calls with
  | [] => ([], st)
  | c :: rest =>
      let '(token, st1) := serve post st c in
      let '(tokens, st2) := serve_all post st1 rest in
      (token :: tokens, st2)
  end.

(** The cache holds no token that is still good at [now]. *)
Definition stale (st : TokenState) (now : Z) : Prop :=
  match cached_token (cache st), expires_at (cache st) with
  | Some token, Some expiry => token = "" \/ (expiry <= now)%Z
  | _, _ => True
  end.

Definition is_store (name : string) : Prop := name = "Yakima" \/ name = "Toppenish".

End FedExSpec.

(** A form as the settings window holds it after a first set-up. *)
Module SettingsScenario.

Import Settings.

Definition blank : Address := mkAddress "" "" "" "" "" "".

Definition filled_form : Form :=
  {| store_var := "Yakima";
     folder_var := "C:\exports";
     pattern_var := "Inventory by Product";
     url_var := "https://project.supabase.co";
     key_var := "service-key";
     enable_printer_var := 1;
     printer_name_var := "Canon TR4700 series";
     fedex_api_key_var := "";
     fedex_secret_key_var := "";
     fedex_account_var := "";
     yakima_address := blank;
     toppenish_address := blank;
     fedex_sandbox_var := 0 |}.

End SettingsScenario.

(** A valid export in which the margin of one product is a text that is
    no number. *)
Module MarginScenario.

Import PyFloat Inventory SyncScenario.

Definition odd_product : Row :=
  product_with "Gadget" (CStr "G-7") (NInt 5) (NStr "abc").

Definition sheet_with_odd_margin : list Row :=
  [ toppenish_marker 1; product "Widget" (CStr "W-1") 12; odd_product; yakima_marker 0 ].

End MarginScenario.

Module PrinterListSpec.

Import PyStr PyStrSpec PrinterList.

Definition no_line_break (c : ascii) : bool := negb (Ascii.eqb c newline).

(** The text made of the lines, a line break between two of them. *)
Fixpoint join_lines (lines : list string) : string :=
  match lines with
  | [] => ""
  | [line] => line
  | line :: rest => line ++ String newline (join_lines rest)
  end.

(** [lines] are the lines of [text]. *)
Definition lines_of (text : string) (lines : list string) : Prop :=
  lines <> [] /\ join_lines lines = text
  /\ List.Forall (fun line => all_chars no_line_break line = true) lines.

(** A line of white space only. *)
Definition blank (line : string) : bool := String.eqb (strip line) "".

(** The names on the lines: every line that is not blank, without the
    white space around it. *)
Definition names_on (lines : list string) : list string :=
  map strip (List.filter (fun line => negb (blank line)) lines).

(** What PowerShell prints for two printers, with a blank line between
    them and white space around the first name. *)
Definition powershell_output : string :=
  String newline ("  Canon TR4700 series " ++ String newline
                    (String newline ("Microsoft Print to PDF" ++ String newline ""))).

End PrinterListSpec.
(* ===================================================================== *)
(** * Part III: the properties                                            *)
(* ===================================================================== *)

(** ** Strings *)

Module PyStrFacts.

Import PyStr PyStrSpec.

Lemma startswith_spec (s p : string) :
  startswith s p = true <-> exists post, s = (p ++ post)%string.
Proof.
  revert s; induction p as [|a p IH]; intros s; simpl.
  - split; [intros _; exists s; reflexivity | reflexivity].
  - destruct s as [|b s].
    + split; [discriminate | intros [post H]; discriminate].
    + rewrite andb_true_iff, IH, Ascii.eqb_eq. split.
      * intros [-> [post ->]]. exists post. reflexivity.
      * intros [post H]. injection H as -> ->. split; [reflexivity | eauto].
Qed.

Lemma contains_spec (sub s : string) :
  contains sub s = true <-> exists pre post, s = (pre ++ sub ++ post)%string.
Proof.
  induction s as [|c s IH]; cbn [contains]; rewrite orb_true_iff, startswith_spec.
  - split.
    + intros [[post H] | H]; [exists EmptyString, post; exact H | discriminate].
    + intros [pre [post H]]. left. destruct pre; [eauto | discriminate].
  - rewrite IH. split.
    + intros [[post H] | [pre [post H]]].
      * exists EmptyString, post. exact H.
      * exists (String c pre), post. rewrite H. reflexivity.
    + intros [[|a pre] [post H]].
      * left. exists post. exact H.
      * right. change (String c s = String a (pre ++ sub ++ post)%string) in H.
        injection H as -> ->. eauto.
Qed.

Lemma endswith_spec (s suf : string) :
  endswith s suf = true <-> exists pre, s = (pre ++ suf)%string.
Proof.
  induction s as [|c s IH]; cbn [endswith]; rewrite orb_true_iff, String.eqb_eq.
  - split.
    + intros [-> | H]; [exists EmptyString; reflexivity | discriminate].
    + intros [[|a pre] H]; [left; exact H | discriminate].
  - rewrite IH. split.
    + intros [<- | [pre ->]]; [exists EmptyString; reflexivity | exists (String c pre); reflexivity].
    + intros [[|a pre] H]; [left; exact H | right].
      change (String c s = String a (pre ++ suf)%string) in H.
      injection H as -> ->. eauto.
Qed.

Lemma append_empty_r (s : string) : (s ++ "")%string = s.
Proof.
  induction s as [|a s IH]; [reflexivity|].
  change (String a (s ++ "")%string = String a s). rewrite IH. reflexivity.
Qed.

Lemma str_in_spec (x : string) (l : list string) : str_in x l = true <-> In x l.
Proof.
  unfold str_in. rewrite existsb_exists. split.
  - intros [y [Hy Heq]]. apply String.eqb_eq in Heq. congruence.
  - intros H. exists x. split; [exact H | apply String.eqb_refl].
Qed.

Lemma truthy_app_r (a b : string) : truthy b = true -> truthy (a ++ b)%string = true.
Proof. destruct a, b; simpl; congruence. Qed.

Lemma endswith_truthy (s suf : string) :
  endswith s suf = true -> truthy suf = true -> truthy s = true.
Proof.
  rewrite endswith_spec. intros [pre ->]. apply truthy_app_r.
Qed.

(** [strip] and [lower] against [contains] *)











Lemma all_chars_lstrip (P : ascii -> bool) (s : string) :
  all_chars P s = true -> all_chars P (lstrip s) = true.
Proof.
  induction s as [|c s IH]; [reflexivity|]. simpl. intros H.
  apply andb_true_iff in H as [Hc Hs].
  destruct (is_space c); [auto | simpl; rewrite Hc, Hs; reflexivity].
Qed.

Lemma all_chars_rstrip (P : ascii -> bool) (s : string) :
  all_chars P s = true -> all_chars P (rstrip s) = true.
Proof.
  induction s as [|c s IH]; [reflexivity|]. simpl. intros H.
  apply andb_true_iff in H as [Hc Hs]. specialize (IH Hs).
  destruct (rstrip s); [destruct (is_space c)|]; simpl in *; rewrite ?Hc, ?IH; reflexivity.
Qed.








End PyStrFacts.

(** ** Sorting *)

Section SortDescFacts.
Context {A : Type} (key : A -> Z).

Lemma insert_desc_perm (x : A) (l : list A) : Permutation (insert_desc key x l) (x :: l).
Proof.
  induction l as [|y l IH]; simpl; [reflexivity|].
  destruct (key x <? key y)%Z; [|reflexivity].
  rewrite IH. apply perm_swap.
Qed.

Lemma sort_desc_perm (l : list A) : Permutation (sort_desc key l) l.
Proof.
  induction l as [|x l IH]; simpl; [reflexivity|].
  rewrite insert_desc_perm. constructor. exact IH.
Qed.

Lemma sort_desc_In (l : list A) (x : A) : In x (sort_desc key l) <-> In x l.
Proof.
  split; apply Permutation_in; [|symmetry]; apply sort_desc_perm.
Qed.

Lemma insert_desc_descending (x : A) (l : list A) :
  descending key l -> descending key (insert_desc key x l).
Proof.
  unfold descending. induction l as [|y l IH]; intros Hs; simpl.
  - repeat constructor.
  - destruct (Z.ltb_spec (key x) (key y)) as [Hlt|Hge].
    + apply StronglySorted_inv in Hs as [Hs Hall]. constructor; [auto|].
      rewrite List.Forall_forall in *. intros z Hz.
      apply (Permutation_in _ (insert_desc_perm x l)) in Hz as [<- | Hz]; [lia | auto].
    + constructor; [exact Hs|]. constructor; [lia|].
      apply StronglySorted_inv in Hs as [_ Hall].
      rewrite List.Forall_forall in *. intros z Hz. specialize (Hall z Hz). lia.
Qed.

Lemma sort_desc_descending (l : list A) : descending key (sort_desc key l).
Proof.
  induction l as [|x l IH]; simpl; [constructor | apply insert_desc_descending, IH].
Qed.

Lemma sort_desc_nil_inv (l : list A) : sort_desc key l = [] -> l = [].
Proof.
  intros H. apply Permutation_nil. rewrite <- H. apply sort_desc_perm.
Qed.

Lemma sort_desc_head_max (l : list A) (x : A) (rest : list A) :
  sort_desc key l = x :: rest ->
  In x l /\ forall y, In y l -> (key y <= key x)%Z.
Proof.
  intros H. split.
  - apply sort_desc_In. rewrite H. left. reflexivity.
  - intros y Hy. apply sort_desc_In in Hy. rewrite H in Hy.
    pose proof (sort_desc_descending l) as Hs. unfold descending in Hs. rewrite H in Hs.
    apply StronglySorted_inv in Hs as [_ Hall]. rewrite List.Forall_forall in Hall.
    destruct Hy as [<- | Hy]; [lia | auto].
Qed.

End SortDescFacts.

(** ** File locator *)

Module LocatorFacts.

Import PyStr PyStrFacts Locator LocatorSpec.

Lemma is_inventory_file_spec (file_pattern : string) (e : DirEntry) :
  is_inventory_file file_pattern e = true <-> candidate_name file_pattern (file_name e).
Proof.
  unfold is_inventory_file, candidate_name.
  rewrite andb_true_iff, contains_spec, endswith_spec. reflexivity.
Qed.

Lemma In_scan (watch_folder file_pattern : string) (entries : list DirEntry) (f : FileInfo) :
  In f (scan watch_folder file_pattern entries) <->
  exists e, In e entries /\ f = info_of watch_folder e
            /\ candidate_name file_pattern (file_name e).
Proof.
  induction entries as [|e entries IH]; simpl.
  - split; [tauto | intros [e [[] _]]].
  - destruct (is_inventory_file file_pattern e) eqn:He.
    + simpl. rewrite IH. split.
      * intros [<- | [e' [Hin H]]].
        -- exists e. apply is_inventory_file_spec in He. auto.
        -- exists e'. tauto.
      * intros [e' [[<- | Hin] [-> Hc]]]; [left; reflexivity | right; eauto].
    + rewrite IH. split.
      * intros [e' [Hin H]]. exists e'. tauto.
      * intros [e' [[<- | Hin] [-> Hc]]]; [|eauto].
        apply is_inventory_file_spec in Hc. congruence.
Qed.

Lemma path_truthy (watch_folder file_pattern : string) (entries : list DirEntry)
  (f : FileInfo) :
  In f (scan watch_folder file_pattern entries) -> truthy (path_of f) = true.
Proof.
  rewrite In_scan. intros [e [_ [-> [_ [stem Hstem]]]]].
  unfold path_of, info_of, os_path_join; simpl. rewrite Hstem.
  destruct (_ || _); repeat apply truthy_app_r; reflexivity.
Qed.

(** C6. The candidate set is exactly the listed files whose name contains
    the pattern and ends with ".xlsx"; the authoritative file is a candidate
    whose modification time no candidate exceeds, the second component
    lists the paths of all candidates, and without candidates (also when
    the folder cannot be listed) the result is [(None, [])], a plain value
    and no error. *)
Theorem locate_candidates_and_latest (fs : Folder) (watch_folder file_pattern : string) :
  let files := find_all_inventory_files fs watch_folder file_pattern in
  let result := get_latest_inventory_file fs watch_folder file_pattern in
  (forall f, In f files <->
     exists entries e, fs = Some entries /\ In e entries
       /\ f = info_of watch_folder e /\ candidate_name file_pattern (file_name e))
  /\ Permutation (snd result) (map path_of files)
  /\ (files = [] -> result = (None, []))
  /\ (files <> [] ->
      exists f, In f files /\ fst result = Some (path_of f)
                /\ forall g, In g files -> (mtime_of g <= mtime_of f)%Z).
Proof.
  intros files result. repeat split.
  - intros Hf. destruct fs as [entries|]; [|destruct Hf].
    apply In_scan in Hf as [e He]. exists entries, e. tauto.
  - intros [entries [e [-> H]]]. apply In_scan. eauto.
  - subst result. unfold get_latest_inventory_file. fold files.
    pose proof (sort_desc_perm (fun f : FileInfo => snd (fst f)) files) as Hp.
    destruct (sort_desc _ files) as [|f rest]; simpl.
    + apply Permutation_nil in Hp. rewrite Hp. constructor.
    + change (Permutation (map path_of (f :: rest)) (map path_of files)).
      apply Permutation_map, Hp.
  - intros Hnil. subst result. unfold get_latest_inventory_file. fold files.
    rewrite Hnil. reflexivity.
  - intros Hne. subst result. unfold get_latest_inventory_file. fold files.
    destruct (sort_desc _ files) as [|f rest] eqn:Hs.
    + apply sort_desc_nil_inv in Hs. contradiction.
    + apply sort_desc_head_max in Hs as [Hin Hmax].
      exists f. split; [exact Hin | split; [reflexivity | exact Hmax]].
Qed.

Example latest_of_two_exports :
  get_latest_inventory_file (Some SyncScenario.entries) "C:\exports" "Inventory"
  = (Some "C:\exports\Inventory_tuesday.xlsx",
     ["C:\exports\Inventory_tuesday.xlsx"; "C:\exports\Inventory_monday.xlsx"]).
Proof. vm_compute. reflexivity. Qed.

(** With equal times the file listed first is taken. *)
Example latest_on_a_tie :
  get_latest_inventory_file
    (Some [mkEntry "Inventory_a.xlsx" 7; mkEntry "Inventory_b.xlsx" 9;
           mkEntry "Inventory_c.xlsx" 9; mkEntry "inventory_d.xlsx" 50;
           mkEntry "Inventory_e.xlsx.bak" 60])
    "C:\exports" "Inventory"
  = (Some "C:\exports\Inventory_b.xlsx",
     ["C:\exports\Inventory_b.xlsx"; "C:\exports\Inventory_c.xlsx";
      "C:\exports\Inventory_a.xlsx"]).
Proof. vm_compute. reflexivity. Qed.

Example latest_without_folder :
  get_latest_inventory_file None "C:\exports" "Inventory" = (None, []).
Proof. reflexivity. Qed.

Example latest_without_candidate :
  get_latest_inventory_file (Some [mkEntry "notes.txt" 3]) "C:\exports" "Inventory"
  = (None, []).
Proof. reflexivity. Qed.

End LocatorFacts.

(** ** Inventory validator *)

Module ValidatorFacts.

Import PyStr PyStrSpec PyStrFacts PyFloat Inventory InventorySpec.





Section Quantities.
Variable int_of_string : string -> Outcome Z.

(** The quantity the loop reads off a cell. *)
Lemma int_or_zero_spec (c : NumCell) (q : Z) :
  int_or_zero int_of_string c = Returned q <-> quantity_in int_of_string c q.
Proof.
  unfold int_or_zero. destruct c as [n|x|s|]; simpl.
  - split; [intros [= <-]; constructor | intros H; inversion H; reflexivity].
  - destruct x as [b|b| |b m e]; simpl;
      (split; [intros [= <-]; constructor; reflexivity
              | intros H; inversion H; subst; simpl in *; congruence]).
  - split; [intros H; constructor; exact H | intros H; inversion H; assumption].
  - split; [intros [= <-]; constructor | intros H; inversion H; reflexivity].
Qed.

Lemma row_qty_spec (row : Row) (q : Z) :
  row_qty int_of_string row = Returned q
  <-> quantity_in int_of_string (r_total_stock row) q.
Proof. apply int_or_zero_spec. Qed.


(** A cell that holds no quantity makes the conversion raise. *)
Lemma row_qty_raises (row : Row) :
  (forall q, ~ quantity_in int_of_string (r_total_stock row) q) ->
  exists msg, row_qty int_of_string row = Raised msg.
Proof.
  intros H. destruct (row_qty int_of_string row) as [q|msg] eqn:Hq; [|eauto].
  apply row_qty_spec in Hq. destruct (H q Hq).
Qed.




Section Carries.
Variables word key : string.






End Carries.





End Quantities.

(** The sheets of the examples. *)

Import SyncScenario.

Example validate_good_sheet :
  validate_inventory_file int_of_text good_sheet
  = Returned (true, None, "Correct inventory file (Toppenish=1, Yakima=0)").
Proof. vm_compute. reflexivity. Qed.

Example validate_other_store_sheet :
  validate_inventory_file int_of_text other_store_sheet
  = Returned
      (false, Some "wrong_file", "Wrong inventory file detected (Yakima=1, Toppenish=0)").
Proof. vm_compute. reflexivity. Qed.

Example validate_unmarked_sheet :
  validate_inventory_file int_of_text unmarked_sheet
  = Returned (false, Some "no_marker", "No inventory ID markers found").
Proof. vm_compute. reflexivity. Qed.

Example validate_both_markers_set :
  validate_inventory_file int_of_text [toppenish_marker 1; yakima_marker 1]
  = Returned
      (false, Some "wrong_file", "Wrong inventory file detected (Yakima=1, Toppenish=1)").
Proof. vm_compute. reflexivity. Qed.

Example validate_odd_quantities :
  validate_inventory_file int_of_text [toppenish_marker 2; yakima_marker 0]
  = Returned (false, Some "wrong_file", "Invalid marker quantities (Toppenish=2, Yakima=0)").
Proof. vm_compute. reflexivity. Qed.

(** A missing primary marker decides before the quantity of the secondary
    one is looked at. *)
Example validate_primary_absent_secondary_set :
  validate_inventory_file int_of_text [product "Widget" (CStr "W-1") 12; yakima_marker 1]
  = Returned (false, Some "no_marker", "No inventory ID markers found").
Proof. vm_compute. reflexivity. Qed.

(** A later marker row replaces an earlier one. *)
Example validate_last_marker_counts :
  validate_inventory_file int_of_text [toppenish_marker 0; yakima_marker 0; toppenish_marker 1]
  = Returned (true, None, "Correct inventory file (Toppenish=1, Yakima=0)").
Proof. vm_compute. reflexivity. Qed.

(** A key typed as a number in a column of texts is read as the validator
    expects it. *)
Example validate_number_key_among_texts :
  validate_inventory_file int_of_text
    [ product "Toppenish Store Marker" (CInt 99999) 1; product "Widget" (CStr "W-1") 12;
      yakima_marker 0 ]
  = Returned (true, None, "Correct inventory file (Toppenish=1, Yakima=0)").
Proof. vm_compute. reflexivity. Qed.

(** In a key column that pandas hands over as floats the key of the
    primary marker reads 99999.0, and the sheet counts as unmarked. *)
Example validate_float_keys :
  validate_inventory_file int_of_text sheet_with_number_keys
  = Returned (false, Some "no_marker", "No inventory ID markers found").
Proof. vm_compute. reflexivity. Qed.






End ValidatorFacts.

(** ** Inventory synchroniser *)

Module SyncFacts.

Import PyStr PyStrSpec PyStrFacts Locator LocatorSpec LocatorFacts.
Import Inventory InventorySpec ValidatorFacts SyncSpec.

(** *** Deleting the candidate files *)

Lemma In_os_remove_step (remove_error : string -> option string)
  (watch_folder path : string) (entries : list DirEntry) (e : DirEntry) :
  In e (match os_remove remove_error watch_folder path entries with
        | Returned entries' => entries'
        | Raised _ => entries
        end)
  <-> In e entries /\ (has_path watch_folder path e = true -> remove_error path <> None).
Proof.
  unfold os_remove. destruct (existsb _ entries) eqn:Hex.
  - destruct (remove_error path) as [msg|].
    + split; [intros Hin; split; [exact Hin | discriminate] | tauto].
    + rewrite filter_In, negb_true_iff. split; intros [Hin Hp]; (split; [exact Hin|]).
      * rewrite Hp. discriminate.
      * destruct (has_path watch_folder path e); [destruct (Hp eq_refl eq_refl) | reflexivity].
  - split; [|tauto]. intros Hin. split; [exact Hin|]. intros Hp.
    assert (existsb (has_path watch_folder path) entries = true) as Habs
      by (apply existsb_exists; eauto).
    congruence.
Qed.

(** An entry is left by [delete_all_inventory_files] when no listed path
    names it, or when the removal of its path fails. *)
Lemma In_delete_all (remove_error : string -> option string) (watch_folder : string)
  (file_list : list string) (entries : list DirEntry) (e : DirEntry) :
  In e (delete_all_inventory_files remove_error watch_folder file_list entries)
  <-> In e entries
      /\ forall p, In p file_list -> has_path watch_folder p e = true ->
                   remove_error p <> None.
Proof.
  revert entries. induction file_list as [|p file_list IH]; intros entries; simpl.
  - split; [intros H; split; [exact H | intros p []] | tauto].
  - pose proof (In_os_remove_step remove_error watch_folder p entries e) as Hstep.
    destruct (os_remove remove_error watch_folder p entries) as [entries'|msg]; rewrite IH.
    + rewrite Hstep. split.
      * intros [[Hin Hp] Hrest]. split; [exact Hin|]. intros q [<- | Hq]; auto.
      * intros [Hin Hall]. repeat split; auto.
    + split.
      * intros [Hin Hrest]. split; [exact Hin|]. apply Hstep in Hin as [_ Hp].
        intros q [<- | Hq]; auto.
      * intros [Hin Hall]. split; auto.
Qed.

(** After the deletion a file is in the folder when it was there before
    and either was not listed or could not be removed. *)
Lemma present_after_delete_all (remove_error : string -> option string)
  (watch_folder : string) (file_list : list string) (fs : Folder) (p : string) :
  present watch_folder
    (match fs with
     | Some entries =>
         Some (delete_all_inventory_files remove_error watch_folder file_list entries)
     | None => None
     end) p
  <-> present watch_folder fs p /\ (In p file_list -> remove_error p <> None).
Proof.
  unfold present. split.
  - intros [entries [e [Hfs [Hin Hpath]]]].
    destruct fs as [entries0|]; [|discriminate].
    injection Hfs as <-. apply In_delete_all in Hin as [Hin Hall]. split.
    + exists entries0, e. auto.
    + intros Hp. apply (Hall p Hp). unfold has_path. rewrite Hpath. apply String.eqb_refl.
  - intros [[entries [e [Hfs [Hin Hpath]]]] Hkeep]. rewrite Hfs.
    eexists _, e. split; [reflexivity|]. split; [|exact Hpath].
    apply In_delete_all. split; [exact Hin|].
    intros q Hq Hhas. unfold has_path in Hhas. apply String.eqb_eq in Hhas.
    rewrite Hpath in Hhas. subst q. apply Hkeep, Hq.
Qed.

Lemma present_after_delete (w : SyncWorld) (watch_folder : string)
  (file_list : list string) (st : SyncState) (p : string) :
  present watch_folder (folder (delete_files w watch_folder file_list st)) p
  <-> present watch_folder (folder st) p /\ (In p file_list -> remove_error w p <> None).
Proof. apply present_after_delete_all. Qed.

Lemma deleted_not_present (w : SyncWorld) (watch_folder : string)
  (file_list : list string) (st : SyncState) (p : string) :
  In p file_list -> remove_error w p = None ->
  ~ present watch_folder (folder (delete_files w watch_folder file_list st)) p.
Proof.
  intros Hp Hnone Hpresent. apply present_after_delete in Hpresent as [_ Hkeep].
  apply (Hkeep Hp Hnone).
Qed.

(** *** The located files *)

Lemma located_are_present (fs : Folder) (watch_folder file_pattern p : string) :
  In p (snd (get_latest_inventory_file fs watch_folder file_pattern)) ->
  present watch_folder fs p.
Proof.
  unfold get_latest_inventory_file. intros Hp.
  destruct (sort_desc _ _) as [|f rest] eqn:Hs; [destruct Hp|].
  cbn [snd] in Hp. apply in_map_iff in Hp as [g [Hg Hin]].
  rewrite <- Hs in Hin. apply sort_desc_In in Hin.
  destruct fs as [entries|]; [|destruct Hin].
  apply In_scan in Hin as [e [He [-> _]]]. exists entries, e. auto.
Qed.

(** *** The chosen file *)

Lemma latest_truthy (fs : Folder) (watch_folder file_pattern latest : string)
  (all_files : list string) :
  get_latest_inventory_file fs watch_folder file_pattern = (Some latest, all_files) ->
  truthy latest = true /\ In latest all_files.
Proof.
  unfold get_latest_inventory_file. intros H.
  destruct (sort_desc _ _) as [|f rest] eqn:Hs; [discriminate|].
  injection H as <- <-. split; [|left; reflexivity].
  apply sort_desc_head_max in Hs as [Hin _].
  destruct fs as [entries|]; [|destruct Hin].
  exact (path_truthy _ _ _ _ Hin).
Qed.

(** *** The verdicts as the synchroniser reads them *)

Lemma validate_cases (int_of_string : string -> Outcome Z) (df : list Row) (v : Validation) :
  validate_inventory_file int_of_string df = Returned v ->
  exists vd msg,
    verdict_of v = Some vd
    /\ v = match vd with
           | valid => (true, None, msg)
           | wrong_source => (false, Some "wrong_file", msg)
           | unmarked => (false, Some "no_marker", msg)
           end.
Proof.
  unfold validate_inventory_file.
  destruct (scan_markers int_of_string df) as [m|msg]; [|discriminate].
  simpl. intros [= <-].
  destruct (toppenish_qty m) as [t|], (yakima_qty m) as [y|];
    try (exists unmarked; eexists; split; reflexivity).
  destruct ((t =? 1)%Z && (y =? 0)%Z); [exists valid; eexists; split; reflexivity|].
  destruct (y =? 1)%Z; exists wrong_source; eexists; split; reflexivity.
Qed.

(** *** The marker filter *)



(** *** The outcomes of a call *)

Section Sync.
Variable int_of_string : string -> Outcome Z.
Variable float_of_string : string -> Outcome PyFloat.float.
Variable w : SyncWorld.
Variables watch_folder file_pattern : string.
Variable show_notification : bool.

(** [sync_inventory] once a file was chosen, by the verdict and the
    answers of the collaborators. *)
Lemma sync_inventory_chosen (st : SyncState) (latest : string) (all_files : list string) :
  get_latest_inventory_file (folder st) watch_folder file_pattern = (Some latest, all_files) ->
  sync_inventory int_of_string float_of_string w watch_folder file_pattern
    show_notification st
  = match read_excel w latest with
    | Raised msg => (false, error_notice w msg st)
    | Returned df =>
        match validate_inventory_file int_of_string df with
        | Raised msg => (false, error_notice w msg st)
        | Returned v =>
            match verdict_of v with
            | Some valid =>
                match clean_data int_of_string float_of_string (filter_markers df) with
                | Raised msg => (false, error_notice w msg st)
                | Returned [] => (false, st)
                | Returned (r :: rs) =>
                    match upsert w (r :: rs) with
                    | Raised msg =>
                        (false, error_notice w msg (sync_emit (EvUpsert (r :: rs)) st))
                    | Returned _ =>
                        (true, synced_notice w show_notification
                                 (delete_files w watch_folder all_files
                                    (sync_emit (EvUpsert (r :: rs)) st)))
                    end
                end
            | Some wrong_source =>
                (false, delete_files w watch_folder all_files (wrong_file_notice w st))
            | _ => (false, delete_files w watch_folder all_files (no_marker_notice w st))
            end
        end
    end.
Proof.
  intros Hlatest. unfold sync_inventory. rewrite Hlatest.
  destruct (latest_truthy _ _ _ _ _ Hlatest) as [-> _]. simpl negb. cbv iota.
  unfold sync_body. destruct (read_excel w latest) as [df|msg]; [|reflexivity].
  destruct (validate_inventory_file int_of_string df) as [v|msg] eqn:Hv; [|reflexivity].
  destruct (validate_cases _ _ _ Hv) as [vd [vmsg [-> ->]]].
  destruct vd; simpl; try reflexivity.
  destruct (clean_data int_of_string float_of_string (filter_markers df)) as [[|r rs]|msg];
    try reflexivity.
  destruct (upsert w (r :: rs)); reflexivity.
Qed.

(** Without a candidate file the call does nothing. *)
Lemma sync_inventory_no_candidates (st : SyncState) :
  find_all_inventory_files (folder st) watch_folder file_pattern = [] ->
  sync_inventory int_of_string float_of_string w watch_folder file_pattern
    show_notification st
  = (false, st).
Proof.
  intros H. unfold sync_inventory, get_latest_inventory_file. rewrite H. reflexivity.
Qed.

Lemma events_notify (m t : string) (st : SyncState) :
  sync_events (notify w m t st)
  = (sync_events st ++ (if tray_icon w then [EvNotify m t] else []))%list.
Proof. unfold notify. destruct (tray_icon w); simpl; [reflexivity | rewrite app_nil_r; reflexivity]. Qed.

Lemma folder_notify (m t : string) (st : SyncState) : folder (notify w m t st) = folder st.
Proof. unfold notify. destruct (tray_icon w); reflexivity. Qed.

Lemma upserts_of_app (l1 l2 : list SyncEvent) :
  upserts_of (l1 ++ l2) = (upserts_of l1 ++ upserts_of l2)%list.
Proof. apply flat_map_app. Qed.

Lemma removals_of_app (l1 l2 : list SyncEvent) :
  removals_of (l1 ++ l2) = (removals_of l1 ++ removals_of l2)%list.
Proof. apply flat_map_app. Qed.

Lemma upserts_of_note (m t : string) :
  upserts_of (if tray_icon w then [EvNotify m t] else []) = [].
Proof. destruct (tray_icon w); reflexivity. Qed.

Lemma removals_of_note (m t : string) :
  removals_of (if tray_icon w then [EvNotify m t] else []) = [].
Proof. destruct (tray_icon w); reflexivity. Qed.

Lemma upserts_of_removes (files : list string) : upserts_of (map EvRemove files) = [].
Proof. induction files; [reflexivity | exact IHfiles]. Qed.

Lemma removals_of_removes (files : list string) : removals_of (map EvRemove files) = files.
Proof. induction files; [reflexivity | simpl; f_equal; exact IHfiles]. Qed.

Lemma events_synced_notice (st : SyncState) :
  exists note, sync_events (synced_notice w show_notification st) = (sync_events st ++ note)%list
               /\ upserts_of note = [] /\ removals_of note = [].
Proof.
  unfold synced_notice. destruct show_notification.
  - rewrite events_notify. eexists; split; [reflexivity|].
    split; [apply upserts_of_note | apply removals_of_note].
  - exists []. rewrite app_nil_r. repeat split.
Qed.

Lemma folder_synced_notice (st : SyncState) :
  folder (synced_notice w show_notification st) = folder st.
Proof. unfold synced_notice. destruct show_notification; [apply folder_notify | reflexivity]. Qed.

(** After the deletion, a located file is in the folder exactly when its
    removal failed. *)
Lemma located_after_delete (st st' : SyncState) (latest : string) (all_files : list string)
  (p : string) :
  get_latest_inventory_file (folder st) watch_folder file_pattern = (Some latest, all_files) ->
  folder st' = folder st ->
  In p all_files ->
  present watch_folder (folder (delete_files w watch_folder all_files st')) p
  <-> removal_fails w p.
Proof.
  intros Hlatest Hfolder Hp. rewrite present_after_delete, Hfolder. unfold removal_fails.
  split; [intros [_ Hkeep]; exact (Hkeep Hp) | intros Hfail; split; [|intros _; exact Hfail]].
  apply (located_are_present _ _ file_pattern). rewrite Hlatest. exact Hp.
Qed.

(** C3, as the code has it.  With a non-empty candidate set: once an
    upsert was issued and committed, the call reports success and asks for
    the removal of every candidate file, and afterwards a candidate is left
    in the folder exactly when its removal failed; on a wrong_source or
    unmarked verdict it reports failure, issues no upsert, asks for the
    removal of every candidate file, and again a candidate is left exactly
    when its removal failed; and when the upsert raises it reports failure,
    asks for no removal and leaves the folder as it was. *)
Theorem sync_inventory_deletion_policy (st : SyncState) (latest : string)
  (all_files : list string) :
  get_latest_inventory_file (folder st) watch_folder file_pattern = (Some latest, all_files) ->
  let result :=
    sync_inventory int_of_string float_of_string w watch_folder file_pattern
      show_notification st in
  exists new,
    sync_events (snd result) = (sync_events st ++ new)%list
    /\ (forall records,
          In records (upserts_of new) -> upsert w records = Returned tt ->
          fst result = true /\ removals_of new = all_files
          /\ forall p, In p all_files ->
               (present watch_folder (folder (snd result)) p <-> removal_fails w p))
    /\ (forall df v,
          read_excel w latest = Returned df ->
          verdict (validate_inventory_file int_of_string df) = Some v -> v <> valid ->
          fst result = false /\ upserts_of new = [] /\ removals_of new = all_files
          /\ forall p, In p all_files ->
               (present watch_folder (folder (snd result)) p <-> removal_fails w p))
    /\ (forall records msg,
          In records (upserts_of new) -> upsert w records = Raised msg ->
          fst result = false /\ folder (snd result) = folder st /\ removals_of new = []).
Proof.
  intros Hlatest result. subst result. rewrite (sync_inventory_chosen _ _ _ Hlatest).
  destruct (read_excel w latest) as [df|rmsg].
  2:{ simpl. unfold error_notice. rewrite events_notify. eexists; split; [reflexivity|].
      rewrite upserts_of_note.
      split; [intros ? []|]. split; [discriminate | intros ? ? []]. }
  destruct (validate_inventory_file int_of_string df) as [vn|vmsg] eqn:Hvn.
  2:{ simpl. unfold error_notice. rewrite events_notify. eexists; split; [reflexivity|].
      rewrite upserts_of_note.
      split; [intros ? []|]. split; [|intros ? ? []].
      intros df' v' [= <-]. rewrite Hvn. discriminate. }
  destruct (validate_cases _ _ _ Hvn) as [v [vtext [Hv _]]]. rewrite Hv.
  assert (forall (P : Prop) df' v', Returned df = Returned df' ->
            verdict (validate_inventory_file int_of_string df') = Some v' ->
            v' <> v -> v = valid -> P)
    as Hother.
  { intros P df' v' Hdf' Hv' Hne Hval. injection Hdf' as <-.
    rewrite Hvn in Hv'. simpl in Hv'. congruence. }
  destruct v.
  - (* valid *)
    destruct (clean_data int_of_string float_of_string (filter_markers df)) as [[|r rs]|cmsg].
    + exists []. simpl. rewrite app_nil_r. split; [reflexivity|].
      split; [intros ? []|]. split; [|intros ? ? []].
      intros df' v' Hdf' Hv' Hne. eapply Hother; eauto.
    + destruct (upsert w (r :: rs)) as [[]|umsg] eqn:Hup; simpl fst; simpl snd.
      * destruct (events_synced_notice
                    (delete_files w watch_folder all_files (sync_emit (EvUpsert (r :: rs)) st)))
          as [note [Hev [Hnu Hnr]]].
        rewrite Hev, folder_synced_notice. simpl sync_events. rewrite <- !app_assoc.
        eexists; split; [reflexivity|].
        rewrite !upserts_of_app, !removals_of_app, upserts_of_removes, removals_of_removes,
          Hnu, Hnr. simpl. rewrite app_nil_r.
        split; [|split].
        -- intros records _ _. split; [reflexivity|]. split; [reflexivity|].
           intros p Hp. exact (located_after_delete st _ _ _ _ Hlatest eq_refl Hp).
        -- intros df' v' Hdf' Hv' Hne. eapply Hother; eauto.
        -- intros records msg [<- | []] Hr. congruence.
      * unfold error_notice. rewrite events_notify, folder_notify. simpl sync_events.
        rewrite <- app_assoc. eexists; split; [reflexivity|].
        rewrite !upserts_of_app, !removals_of_app, upserts_of_note, removals_of_note. simpl.
        split; [|split].
        -- intros records [<- | []] Hr. congruence.
        -- intros df' v' Hdf' Hv' Hne. eapply Hother; eauto.
        -- intros records msg _ _. repeat split.
    + simpl. unfold error_notice. rewrite events_notify. eexists; split; [reflexivity|].
      rewrite upserts_of_note.
      split; [intros ? []|]. split; [|intros ? ? []].
      intros df' v' Hdf' Hv' Hne. eapply Hother; eauto.
  - (* wrong_source *)
    simpl fst; simpl snd. unfold wrong_file_notice. simpl sync_events.
    rewrite events_notify, <- app_assoc. eexists; split; [reflexivity|].
    rewrite upserts_of_app, removals_of_app, upserts_of_note, removals_of_note,
      upserts_of_removes, removals_of_removes. simpl.
    split; [intros ? []|]. split; [|intros ? ? []].
    intros df' v' _ _ _. repeat split;
      apply (located_after_delete st _ _ _ _ Hlatest (folder_notify _ _ st)); assumption.
  - (* unmarked *)
    simpl fst; simpl snd. unfold no_marker_notice. simpl sync_events.
    rewrite events_notify, <- app_assoc. eexists; split; [reflexivity|].
    rewrite upserts_of_app, removals_of_app, upserts_of_note, removals_of_note,
      upserts_of_removes, removals_of_removes. simpl.
    split; [intros ? []|]. split; [|intros ? ? []].
    intros df' v' _ _ _. repeat split;
      apply (located_after_delete st _ _ _ _ Hlatest (folder_notify _ _ st)); assumption.
Qed.

(** *** Rows that give no record *)

Lemma has_sku_make_record (row : Row) (numbers : Numbers) :
  has_sku (make_record row numbers) = false <-> lacks_sku row.
Proof.
  unfold has_sku, make_record, sku_field, lacks_sku; simpl.
  destruct (r_sku row) as [s|n|n|]; simpl.
  - destruct (strip s); simpl; (split; [intros H | intros [H | H]]);
      try discriminate; auto.
  - destruct (strip (str_of_Z n)); simpl; (split; [intros H | intros [H | H]]);
      try discriminate; auto.
  - destruct (strip (str_of_Z n ++ ".0")); simpl; (split; [intros H | intros [H | H]]);
      try discriminate; auto.
  - split; auto.
Qed.

Lemma clean_data_from_returned (df : list Row) (acc out : list InventoryRecord) :
  clean_data_from int_of_string float_of_string df acc = Returned out ->
  exists recs, out = (acc ++ recs)%list
               /\ (recs = [] <-> forall row, In row df -> lacks_sku row).
Proof.
  revert acc. induction df as [|row df IH]; intros acc H; simpl in H.
  - injection H as <-. exists []. rewrite app_nil_r. split; [reflexivity|].
    split; [intros _ row [] | reflexivity].
  - destruct (convert_row int_of_string float_of_string row) as [numbers|msg];
      [|discriminate].
    simpl in H. destruct (has_sku (make_record row numbers)) eqn:Hsku.
    + apply IH in H as [recs [-> _]]. exists (make_record row numbers :: recs).
      rewrite <- app_assoc. split; [reflexivity|]. split; [discriminate|].
      intros Hall. assert (lacks_sku row) as Hl by (apply Hall; left; reflexivity).
      apply (has_sku_make_record row numbers) in Hl. congruence.
    + apply IH in H as [recs [-> Hiff]]. exists recs. split; [reflexivity|].
      rewrite Hiff. apply has_sku_make_record in Hsku. split.
      * intros Hall r [<- | Hin]; auto.
      * intros Hall r Hin. apply Hall. right. exact Hin.
Qed.

(** Zero records means every row that is not a marker lacks a sku. *)
Lemma clean_data_no_records (df : list Row) :
  clean_data int_of_string float_of_string df = Returned [] ->
  forall row, In row df -> lacks_sku row.
Proof.
  intros H. apply clean_data_from_returned in H as [recs [Heq Hiff]].
  simpl in Heq. subst recs. apply Hiff. reflexivity.
Qed.

(** C10. A file judged valid that yields no record once the markers are
    filtered out and the rows without sku are dropped: the call returns
    failure and leaves the state as it found it, so no upsert is issued and
    every candidate file stays in the folder. *)
Theorem valid_file_without_records_is_kept (st : SyncState) (latest : string)
  (all_files : list string) (df : list Row) :
  get_latest_inventory_file (folder st) watch_folder file_pattern = (Some latest, all_files) ->
  read_excel w latest = Returned df ->
  verdict (validate_inventory_file int_of_string df) = Some valid ->
  clean_data int_of_string float_of_string (filter_markers df) = Returned [] ->
  let result :=
    sync_inventory int_of_string float_of_string w watch_folder file_pattern
      show_notification st in
  fst result = false
  /\ upserts_of (sync_events (snd result)) = upserts_of (sync_events st)
  /\ removals_of (sync_events (snd result)) = removals_of (sync_events st)
  /\ folder (snd result) = folder st
  /\ forall p, In p all_files ->
       present watch_folder (folder st) p -> present watch_folder (folder (snd result)) p.
Proof.
  intros Hlatest Hread Hvalid Hclean result. subst result.
  rewrite (sync_inventory_chosen _ _ _ Hlatest), Hread.
  destruct (validate_inventory_file int_of_string df) as [v|msg]; [|discriminate].
  simpl in Hvalid. rewrite Hvalid, Hclean. simpl.
  repeat split. auto.
Qed.

End Sync.

(** *** The scenarios *)

Import SyncScenario.

Example sync_good_sheet :
  let result := sync_inventory int_of_text float_of_text (sync_world good_sheet true)
                  watch_folder file_pattern true sync_start in
  fst result = true
  /\ folder (snd result) = Some [mkEntry "notes.txt" 300]
  /\ removals_of (sync_events (snd result))
     = ["C:\exports\Inventory_tuesday.xlsx"; "C:\exports\Inventory_monday.xlsx"]
  /\ length (upserts_of (sync_events (snd result))) = 1%nat.
Proof. vm_compute. auto. Qed.

Example sync_other_store_sheet :
  let result := sync_inventory int_of_text float_of_text (sync_world other_store_sheet true)
                  watch_folder file_pattern true sync_start in
  fst result = false
  /\ folder (snd result) = Some [mkEntry "notes.txt" 300]
  /\ upserts_of (sync_events (snd result)) = [].
Proof. vm_compute. auto. Qed.

Example sync_unmarked_sheet :
  let result := sync_inventory int_of_text float_of_text (sync_world unmarked_sheet true)
                  watch_folder file_pattern true sync_start in
  fst result = false
  /\ folder (snd result) = Some [mkEntry "notes.txt" 300]
  /\ upserts_of (sync_events (snd result)) = [].
Proof. vm_compute. auto. Qed.

Example sync_store_unreachable :
  let result := sync_inventory int_of_text float_of_text (sync_world good_sheet false)
                  watch_folder file_pattern true sync_start in
  fst result = false
  /\ folder (snd result) = Some entries
  /\ removals_of (sync_events (snd result)) = []
  /\ length (upserts_of (sync_events (snd result))) = 1%nat.
Proof. vm_compute. auto. Qed.

(** A sheet on which the validator raises is neither synchronised nor
    deleted: the call reports the error and fails. *)
Example sync_sheet_with_odd_stock :
  sync_inventory int_of_text float_of_text (sync_world sheet_with_odd_stock true)
    watch_folder file_pattern true sync_start
  = (false,
     mkSyncState (Some entries)
       [EvNotify "Sync error: invalid literal for int() with base 10: '12 pcs'"
          "Inventory Sync Error"]).
Proof. vm_compute. reflexivity. Qed.

(** Monday's export is open in Excel while Tuesday's is synchronised: the
    upsert is committed and the call reports success, yet Monday's file,
    a candidate, is still in the folder. *)
Lemma open_candidate_survives_the_sync :
  let w := locked_world good_sheet true monday_is_open in
  let result := sync_inventory int_of_text float_of_text w watch_folder file_pattern true
                  sync_start in
  snd (get_latest_inventory_file (folder sync_start) watch_folder file_pattern)
  = ["C:\exports\Inventory_tuesday.xlsx"; "C:\exports\Inventory_monday.xlsx"]
  /\ fst result = true
  /\ (exists records,
        upserts_of (sync_events (snd result)) = [records]
        /\ upsert w records = Returned tt)
  /\ folder (snd result) = Some [mkEntry "Inventory_monday.xlsx" 100; mkEntry "notes.txt" 300]
  /\ present watch_folder (folder (snd result)) "C:\exports\Inventory_monday.xlsx".
Proof.
  split; [reflexivity|]. split; [vm_compute; reflexivity|].
  split; [eexists; split; vm_compute; reflexivity|].
  split; [vm_compute; reflexivity|].
  exists [mkEntry "Inventory_monday.xlsx" 100; mkEntry "notes.txt" 300],
    (mkEntry "Inventory_monday.xlsx" 100).
  split; [vm_compute; reflexivity|]. split; [left; reflexivity | reflexivity].
Qed.

Lemma sync_inventory_deletion_policy_witness :
  (let result := sync_inventory int_of_text float_of_text (sync_world good_sheet true)
                   watch_folder file_pattern true sync_start in
   fst result = true
   /\ ~ present watch_folder (folder (snd result)) "C:\exports\Inventory_monday.xlsx")
  /\ (let result := sync_inventory int_of_text float_of_text
                      (sync_world other_store_sheet true) watch_folder file_pattern true
                      sync_start in
      fst result = false
      /\ ~ present watch_folder (folder (snd result)) "C:\exports\Inventory_monday.xlsx")
  /\ (let result := sync_inventory int_of_text float_of_text (sync_world good_sheet false)
                      watch_folder file_pattern true sync_start in
      fst result = false /\ folder (snd result) = Some entries).
Proof.
  split; [|split].
  - destruct (sync_inventory_deletion_policy int_of_text float_of_text
                (sync_world good_sheet true) watch_folder file_pattern true sync_start _ _
                eq_refl) as [new [Hev [Hcommitted _]]].
    change (sync_events sync_start ++ new)%list with new in Hev.
    destruct (Hcommitted
                (match clean_data int_of_text float_of_text (filter_markers good_sheet) with
                 | Returned records => records
                 | Raised _ => []
                 end)) as [Hfst [_ Hleft]].
    + rewrite <- Hev. vm_compute. left. reflexivity.
    + reflexivity.
    + split; [exact Hfst|]. intros Hpresent.
      apply Hleft in Hpresent; [|right; left; reflexivity]. apply Hpresent. reflexivity.
  - destruct (sync_inventory_deletion_policy int_of_text float_of_text
                (sync_world other_store_sheet true) watch_folder file_pattern true sync_start
                _ _ eq_refl) as [new [_ [_ [Hrejected _]]]].
    destruct (Hrejected other_store_sheet wrong_source) as [Hfst [_ [_ Hleft]]].
    + reflexivity.
    + vm_compute. reflexivity.
    + discriminate.
    + split; [exact Hfst|]. intros Hpresent.
      apply Hleft in Hpresent; [|right; left; reflexivity]. apply Hpresent. reflexivity.
  - destruct (sync_inventory_deletion_policy int_of_text float_of_text
                (sync_world good_sheet false) watch_folder file_pattern true sync_start _ _
                eq_refl) as [new [Hev [_ [_ Hraised]]]].
    change (sync_events sync_start ++ new)%list with new in Hev.
    destruct (Hraised
                (match clean_data int_of_text float_of_text (filter_markers good_sheet) with
                 | Returned records => records
                 | Raised _ => []
                 end) "connection refused") as [Hfst [Hfolder _]].
    + rewrite <- Hev. vm_compute. left. reflexivity.
    + reflexivity.
    + split; [exact Hfst | exact Hfolder].
Defined.

Lemma valid_file_without_records_is_kept_witness :
  let result := sync_inventory int_of_text float_of_text (sync_world sheet_without_sku true)
                  watch_folder file_pattern true sync_start in
  fst result = false /\ folder (snd result) = Some entries.
Proof.
  destruct (valid_file_without_records_is_kept int_of_text float_of_text
              (sync_world sheet_without_sku true) watch_folder file_pattern true sync_start
              _ _ sheet_without_sku eq_refl eq_refl eq_refl eq_refl)
    as (Hfst & _ & _ & Hfolder & _).
  split; [exact Hfst | exact Hfolder].
Defined.

End SyncFacts.

(** ** Sales aggregator *)

Module SalesFacts.

Import PyFloat Inventory Sales SalesSpec.

(** *** Rounding *)

Lemma round_half_even_close (q : Q) :
  (Qabs (inject_Z (round_half_even q) - q) <= 1 # 2)%Q.
Proof.
  unfold round_half_even.
  pose proof (Qfloor_le q) as Hlo. pose proof (Qlt_floor q) as Hhi.
  rewrite inject_Z_plus in Hhi. change (inject_Z 1) with 1%Q in Hhi.
  apply Qabs_Qle_condition.
  destruct (Qcompare_spec (q - inject_Z (Qfloor q)) (1 # 2)) as [He | Hl | Hg].
  - destruct (Z.even (Qfloor q));
      [|rewrite inject_Z_plus; change (inject_Z 1) with 1%Q]; lra.
  - lra.
  - rewrite inject_Z_plus. change (inject_Z 1) with 1%Q. lra.
Qed.

Lemma hundredths (k : Z) : (Qmake k 100 == inject_Z k * (1 # 100))%Q.
Proof. unfold Qeq, Qmult, inject_Z; simpl. lia. Qed.

(** [round2] rounds the number a finite float stands for to two
    decimals. *)
Lemma round2_spec (x : float) (q : Q) :
  value x = Some q -> rounded_to_2_decimals q (round2 x).
Proof.
  intros Hq. unfold round2. rewrite Hq. eexists. split; [reflexivity|].
  rewrite hundredths.
  pose proof (round_half_even_close (q * 100)) as H.
  apply Qabs_Qle_condition in H. apply Qabs_Qle_condition.
  set (r := inject_Z (round_half_even (q * 100))) in *. lra.
Qed.

(** *** The sign of a float *)

Lemma magnitude_positive (m : positive) (e : Z) :
  (0 < match e with
       | Z0 => Qmake (Zpos m) 1
       | Zpos k => Qmake (Zpos m * 2 ^ Zpos k) 1
       | Zneg k => Qmake (Zpos m) (2 ^ k)%positive
       end)%Q.
Proof.
  destruct e as [|k|k]; unfold Qlt; simpl; lia.
Qed.

(** [x > 0] holds of a finite float exactly when the number it stands for
    is positive. *)
Lemma gt_zero_spec (x : float) (q : Q) :
  value x = Some q -> (gt x zero = true <-> (0 < q)%Q).
Proof.
  destruct x as [b|b| |s m e]; simpl; try discriminate.
  - intros [= <-]. destruct b; (split; [discriminate | intros H; inversion H]).
  - intros [= <-]. pose proof (magnitude_positive m e) as Hpos.
    unfold gt, SFltb, zero. simpl. rewrite Qred_correct. destruct s; simpl.
    + split; [discriminate|]. intros H.
      set (mag := match e with Z0 => _ | Zpos k => _ | Zneg k => _ end) in *.
      exfalso. lra.
    + split; [intros _; exact Hpos | reflexivity].
Qed.

(** *** The margin *)

Lemma margin_of_positive (t : Totals) :
  gt (t_sales t) zero = true ->
  margin_of t = mul (div (t_gross_profit t) (t_sales t)) (of_Z 100).
Proof. intros H. unfold margin_of. rewrite H. reflexivity. Qed.

Lemma margin_of_not_positive (t : Totals) :
  gt (t_sales t) zero = false -> margin_of t = zero.
Proof. intros H. unfold margin_of. rewrite H. reflexivity. Qed.

Section Process.
Variable int_of_string : string -> Outcome Z.
Variable float_of_string : string -> Outcome float.
Variable column_sum : list NumCell -> Outcome NumCell.
Variable parse_report_date : Cell -> string.
Variable read_excel : string -> Outcome (list SalesRow).

(** The amount the code reads off a cell of the Total row. *)
Lemma float_or_zero_spec (c : NumCell) (x : float) :
  float_or_zero float_of_string c = Returned x <-> amount_in float_of_string c x.
Proof.
  unfold float_or_zero. destruct c as [n|y|s|]; simpl.
  - split; [intros [= <-]; constructor | intros H; inversion H; reflexivity].
  - destruct (is_nan y) eqn:Hnan; simpl.
    + destruct y; try discriminate.
      split; [intros [= <-]; constructor | intros H; inversion H; [reflexivity | discriminate]].
    + split; [intros [= <-]; constructor; exact Hnan | intros H; inversion H; subst].
      * discriminate.
      * reflexivity.
  - split; [intros H; constructor; exact H | intros H; inversion H; assumption].
  - split; [intros [= <-]; constructor | intros H; inversion H; reflexivity].
Qed.

Lemma process_sales_file_some (file_path store : string) (record : DailySales) :
  process_sales_file int_of_string float_of_string column_sum parse_report_date read_excel
    file_path store = Some record ->
  exists df t first_row rest,
    read_excel file_path = Returned df
    /\ List.filter (fun row => negb (is_total row)) df = first_row :: rest
    /\ totals_of int_of_string float_of_string column_sum df = Returned t
    /\ record = make_summary parse_report_date store first_row t.
Proof.
  unfold process_sales_file, totals_of. intros H.
  destruct (read_excel file_path) as [df|msg]; [|discriminate].
  destruct (List.filter (fun row => negb (is_total row)) df) as [|first_row rest] eqn:Hrows;
    [discriminate|].
  destruct (compute_totals _ _ _ _ _) as [t|msg] eqn:Ht; [|discriminate].
  injection H as <-. exists df, t, first_row, rest. rewrite Hrows. auto.
Qed.

(** The sales and the gross profit of the totals are those of the first
    Total row. *)
Lemma totals_from_total_row (df : list SalesRow) (t : Totals) (total : SalesRow)
  (rest : list SalesRow) :
  totals_of int_of_string float_of_string column_sum df = Returned t ->
  List.filter (fun row => is_total row) df = total :: rest ->
  amount_in float_of_string (sales total) (t_sales t)
  /\ amount_in float_of_string (gross_profit total) (t_gross_profit t).
Proof.
  unfold totals_of. intros Ht Htotal. rewrite Htotal in Ht. unfold compute_totals in Ht.
  destruct (int_or_zero int_of_string (qty_sold total)) as [q|]; [|discriminate].
  destruct (float_or_zero float_of_string (sales total)) as [s|] eqn:Hs; [|discriminate].
  destruct (float_or_zero float_of_string (cogs total)) as [c|]; [|discriminate].
  destruct (float_or_zero float_of_string (gross_profit total)) as [g|] eqn:Hg;
    [|discriminate].
  destruct (float_or_zero float_of_string (disc_mkd total)) as [d|]; [|discriminate].
  destruct (float_or_zero float_of_string (tax total)) as [x|]; [|discriminate].
  destruct (float_or_zero float_of_string (receipt_total total)) as [r|]; [|discriminate].
  simpl in Ht. injection Ht as <-. simpl.
  split; apply float_or_zero_spec; assumption.
Qed.

Lemma amount_in_functional (c : NumCell) (x y : float) :
  amount_in float_of_string c x -> amount_in float_of_string c y -> x = y.
Proof. rewrite <- !float_or_zero_spec. congruence. Qed.

(** C8, as the code has it.  The margin of the aggregated record is gross
    profit over sales times 100, computed on floats and rounded to two
    decimals, when sales is positive, and 0 when sales is zero or
    negative; a Total row with sales 4500.00 and gross profit 1200.00
    gives 26.67. *)
Theorem avg_gross_margin_by_sign (file_path store : string) (record : DailySales) :
  process_sales_file int_of_string float_of_string column_sum parse_report_date read_excel
    file_path store = Some record ->
  exists df t,
    read_excel file_path = Returned df
    /\ totals_of int_of_string float_of_string column_sum df = Returned t
    /\ (forall s, value (t_sales t) = Some s -> (0 < s)%Q ->
          let quotient := mul (div (t_gross_profit t) (t_sales t)) (of_Z 100) in
          avg_gross_margin record = round2 quotient
          /\ forall q, value quotient = Some q ->
               rounded_to_2_decimals q (avg_gross_margin record))
    /\ (forall s, value (t_sales t) = Some s -> (s <= 0)%Q ->
          avg_gross_margin record = Hundredths 0)
    /\ (forall total rest,
          List.filter (fun row => is_total row) df = total :: rest ->
          amount_in float_of_string (sales total) (of_Z 4500) ->
          amount_in float_of_string (gross_profit total) (of_Z 1200) ->
          avg_gross_margin record = Hundredths 2667).
Proof.
  intros H. apply process_sales_file_some in H as [df [t [first_row [rest' [Hread [_ [Ht ->]]]]]]].
  exists df, t. split; [exact Hread|]. split; [exact Ht|].
  cbn [avg_gross_margin make_summary]. split; [|split].
  - intros s Hs Hpos. apply (gt_zero_spec _ _ Hs) in Hpos.
    rewrite margin_of_positive by exact Hpos. cbv zeta.
    split; [reflexivity | intros q Hq; apply round2_spec, Hq].
  - intros s Hs Hneg.
    assert (gt (t_sales t) zero = false) as Hgt.
    { destruct (gt (t_sales t) zero) eqn:Hgt; [|reflexivity].
      apply (gt_zero_spec _ _ Hs) in Hgt. lra. }
    rewrite margin_of_not_positive by exact Hgt. reflexivity.
  - intros total rest Htotal Hs Hg.
    destruct (totals_from_total_row df t total rest Ht Htotal) as [Hs' Hg'].
    pose proof (amount_in_functional _ _ _ Hs Hs') as Hsales.
    pose proof (amount_in_functional _ _ _ Hg Hg') as Hprofit.
    unfold margin_of. rewrite <- Hsales, <- Hprofit. vm_compute. reflexivity.
Qed.

End Process.

(** *** The sheets *)

Import SalesScenario.

(** 26.666666666666664 is the float of the margin of the ordinary day. *)
Example margin_of_the_ordinary_day :
  mul (div (of_Z 1200) (of_Z 4500)) (of_Z 100)
  = S754_finite false 7505999378950827 (-48).
Proof. vm_compute. reflexivity. Qed.

(** A tie in decimal is none in binary: 2.675 is the float just below it,
    and is rounded down. *)
Example round2_of_2_675 : round2 (decimal 2675 3) = Hundredths 267.
Proof. vm_compute. reflexivity. Qed.

(** With sales 4000 and gross profit 1 the margin is the float just above
    0.025 and the record holds 0.03, where exact arithmetic rounds the tie
    0.025 to 0.02. *)
Example thin_margin_day_margin :
  (exists record,
     process_sales_file SyncScenario.int_of_text SyncScenario.float_of_text column_total
       date_text (reader thin_margin_day) "Sales by Transaction.xlsx" "All Stores"
     = Some record
     /\ avg_gross_margin record = Hundredths 3)
  /\ round_half_even ((1 # 4000) * 100 * 100) = 2%Z.
Proof. split; [eexists; split|]; vm_compute; reflexivity. Qed.

(** On the day of refunds sales is not 0, yet the margin recorded is 0 and
    not the rounded quotient. *)
Lemma refund_day_margin_is_zero :
  exists record t,
    process_sales_file SyncScenario.int_of_text SyncScenario.float_of_text column_total
      date_text (reader refund_day) "Sales by Transaction.xlsx" "All Stores"
    = Some record
    /\ totals_of SyncScenario.int_of_text SyncScenario.float_of_text column_total refund_day
       = Returned t
    /\ value (t_sales t) = Some (-100 # 1)%Q
    /\ avg_gross_margin record = Hundredths 0
    /\ round2 (mul (div (t_gross_profit t) (t_sales t)) (of_Z 100)) = Hundredths 3000.
Proof.
  eexists. eexists. split; [vm_compute; reflexivity|].
  split; [vm_compute; reflexivity|].
  split; [|split]; vm_compute; reflexivity.
Qed.

Lemma avg_gross_margin_by_sign_witness :
  exists record,
    process_sales_file SyncScenario.int_of_text SyncScenario.float_of_text column_total
      date_text (reader ordinary_day) "Sales by Transaction.xlsx" "All Stores"
    = Some record
    /\ avg_gross_margin record = Hundredths 2667.
Proof.
  eexists. split; [vm_compute; reflexivity|].
  destruct (avg_gross_margin_by_sign SyncScenario.int_of_text SyncScenario.float_of_text
              column_total date_text (reader ordinary_day)
              "Sales by Transaction.xlsx" "All Stores" _ eq_refl)
    as [df [t [Hread [_ [_ [_ Hexample]]]]]].
  injection Hread as <-.
  apply (Hexample (total_line 5 4500 1200) []); [reflexivity | constructor; reflexivity ..].
Defined.

End SalesFacts.

(** ** Printer resolver *)

Module PrinterFacts.

Import PyStr PyStrFacts Printer PrinterSpec.

Lemma find_first_such (f : string -> bool) (P : string -> Prop) (l : list string) :
  (forall q, f q = true <-> P q) ->
  forall p, find f l = Some p <-> first_such P l p.
Proof.
  intros Hf p. induction l as [|x l IH]; simpl.
  - split; [discriminate | intros [before [after [H _]]]; destruct before; discriminate].
  - destruct (f x) eqn:Hx.
    + split.
      * intros H. injection H as <-. exists [], l. split; [reflexivity|].
        split; [apply Hf, Hx | intros q []].
      * intros [[|y before] [after [Heq [HP Hbefore]]]].
        -- injection Heq as -> _. reflexivity.
        -- injection Heq as -> _. exfalso. apply (Hbefore y); [left; reflexivity|].
           apply Hf, Hx.
    + rewrite IH. split.
      * intros [before [after [-> [HP Hbefore]]]]. exists (x :: before), after.
        split; [reflexivity|]. split; [exact HP|].
        intros q [<- | Hq]; [rewrite <- Hf; congruence | auto].
      * intros [[|y before] [after [Heq [HP Hbefore]]]].
        -- injection Heq as -> _. apply Hf in HP. congruence.
        -- injection Heq as -> ->. exists before, after. split; [reflexivity|].
           split; [exact HP|]. intros q Hq. apply Hbefore. right. exact Hq.
Qed.

Lemma find_none_iff (f : string -> bool) (l : list string) :
  find f l = None <-> forall q, In q l -> f q = false.
Proof.
  induction l as [|x l IH]; simpl.
  - split; [intros _ q [] | reflexivity].
  - destruct (f x) eqn:Hx.
    + split; [discriminate|]. intros H. rewrite (H x) in Hx; [discriminate | left; reflexivity].
    + rewrite IH. split.
      * intros H q [<- | Hq]; auto.
      * intros H q Hq. apply H. right. exact Hq.
Qed.

Section Resolver.

(** [str.lower] of the interpreter: nothing is assumed about it. *)
Variable lower : string -> string.

Lemma same_ignoring_case_test (name p : string) :
  String.eqb (lower p) (lower name) = true <-> same_ignoring_case lower p name.
Proof. apply String.eqb_eq. Qed.

Lemma occurs_ignoring_case_test (name p : string) :
  contains (lower name) (lower p) = true <-> occurs_ignoring_case lower name p.
Proof. apply contains_spec. Qed.

Lemma same_occurs (name p : string) :
  same_ignoring_case lower p name -> occurs_ignoring_case lower name p.
Proof.
  intros H. exists EmptyString, EmptyString. rewrite H.
  change (lower name = lower name ++ "")%string. rewrite append_empty_r. reflexivity.
Qed.

(** C7. The resolver takes the first of: the configured name itself when
    it is listed; the first listed name equal to it ignoring case; the first
    listed name that contains it ignoring case; the configured name
    unchanged.  With ["Canon TR4700 series"] listed, "canon tr4700 series"
    resolves to "Canon TR4700 series", the two being equal ignoring
    case.  Ignoring case is comparing what [str.lower] of the interpreter
    returns, whatever the alphabet of the names. *)
Theorem printer_resolution_order (available : list string) (printer_name : string) :
  let actual := get_actual_printer_name lower available printer_name in
  (In printer_name available -> actual = printer_name)
  /\ (forall p, ~ In printer_name available ->
        first_such (fun q => same_ignoring_case lower q printer_name) available p ->
        actual = p)
  /\ (forall p, ~ In printer_name available ->
        (forall q, In q available -> ~ same_ignoring_case lower q printer_name) ->
        first_such (occurs_ignoring_case lower printer_name) available p ->
        actual = p)
  /\ ((forall q, In q available -> ~ occurs_ignoring_case lower printer_name q) ->
        actual = printer_name)
  /\ (same_ignoring_case lower "Canon TR4700 series" "canon tr4700 series" ->
        get_actual_printer_name lower ["Canon TR4700 series"] "canon tr4700 series"
        = "Canon TR4700 series").
Proof.
  intros actual. subst actual. unfold get_actual_printer_name.
  split; [|split; [|split; [|split]]].
  - intros Hin. destruct available as [|a l]; [reflexivity|].
    apply str_in_spec in Hin. rewrite Hin. reflexivity.
  - intros p Hnot Hfirst. destruct available as [|a l].
    { destruct Hfirst as [before [after [H _]]]. destruct before; discriminate. }
    destruct (str_in printer_name (a :: l)) eqn:Hin;
      [apply str_in_spec in Hin; contradiction|].
    apply (find_first_such _ _ _ (same_ignoring_case_test printer_name)) in Hfirst.
    rewrite Hfirst. reflexivity.
  - intros p Hnot Hnone Hfirst. destruct available as [|a l].
    { destruct Hfirst as [before [after [H _]]]. destruct before; discriminate. }
    destruct (str_in printer_name (a :: l)) eqn:Hin;
      [apply str_in_spec in Hin; contradiction|].
    assert (find (fun p => String.eqb (lower p) (lower printer_name)) (a :: l) = None) as ->.
    { apply find_none_iff. intros q Hq.
      destruct (String.eqb (lower q) (lower printer_name)) eqn:Hq'; [|reflexivity].
      apply same_ignoring_case_test in Hq'. destruct (Hnone q Hq Hq'). }
    apply (find_first_such _ _ _ (occurs_ignoring_case_test printer_name)) in Hfirst.
    rewrite Hfirst. reflexivity.
  - intros Hnone. destruct available as [|a l]; [reflexivity|].
    destruct (str_in printer_name (a :: l)); [reflexivity|].
    assert (find (fun p => String.eqb (lower p) (lower printer_name)) (a :: l) = None) as ->.
    { apply find_none_iff. intros q Hq.
      destruct (String.eqb (lower q) (lower printer_name)) eqn:Hq'; [|reflexivity].
      apply same_ignoring_case_test, same_occurs in Hq'. destruct (Hnone q Hq Hq'). }
    assert (find (fun p => contains (lower printer_name) (lower p)) (a :: l) = None) as ->.
    { apply find_none_iff. intros q Hq.
      destruct (contains (lower printer_name) (lower q)) eqn:Hq'; [|reflexivity].
      apply occurs_ignoring_case_test in Hq'. destruct (Hnone q Hq Hq'). }
    reflexivity.
  - intros Hsame. unfold same_ignoring_case in Hsame. simpl str_in. cbv iota.
    simpl find. rewrite Hsame, String.eqb_refl. reflexivity.
Qed.

(** The resolved name is the configured one or a listed one. *)
Lemma resolved_name_listed_or_configured (available : list string) (printer_name : string) :
  get_actual_printer_name lower available printer_name = printer_name
  \/ In (get_actual_printer_name lower available printer_name) available.
Proof.
  unfold get_actual_printer_name. destruct available as [|a l]; [left; reflexivity|].
  destruct (str_in printer_name (a :: l)); [left; reflexivity|].
  destruct (find _ (a :: l)) as [p|] eqn:H1; [right; apply (find_some _ _ H1)|].
  destruct (find _ (a :: l)) as [p|] eqn:H2 in |- *; [right; apply (find_some _ _ H2)|].
  left. reflexivity.
Qed.

End Resolver.

(** On names in ASCII [PyStr.lower] is [str.lower]. *)
Example resolve_canon :
  get_actual_printer_name PyStr.lower ["Canon TR4700 series"] "canon tr4700 series"
  = "Canon TR4700 series".
Proof. vm_compute. reflexivity. Qed.

Example resolve_partial :
  get_actual_printer_name PyStr.lower
    ["Microsoft Print to PDF"; "Canon TR4700 series (Copy 1)"] "canon tr4700"
  = "Canon TR4700 series (Copy 1)".
Proof. vm_compute. reflexivity. Qed.

Example resolve_unknown :
  get_actual_printer_name PyStr.lower ["Microsoft Print to PDF"] "Brother HL"
  = "Brother HL".
Proof. vm_compute. reflexivity. Qed.

(** A name outside ASCII: the listed name in small letters is found for
    the configured name in capitals, by the second step. *)
Example resolve_accented :
  same_ignoring_case lower_latin accented_small accented_capital
  /\ get_actual_printer_name lower_latin [accented_small] accented_capital
     = accented_small.
Proof. split; vm_compute; reflexivity. Qed.

End PrinterFacts.

(** ** Pending-action mailbox *)

Module MailboxFacts.

Import Mailbox.

Lemma run_cons (s : Step) (steps : list Step) (st : MailboxState) :
  run (s :: steps) st = run steps (step st s).
Proof. reflexivity. Qed.

Lemma request_overwrites (a b : Action) (st : MailboxState) :
  request a (request b st) = request a st.
Proof. destruct a, b; reflexivity. Qed.

Lemma request_sets_slot (a : Action) (st : MailboxState) :
  pending_action (request a st) = Some a /\ executed (request a st) = executed st.
Proof. destruct a; split; reflexivity. Qed.

Lemma tick_on_empty_slot (st : MailboxState) :
  pending_action st = None -> check_pending_actions st = st.
Proof. unfold check_pending_actions. intros ->. reflexivity. Qed.

Lemma ticks_on_empty_slot (n : nat) (st : MailboxState) :
  pending_action st = None -> run (repeat DrainTick n) st = st.
Proof.
  intros H. induction n as [|n IH]; [reflexivity|].
  simpl repeat. rewrite run_cons. simpl step. rewrite tick_on_empty_slot; assumption.
Qed.

(** C9. A request replaces whatever the slot holds and executes nothing; a
    drain tick empties the slot and executes at most one action; a request
    for settings followed by a request for orders, with no tick in between,
    is the same as the request for orders alone, whatever follows; and the
    ticks after the pair execute exactly one action, the orders window. *)
Theorem mailbox_last_request_wins :
  (forall a b st,
      request a (request b st) = request a st
      /\ pending_action (request a st) = Some a
      /\ executed (request a st) = executed st)
  /\ (forall st,
        pending_action (check_pending_actions st) = None
        /\ exists calls, executed (check_pending_actions st) = (executed st ++ calls)%list
                         /\ (length calls <= 1)%nat)
  /\ (forall rest st,
        run (Request Settings :: Request Orders :: rest) st
        = run (Request Orders :: rest) st)
  /\ (forall n st,
        executed (run (Request Settings :: Request Orders :: repeat DrainTick (S n)) st)
        = (executed st ++ [DoShowOrders])%list).
Proof.
  split; [|split; [|split]].
  - intros a b st. split; [apply request_overwrites | apply request_sets_slot].
  - intros st. unfold check_pending_actions.
    destruct (pending_action st) as [[| |v u]|] eqn:Hp; simpl;
      (split; [try reflexivity; exact Hp|]).
    + exists [DoShowSettings]. split; [reflexivity | simpl; lia].
    + exists [DoShowOrders]. split; [reflexivity | simpl; lia].
    + exists [PromptUpdate v u]. split; [reflexivity | simpl; lia].
    + exists []. rewrite app_nil_r. split; [reflexivity | simpl; lia].
  - intros rest st. reflexivity.
  - intros n st. simpl repeat. rewrite !run_cons. simpl step.
    rewrite ticks_on_empty_slot; reflexivity.
Qed.

Example settings_then_orders_two_ticks :
  run [Request Settings; Request Orders; DrainTick; DrainTick] (mkMailbox None [])
  = mkMailbox None [DoShowOrders].
Proof. reflexivity. Qed.

Example settings_tick_orders_tick :
  run [Request Settings; DrainTick; Request Orders; DrainTick] (mkMailbox None [])
  = mkMailbox None [DoShowSettings; DoShowOrders].
Proof. reflexivity. Qed.

End MailboxFacts.

(** ** Order fulfilment *)

Module OrdersFacts.

Import PyStr PyStrFacts Orders OrdersSpec.

(** *** Events *)

Lemma updates_of_app (l1 l2 : list OrderEvent) :
  updates_of (l1 ++ l2) = (updates_of l1 ++ updates_of l2)%list.
Proof. apply flat_map_app. Qed.

Lemma processing_of_app (l1 l2 : list OrderEvent) :
  processing_of (l1 ++ l2) = (processing_of l1 ++ processing_of l2)%list.
Proof. apply flat_map_app. Qed.

(** *** The query *)

Lemma run_query_In (q : Query) (store : Store) (order : Order) :
  In order (run_query q store)
  <-> store !! order_id order = Some (snd order) /\ matches q order = true.
Proof.
  unfold run_query. rewrite sort_desc_In, filter_In, <- list_elem_of_In.
  destruct order as [id row]. unfold Order, order_id. simpl.
  split; (intros [H Hm]; split; [apply elem_of_map_to_list, H | exact Hm]).
Qed.

Lemma run_query_descending (q : Query) (store : Store) :
  descending (fun order : Order => created_at (snd order)) (run_query q store).
Proof. apply sort_desc_descending. Qed.

Lemma build_query_known (name : string) :
  known_store name -> build_query name = mkQuery false (Some [name; "both"]).
Proof. intros [-> | ->]; reflexivity. Qed.

Lemma build_query_unknown (name : string) :
  ~ known_store name -> build_query name = mkQuery false None.
Proof.
  intros H. unfold build_query.
  destruct (str_in name ["yakima"; "toppenish"]) eqn:Hin; [|reflexivity].
  apply str_in_spec in Hin. destruct H. destruct Hin as [<- | [<- | []]]; [left | right]; reflexivity.
Qed.

Lemma known_store_dec (name : string) : {known_store name} + {~ known_store name}.
Proof.
  unfold known_store.
  destruct (string_dec name "yakima"); [left; auto|].
  destruct (string_dec name "toppenish"); [left; auto|].
  right. intros [H | H]; contradiction.
Qed.

(** The rows a pass asks for: unprinted, and of this store or of both when
    the store name is a known one. *)
Lemma matches_build_query (name : string) (order : Order) :
  matches (build_query name) order = true
  <-> printed (snd order) = false
      /\ (known_store name ->
          order_location (snd order) = name \/ order_location (snd order) = "both").
Proof.
  destruct (known_store_dec name) as [Hk | Hk].
  - rewrite (build_query_known _ Hk). unfold matches. simpl.
    rewrite andb_true_iff, orb_true_iff, orb_true_iff, !String.eqb_eq.
    destruct (printed (snd order)); simpl; split.
    + intros [H _]; discriminate.
    + intros [H _]; discriminate.
    + intros [_ [H | [H | H]]]; [auto | auto | discriminate].
    + intros [_ H]. split; [reflexivity|]. destruct (H Hk); auto.
  - rewrite (build_query_unknown _ Hk). unfold matches. simpl.
    rewrite andb_true_r. destruct (printed (snd order)); simpl; split; try tauto.
    + discriminate.
    + intros [H _]; discriminate.
Qed.

(** *** One order *)

Lemma lookup_after_update (u : Update) (id id' : string) (store : Store) :
  id' <> id -> alter (apply_update u) id store !! id' = store !! id'.
Proof. intros H. apply lookup_alter_ne. congruence. Qed.

(** What [print_order_pdf] does: it takes up no order, every update it
    requests is for its own order, after a rendered document and, when
    sending is on, a successful dispatch; rows it requests no update for
    are untouched. *)
Lemma print_order_pdf_effect (w : OrderWorld) (order : Order) (send : bool)
  (printer : option string) (st : PollState) :
  let result := print_order_pdf w order send printer st in
  exists new,
    events (snd result) = (events st ++ new)%list
    /\ processing_of new = []
    /\ (forall id u, In (id, u) (updates_of new) ->
          id = order_id order /\ render_ok w order
          /\ (send = true ->
              Printer.send_pdf_to_printer (print_env w) (pdf_path_of w order) printer = true))
    /\ (forall id, (forall u, ~ In (id, u) (updates_of new)) ->
          store (snd result) !! id = store st !! id).
Proof.
  intros result. subst result. unfold print_order_pdf.
  assert (exists new : list OrderEvent,
             events st = (events st ++ new)%list /\ processing_of new = []
             /\ (forall id u, In (id, u) (updates_of new) ->
                   id = order_id order /\ render_ok w order
                   /\ (send = true ->
                       Printer.send_pdf_to_printer (print_env w) (pdf_path_of w order) printer
                       = true))
             /\ (forall id, (forall u, ~ In (id, u) (updates_of new)) ->
                   store st !! id = store st !! id)) as Hnothing.
  { exists []. rewrite app_nil_r. split; [reflexivity|]. split; [reflexivity|].
    split; [intros ? ? [] | reflexivity]. }
  destruct (create_pdf_order w order (pdf_path_of w order)) as [[|]|rmsg] eqn:Hrender;
    [|exact Hnothing|exact Hnothing].
  destruct (send && negb (Printer.send_pdf_to_printer (print_env w) (pdf_path_of w order) printer))
    eqn:Hsend; [exact Hnothing|].
  assert (send = true ->
          Printer.send_pdf_to_printer (print_env w) (pdf_path_of w order) printer = true)
    as Hdispatch.
  { intros ->. simpl in Hsend. apply negb_false_iff in Hsend. exact Hsend. }
  clear Hnothing Hsend. unfold db_update.
  destruct (update_error w (order_id order) _) as [msg|] eqn:Hfull; simpl.
  - destruct (contains "pdf_path" msg || contains "PGRST204" msg).
    + destruct (update_error w (order_id order) (mkUpdate true (now_iso w) None)) eqn:Hred;
        simpl; rewrite <- !app_assoc; (eexists; split; [reflexivity|]); simpl;
        (split; [reflexivity|]); split.
      * intros id u [H | [H | []]]; injection H as <- _; auto.
      * reflexivity.
      * intros id u [H | [H | []]]; injection H as <- _; auto.
      * intros id Hno. apply lookup_after_update. intros ->.
        apply (Hno (mkUpdate true (now_iso w) None)). right. left. reflexivity.
    + eexists; split; [reflexivity|]. simpl. split; [reflexivity|]. split.
      * intros id u [H | []]. injection H as <- _. auto.
      * reflexivity.
  - eexists; split; [reflexivity|]. simpl. split; [reflexivity|]. split.
    + intros id u [H | []]. injection H as <- _. auto.
    + intros id Hno. apply lookup_after_update. intros ->.
      eapply Hno. left. reflexivity.
Qed.

Lemma process_order_effect (w : OrderWorld) (config : option Config) (st : PollState)
  (order : Order) :
  exists new,
    events (process_order w config st order) = (events st ++ new)%list
    /\ processing_of new = [order_id order]
    /\ (forall id u, In (id, u) (updates_of new) ->
          id = order_id order /\ render_ok w order
          /\ (printing_enabled config = true -> dispatch_ok w config order))
    /\ (forall id, (forall u, ~ In (id, u) (updates_of new)) ->
          store (process_order w config st order) !! id = store st !! id).
Proof.
  unfold process_order.
  change (match config with Some c => enable_printer c | None => false end)
    with (printing_enabled config).
  change (match config with Some c => printer_name c | None => None end)
    with (configured_printer config).
  destruct (print_order_pdf_effect w order (printing_enabled config)
              (configured_printer config) (emit (EvProcessing (order_id order)) st))
    as [new [Hev [Hproc [Hup Hstore]]]].
  destruct (print_order_pdf w order (printing_enabled config) (configured_printer config)
              (emit (EvProcessing (order_id order)) st)) as [[path|] st'];
    simpl in Hev, Hstore.
  - exists (EvProcessing (order_id order) :: new
            ++ if orders_tray_icon w
               then [EvOrderReady ("Order #" ++ order_number (snd order) ++ " ready") "New Order"]
               else [])%list.
    destruct (orders_tray_icon w); simpl.
    + rewrite Hev, <- !app_assoc. split; [reflexivity|].
      rewrite processing_of_app, updates_of_app, Hproc. simpl. rewrite app_nil_r.
      split; [reflexivity|]. split; [exact Hup | exact Hstore].
    + rewrite Hev, app_nil_r, <- !app_assoc. split; [reflexivity|].
      rewrite Hproc. split; [reflexivity|]. split; [exact Hup | exact Hstore].
  - exists (EvProcessing (order_id order) :: new). rewrite Hev, <- !app_assoc.
    split; [reflexivity|]. simpl. rewrite Hproc.
    split; [reflexivity|]. split; [exact Hup | exact Hstore].
Qed.

(** *** A pass over the rows of the query *)

Lemma pass_effect (w : OrderWorld) (config : option Config) (data : list Order) (st : PollState) :
  exists new,
    events (fold_left (process_order w config) data st) = (events st ++ new)%list
    /\ processing_of new = map order_id data
    /\ (forall id u, In (id, u) (updates_of new) ->
          exists order, In order data /\ order_id order = id /\ render_ok w order
                        /\ (printing_enabled config = true -> dispatch_ok w config order))
    /\ (forall id, (forall u, ~ In (id, u) (updates_of new)) ->
          store (fold_left (process_order w config) data st) !! id = store st !! id).
Proof.
  revert st. induction data as [|order data IH]; intros st; simpl.
  - exists []. rewrite app_nil_r. split; [reflexivity|]. split; [reflexivity|].
    split; [intros ? ? [] | reflexivity].
  - destruct (process_order_effect w config st order) as [new1 [Hev1 [Hp1 [Hu1 Hs1]]]].
    destruct (IH (process_order w config st order)) as [new2 [Hev2 [Hp2 [Hu2 Hs2]]]].
    exists (new1 ++ new2)%list. rewrite Hev2, Hev1, <- app_assoc.
    split; [reflexivity|]. rewrite processing_of_app, updates_of_app, Hp1, Hp2.
    split; [reflexivity|]. split.
    + intros id u Hin. apply in_app_or in Hin as [Hin | Hin].
      * destruct (Hu1 id u Hin) as [-> [Hr Hd]]. exists order. auto.
      * destruct (Hu2 id u Hin) as [o [Ho H]]. exists o. auto.
    + intros id Hno. rewrite Hs2, Hs1; [reflexivity | |];
        intros u Hin; apply (Hno u), in_or_app; auto.
Qed.

Lemma poll_for_orders_once_pass (w : OrderWorld) (config : option Config) (st : PollState) :
  exists data,
    poll_for_orders_once w config st
    = (Z.of_nat (length data), fold_left (process_order w config) data st)
    /\ (match select_error w with
        | None => data = run_query (build_query (lowered_store_name config)) (store st)
        | Some _ => data = []
        end).
Proof.
  unfold poll_for_orders_once. destruct (select_error w) as [msg|].
  - exists []. split; reflexivity.
  - exists (run_query (build_query (lowered_store_name config)) (store st)).
    split; [|reflexivity]. destruct (run_query _ (store st)); reflexivity.
Qed.

Lemma pass_rows_from_query (w : OrderWorld) (config : option Config) (st : PollState)
  (data : list Order) :
  match select_error w with
  | None => data = run_query (build_query (lowered_store_name config)) (store st)
  | Some _ => data = []
  end ->
  forall order, In order data ->
    In order (run_query (build_query (lowered_store_name config)) (store st)).
Proof.
  destruct (select_error w); intros -> order H; [destruct H | exact H].
Qed.

Lemma update_for_id_dec (id : string) (l : list (string * Update)) :
  (exists u, In (id, u) l) \/ (forall u, ~ In (id, u) l).
Proof.
  induction l as [|[id' u'] l IH].
  - right. intros u [].
  - destruct (string_dec id' id) as [-> | Hne]; [left; exists u'; left; reflexivity|].
    destruct IH as [[u Hu] | Hno]; [left; exists u; right; exact Hu|].
    right. intros u [H | H]; [congruence | exact (Hno u H)].
Qed.

Lemma same_id_same_order (q : Query) (store : Store) (o1 o2 : Order) :
  In o1 (run_query q store) -> In o2 (run_query q store) ->
  order_id o1 = order_id o2 -> o1 = o2.
Proof.
  intros H1 H2 Hid. apply run_query_In in H1 as [H1 _]. apply run_query_In in H2 as [H2 _].
  destruct o1 as [id1 row1], o2 as [id2 row2]. unfold order_id in *. simpl in *.
  subst id2. congruence.
Qed.

(** C1. A row that goes from unprinted to printed during a pass belongs to
    an order the pass queried, whose document was rendered and, when
    printing is enabled, dispatched; and for an order whose dispatch fails
    the pass requests no update, so the order is still unprinted and the
    query of the next pass returns it again. *)
Theorem printed_only_after_render_and_dispatch (w : OrderWorld) (config : option Config)
  (st : PollState) :
  let q := build_query (lowered_store_name config) in
  let result := poll_for_orders_once w config st in
  (forall id row row',
      store st !! id = Some row -> printed row = false ->
      store (snd result) !! id = Some row' -> printed row' = true ->
      In (id, row) (run_query q (store st))
      /\ render_ok w (id, row)
      /\ (printing_enabled config = true -> dispatch_ok w config (id, row)))
  /\ (forall order,
        In order (run_query q (store st)) ->
        printing_enabled config = true -> ~ dispatch_ok w config order ->
        exists new,
          events (snd result) = (events st ++ new)%list
          /\ (forall u, ~ In (order_id order, u) (updates_of new))
          /\ printed (snd order) = false
          /\ In order (run_query q (store (snd result)))).
Proof.
  intros q result. subst q result.
  destruct (poll_for_orders_once_pass w config st) as [data [-> Hdata]].
  pose proof (pass_rows_from_query w config st data Hdata) as Hrows.
  destruct (pass_effect w config data st) as [new [Hev [_ [Hup Hstore]]]].
  simpl snd. split.
  - intros id row row' Hrow Hunprinted Hrow' Hprinted.
    destruct (update_for_id_dec id (updates_of new)) as [[u Hu] | Hno].
    + destruct (Hup id u Hu) as [order [Hin [Hid [Hrender Hdispatch]]]].
      apply Hrows in Hin. pose proof Hin as Hq. apply run_query_In in Hq as [Hlookup _].
      destruct order as [id0 row0]. unfold order_id in *. simpl in *. subst id0.
      assert (row0 = row) as -> by congruence. auto.
    + rewrite (Hstore id Hno), Hrow in Hrow'. injection Hrow' as <-. congruence.
  - intros order Hin Henabled Hfail. exists new. split; [exact Hev|].
    assert (forall u, ~ In (order_id order, u) (updates_of new)) as Hno.
    { intros u Hu. destruct (Hup _ u Hu) as [order' [Hin' [Hid [_ Hdispatch]]]].
      apply Hrows in Hin'. rewrite (same_id_same_order _ _ _ _ Hin' Hin Hid) in Hdispatch.
      exact (Hfail (Hdispatch Henabled)). }
    split; [exact Hno|]. pose proof Hin as Hq. apply run_query_In in Hq as [Hlookup Hmatch].
    split; [apply matches_build_query in Hmatch as [H _]; exact H|].
    apply run_query_In. split; [|exact Hmatch]. rewrite (Hstore _ Hno). exact Hlookup.
Qed.

(** C4, as the code has it.  A pass queries the unprinted orders; when the
    configured store name, in lower case, is yakima or toppenish, only those
    located at that store or at "both", and otherwise those of every
    location; the rows come newest first; and the number returned is the
    number of orders the pass took up, which are the rows of the query, or
    none when the query fails. *)
Theorem poll_query_and_count (w : OrderWorld) (config : option Config) (st : PollState) :
  let name := lowered_store_name config in
  let data := run_query (build_query name) (store st) in
  let result := poll_for_orders_once w config st in
  (forall order,
      In order data <->
      store st !! order_id order = Some (snd order)
      /\ printed (snd order) = false
      /\ (known_store name ->
          order_location (snd order) = name \/ order_location (snd order) = "both"))
  /\ descending (fun order : Order => created_at (snd order)) data
  /\ exists new,
      events (snd result) = (events st ++ new)%list
      /\ fst result = Z.of_nat (length (processing_of new))
      /\ (select_error w = None -> processing_of new = map order_id data)
      /\ (select_error w <> None -> new = []).
Proof.
  intros name data result. subst name data result. split; [|split].
  - intros order. rewrite run_query_In, matches_build_query. reflexivity.
  - apply run_query_descending.
  - destruct (poll_for_orders_once_pass w config st) as [data [-> Hdata]].
    destruct (select_error w) as [msg|]; subst data.
    + exists []. simpl. rewrite app_nil_r.
      split; [reflexivity|]. split; [reflexivity|]. split; [discriminate | reflexivity].
    + destruct (pass_effect w config
                  (run_query (build_query (lowered_store_name config)) (store st)) st)
        as [new [Hev [Hproc _]]].
      exists new. simpl fst; simpl snd. split; [exact Hev|].
      rewrite Hproc, length_map.
      split; [reflexivity|]. split; [reflexivity | congruence].
Qed.

(** *** The commit and its retry *)

Lemma mentions_test (word msg : string) :
  contains word msg = true <-> mentions word msg.
Proof. apply contains_spec. Qed.

Lemma schema_signal_test (msg : string) :
  contains "pdf_path" msg || contains "PGRST204" msg = true
  <-> mentions "pdf_path" msg \/ mentions "PGRST204" msg.
Proof. rewrite orb_true_iff, !mentions_test. reflexivity. Qed.

(** C5, as the code has it.  When the commit with the full field set
    fails: [print_order_pdf] retries once with the reduced field set if the
    error mentions pdf_path or PGRST204, [mark_order_printed] if it mentions
    pdf_path; a retry that succeeds marks the order, one that fails is
    reported and leaves the store as it was; any other failure of the first
    attempt is reported without a retry and leaves the store as it was. *)
Theorem commit_retry_policy (w : OrderWorld) (st : PollState) :
  (forall order send printer msg,
      render_ok w order ->
      (send = true ->
       Printer.send_pdf_to_printer (print_env w) (pdf_path_of w order) printer = true) ->
      update_error w (order_id order) (full_update w order) = Some msg ->
      let result := print_order_pdf w order send printer st in
      exists new,
        events (snd result) = (events st ++ new)%list
        /\ (mentions "pdf_path" msg \/ mentions "PGRST204" msg ->
            updates_of new
            = [(order_id order, full_update w order); (order_id order, reduced_update w)]
            /\ (update_error w (order_id order) (reduced_update w) = None ->
                fst result = Some (pdf_path_of w order)
                /\ store (snd result)
                   = alter (apply_update (reduced_update w)) (order_id order) (store st))
            /\ (update_error w (order_id order) (reduced_update w) <> None ->
                fst result = None /\ store (snd result) = store st))
        /\ (~ mentions "pdf_path" msg -> ~ mentions "PGRST204" msg ->
            updates_of new = [(order_id order, full_update w order)]
            /\ fst result = None /\ store (snd result) = store st))
  /\ (forall id path msg,
        truthy path = true ->
        update_error w id (script_full_update w path) = Some msg ->
        let result := PollingScript.mark_order_printed w id (Some path) st in
        exists new,
          events (snd result) = (events st ++ new)%list
          /\ (mentions "pdf_path" msg ->
              updates_of new = [(id, script_full_update w path); (id, script_reduced_update w)]
              /\ (update_error w id (script_reduced_update w) = None ->
                  fst result = true
                  /\ store (snd result)
                     = alter (apply_update (script_reduced_update w)) id (store st))
              /\ (update_error w id (script_reduced_update w) <> None ->
                  fst result = false /\ store (snd result) = store st))
          /\ (~ mentions "pdf_path" msg ->
              updates_of new = [(id, script_full_update w path)]
              /\ fst result = false /\ store (snd result) = store st)).
Proof.
  split.
  - intros order send printer msg Hrender Hsend Hfull result. subst result.
    unfold print_order_pdf. unfold render_ok in Hrender. rewrite Hrender.
    assert (send && negb (Printer.send_pdf_to_printer (print_env w) (pdf_path_of w order)
                            printer) = false) as ->.
    { destruct send; [rewrite Hsend by reflexivity|]; reflexivity. }
    unfold db_update. unfold full_update in Hfull. rewrite Hfull. simpl.
    destruct (contains "pdf_path" msg || contains "PGRST204" msg) eqn:Hsig.
    + apply schema_signal_test in Hsig.
      unfold reduced_update.
      destruct (update_error w (order_id order) (mkUpdate true (now_iso w) None)) eqn:Hred;
        simpl; rewrite <- app_assoc; (eexists; split; [reflexivity|]); simpl.
      * split; [|intros H1 H2; destruct Hsig; contradiction].
        intros _. split; [reflexivity|]. split; [discriminate | auto].
      * split; [|intros H1 H2; destruct Hsig; contradiction].
        intros _. split; [reflexivity|]. split; [auto | congruence].
    + eexists; split; [reflexivity|]. simpl. split.
      * intros H. apply schema_signal_test in H. congruence.
      * auto.
  - intros id path msg Hpath Hfull result. subst result.
    unfold PollingScript.mark_order_printed. rewrite Hpath.
    unfold db_update. unfold script_full_update in Hfull. rewrite Hfull. simpl.
    destruct (contains "pdf_path" msg) eqn:Hsig.
    + apply mentions_test in Hsig. unfold script_reduced_update.
      destruct (update_error w id (mkUpdate true (utcnow_iso w) None)) eqn:Hred;
        simpl; rewrite <- app_assoc; (eexists; split; [reflexivity|]); simpl.
      * split; [|intros H; contradiction].
        intros _. split; [reflexivity|]. split; [discriminate | auto].
      * split; [|intros H; contradiction].
        intros _. split; [reflexivity|]. split; [auto | congruence].
    + eexists; split; [reflexivity|]. simpl. split.
      * intros H. apply mentions_test in H. congruence.
      * auto.
Qed.

(** *** The scenarios *)

Import OrdersScenario.

(** The printer fails: both orders of the store stay as they were. *)
Example poll_with_failing_printer :
  poll_for_orders_once (orders_world 1 accepts_all) (Some yakima_config) orders_start
  = (2%Z, mkPollState orders_table [EvProcessing "c3"; EvProcessing "a1"]).
Proof. vm_compute. reflexivity. Qed.

(** The next pass, with the printer back, takes up the same two orders. *)
Example poll_again_after_failure :
  processing_of
    (events (snd (poll_for_orders_once (orders_world 0 accepts_all) (Some yakima_config)
                    (mkPollState orders_table []))))
  = ["c3"; "a1"]
  /\ printed <$> (store (snd (poll_for_orders_once (orders_world 0 accepts_all)
                                (Some yakima_config) (mkPollState orders_table []))) !! "a1")
     = Some true.
Proof. vm_compute. split; reflexivity. Qed.

(** With a store name that is neither yakima nor toppenish the pass takes
    up the orders of every location. *)
Lemma unnamed_store_polls_every_location :
  In ("b2", order_row "1002" "toppenish" false 20)
    (run_query (build_query (lowered_store_name (Some unnamed_config))) orders_table)
  /\ "toppenish" <> lowered_store_name (Some unnamed_config)
  /\ "toppenish" <> "both"
  /\ processing_of
       (events (snd (poll_for_orders_once (orders_world 0 accepts_all) (Some unnamed_config) orders_start)))
     = ["c3"; "b2"; "a1"].
Proof.
  split; [vm_compute; right; left; reflexivity|].
  split; [vm_compute; discriminate|].
  split; [discriminate | vm_compute; reflexivity].
Qed.

(** The store lacks the column [pdf_path]: the engine retries without it. *)
Example engine_retries_without_pdf_path :
  updates_of
    (events (snd (print_order_pdf (orders_world 0 no_pdf_path_column)
                    ("a1", order_row "1001" "yakima" false 10) true
                    (Some "canon tr4700 series") orders_start)))
  = [("a1", mkUpdate true "2025-03-14T10:15:00" (Some document));
     ("a1", mkUpdate true "2025-03-14T10:15:00" None)].
Proof. vm_compute. reflexivity. Qed.

(** The store cannot be reached: one attempt, nothing marked. *)
Example engine_does_not_retry_when_unreachable :
  print_order_pdf (orders_world 0 unreachable) ("a1", order_row "1001" "yakima" false 10) true
    (Some "canon tr4700 series") orders_start
  = (None, mkPollState orders_table
             [EvUpdate "a1" (mkUpdate true "2025-03-14T10:15:00" (Some document))]).
Proof. vm_compute. reflexivity. Qed.

(** The error carries the code PGRST204 and does not mention pdf_path:
    the engine retries, the script does not. *)
Lemma script_does_not_retry_on_schema_code :
  update_error (orders_world 0 no_printed_at_column) "a1"
    (script_full_update (orders_world 0 no_printed_at_column) document) = Some printed_at_error
  /\ mentions "PGRST204" printed_at_error
  /\ updates_of
       (events (snd (PollingScript.mark_order_printed (orders_world 0 no_printed_at_column) "a1"
                       (Some document) orders_start)))
     = [("a1", script_full_update (orders_world 0 no_printed_at_column) document)]
  /\ length (updates_of
               (events (snd (print_order_pdf (orders_world 0 no_printed_at_column)
                               ("a1", order_row "1001" "yakima" false 10) true
                               (Some "canon tr4700 series") orders_start)))) = 2%nat.
Proof.
  split; [reflexivity|]. split; [apply mentions_test; vm_compute; reflexivity|].
  split; vm_compute; reflexivity.
Qed.

End OrdersFacts.

(** ** Order fulfilment: what a pass achieves *)

Module PassFacts.

Import PyStr PyStrFacts Orders OrdersSpec OrdersFacts.

Lemma run_query_NoDup (q : Query) (store : Store) : List.NoDup (run_query q store).
Proof.
  unfold run_query.
  apply (Permutation_NoDup (l := List.filter (fun order => matches q order) (map_to_list store))).
  - symmetry. apply sort_desc_perm.
  - apply List.NoDup_filter. apply NoDup_ListNoDup, NoDup_map_to_list.
Qed.

(** [print_order_pdf] when every step succeeds. *)
Lemma print_order_pdf_success (w : OrderWorld) (order : Order) (send : bool)
  (printer : option string) (st : PollState) :
  render_ok w order ->
  (send = true ->
   Printer.send_pdf_to_printer (print_env w) (pdf_path_of w order) printer = true) ->
  update_error w (order_id order) (full_update w order) = None ->
  print_order_pdf w order send printer st
  = (Some (pdf_path_of w order),
     mkPollState (alter (apply_update (full_update w order)) (order_id order) (store st))
       (events st ++ [EvUpdate (order_id order) (full_update w order)])).
Proof.
  intros Hrender Hsend Hfull. unfold print_order_pdf.
  unfold render_ok in Hrender. rewrite Hrender.
  assert (send && negb (Printer.send_pdf_to_printer (print_env w) (pdf_path_of w order)
                          printer) = false) as ->.
  { destruct send; [rewrite Hsend by reflexivity|]; reflexivity. }
  unfold db_update. unfold full_update in Hfull. rewrite Hfull. reflexivity.
Qed.

Lemma process_order_success (w : OrderWorld) (config : option Config) (st : PollState)
  (order : Order) :
  render_ok w order ->
  (printing_enabled config = true -> dispatch_ok w config order) ->
  update_error w (order_id order) (full_update w order) = None ->
  store (process_order w config st order)
  = alter (apply_update (full_update w order)) (order_id order) (store st).
Proof.
  intros Hrender Hsend Hfull. unfold process_order.
  change (match config with Some c => enable_printer c | None => false end)
    with (printing_enabled config).
  change (match config with Some c => printer_name c | None => None end)
    with (configured_printer config).
  rewrite (print_order_pdf_success w order _ _ _ Hrender Hsend Hfull).
  destruct (orders_tray_icon w); reflexivity.
Qed.

(** Rows of orders that a list of orders does not hold stay as they are. *)
Lemma pass_keeps_other_rows (w : OrderWorld) (config : option Config) (data : list Order)
  (st : PollState) (id : string) :
  (forall order, In order data -> order_id order <> id) ->
  store (fold_left (process_order w config) data st) !! id = store st !! id.
Proof.
  intros Hother. destruct (pass_effect w config data st) as [new [_ [_ [Hup Hstore]]]].
  apply Hstore. intros u Hu. destruct (Hup id u Hu) as [order [Hin [Hid _]]].
  exact (Hother order Hin Hid).
Qed.

(** X1. A pass prints what it can: an order the query returns, whose document
    is rendered, whose dispatch succeeds when printing is enabled, and whose
    first update the store accepts, is printed after the pass, stamped with
    the time and the path of its document. *)
Theorem pass_prints_every_ready_order (w : OrderWorld) (config : option Config)
  (st : PollState) (order : Order) :
  select_error w = None ->
  In order (run_query (build_query (lowered_store_name config)) (store st)) ->
  render_ok w order ->
  (printing_enabled config = true -> dispatch_ok w config order) ->
  update_error w (order_id order) (full_update w order) = None ->
  store (snd (poll_for_orders_once w config st)) !! order_id order
  = Some {| order_number := order_number (snd order);
            order_location := order_location (snd order);
            printed := true;
            printed_at := Some (now_iso w);
            pdf_path := Some (pdf_path_of w order);
            created_at := created_at (snd order) |}.
Proof.
  intros Hsel Hin Hrender Hsend Hfull.
  destruct (poll_for_orders_once_pass w config st) as [data [-> Hdata]].
  rewrite Hsel in Hdata. subst data. simpl snd.
  pose proof (run_query_NoDup (build_query (lowered_store_name config)) (store st)) as Hnd.
  pose proof Hin as Hq. apply run_query_In in Hq as [Hlookup _].
  assert (forall o, In o (run_query (build_query (lowered_store_name config)) (store st)) ->
                    order_id o = order_id order -> o = order) as Hsame.
  { intros o Ho. apply (same_id_same_order _ _ _ _ Ho Hin). }
  destruct (in_split _ _ Hin) as [pre [post Hsplit]].
  rewrite Hsplit in Hnd, Hsame |- *.
  apply NoDup_remove_2 in Hnd.
  rewrite fold_left_app. simpl fold_left.
  rewrite pass_keeps_other_rows.
  2:{ intros o Ho Hid. apply Hnd. apply in_or_app. right.
      rewrite <- (Hsame o); [exact Ho | | exact Hid]. apply in_or_app. right. right. exact Ho. }
  rewrite (process_order_success w config _ order Hrender Hsend Hfull).
  rewrite lookup_alter_eq, pass_keeps_other_rows.
  2:{ intros o Ho Hid. apply Hnd. apply in_or_app. left.
      rewrite <- (Hsame o); [exact Ho | | exact Hid]. apply in_or_app. left. exact Ho. }
  rewrite Hlookup. reflexivity.
Qed.

Import OrdersScenario.

Lemma pass_prints_every_ready_order_witness :
  printed <$> (store (snd (poll_for_orders_once (orders_world 0 accepts_all)
                             (Some yakima_config) orders_start)) !! "a1")
  = Some true.
Proof.
  pose proof (pass_prints_every_ready_order (orders_world 0 accepts_all) (Some yakima_config)
                orders_start ("a1", order_row "1001" "yakima" false 10) eq_refl) as H.
  unfold order_id in H. simpl fst in H. rewrite H; [reflexivity | | | |].
  - vm_compute. right. left. reflexivity.
  - reflexivity.
  - intros _. vm_compute. reflexivity.
  - reflexivity.
Defined.

End PassFacts.

(** ** Orders reset for a reprint *)

Module ResetFacts.

Import PyStr PyStrFacts Orders OrdersSpec OrdersFacts ResetScript.

Lemma reset_table_lookup (store : Store) (id : string) :
  reset_table store !! id
  = (fun row => if String.eqb id nil_id then row else reset_row row) <$> store !! id.
Proof.
  unfold reset_table. rewrite map_lookup_imap. destruct (store !! id); reflexivity.
Qed.

(** X2. The reset puts every order back in the queue of its store: a row with
    any other id than the excluded one becomes unprinted, without time and
    path, its other columns kept, and the query of the next pass returns it;
    a row with the excluded id is left as it is. *)
Theorem reset_returns_orders_to_the_queue (store : Store) (config : option Config)
  (id : string) (row : OrderRow) :
  store !! id = Some row ->
  id <> nil_id ->
  (known_store (lowered_store_name config) ->
   order_location row = lowered_store_name config \/ order_location row = "both") ->
  snd (reset_orders store) !! id = Some (reset_row row)
  /\ In (id, reset_row row)
       (run_query (build_query (lowered_store_name config)) (snd (reset_orders store)))
  /\ snd (reset_orders store) !! nil_id = store !! nil_id.
Proof.
  intros Hrow Hid Hloc. simpl snd.
  assert (reset_table store !! id = Some (reset_row row)) as Hreset.
  { rewrite reset_table_lookup, Hrow. simpl.
    destruct (String.eqb_spec id nil_id); [contradiction | reflexivity]. }
  split; [exact Hreset|]. split.
  - apply run_query_In. split; [exact Hreset|].
    apply matches_build_query. split; [reflexivity | exact Hloc].
  - rewrite reset_table_lookup. destruct (store !! nil_id); reflexivity.
Qed.

Import OrdersScenario.

Lemma reset_returns_orders_to_the_queue_witness :
  In ("d4", order_row "1004" "yakima" false 5)
    (run_query (build_query "yakima") (snd (reset_orders orders_table))).
Proof.
  refine (proj1 (proj2 (reset_returns_orders_to_the_queue orders_table (Some yakima_config)
                          "d4" (order_row "1004" "yakima" true 5) eq_refl _ _))).
  - discriminate.
  - intros _. left. reflexivity.
Defined.

End ResetFacts.

(** ** Sales synchroniser *)

Module SalesSyncFacts.

Import PyStr PyStrFacts Locator LocatorSpec LocatorFacts.
Import Inventory SyncSpec SyncFacts Sales SalesSync SalesSyncSpec.

Lemma get_latest_sales_file_eq (fs : Folder) (watch_folder : string) :
  get_latest_sales_file fs watch_folder
  = get_latest_inventory_file fs watch_folder SALES_FILE_PATTERN.
Proof. reflexivity. Qed.

Lemma sales_upserts_of_app (l1 l2 : list SalesEvent) :
  sales_upserts_of (l1 ++ l2) = (sales_upserts_of l1 ++ sales_upserts_of l2)%list.
Proof. apply flat_map_app. Qed.

Lemma sales_removals_of_app (l1 l2 : list SalesEvent) :
  sales_removals_of (l1 ++ l2) = (sales_removals_of l1 ++ sales_removals_of l2)%list.
Proof. apply flat_map_app. Qed.

Lemma sales_upserts_of_removes (files : list string) :
  sales_upserts_of (map EvSalesRemove files) = [].
Proof. induction files; [reflexivity | exact IHfiles]. Qed.

Lemma sales_removals_of_removes (files : list string) :
  sales_removals_of (map EvSalesRemove files) = files.
Proof. induction files; [reflexivity | simpl; f_equal; exact IHfiles]. Qed.

Lemma sales_notify_events (w : SalesWorld) (m t : string) (st : SalesState) :
  exists note, sales_events (sales_notify w m t st) = (sales_events st ++ note)%list
               /\ sales_upserts_of note = [] /\ sales_removals_of note = []
               /\ sales_folder (sales_notify w m t st) = sales_folder st.
Proof.
  unfold sales_notify. destruct (sales_tray_icon w).
  - exists [EvSalesNotify m t]. repeat split.
  - exists []. rewrite app_nil_r. repeat split.
Qed.

(** After the removals a located sales file is in the folder exactly when
    its removal failed. *)
Lemma located_after_remove (w : SalesWorld) (watch_folder : string) (st st' : SalesState)
  (p : string) :
  sales_folder st' = sales_folder st ->
  In p (snd (get_latest_sales_file (sales_folder st) watch_folder)) ->
  present watch_folder
    (sales_folder
       (remove_sales_files w watch_folder
          (snd (get_latest_sales_file (sales_folder st) watch_folder)) st')) p
  <-> sales_remove_error w p <> None.
Proof.
  intros Hfolder Hp. unfold remove_sales_files. simpl sales_folder.
  rewrite present_after_delete_all, Hfolder.
  split; [intros [_ Hkeep]; exact (Hkeep Hp) | intros Hfail; split; [|intros _; exact Hfail]].
  apply (located_are_present _ _ SALES_FILE_PATTERN). exact Hp.
Qed.

Section SalesSyncProps.
Variable int_of_string : string -> Outcome Z.
Variable float_of_string : string -> Outcome PyFloat.float.
Variable column_sum : list NumCell -> Outcome NumCell.
Variable parse_report_date : Cell -> string.
Variable format_2f : Amount -> string.

(** X3. The sales files are deleted exactly when the record of the day was
    committed.  A call returns True exactly when the store accepted the
    upsert it issued; it then issued that one upsert and asked for the
    removal of every candidate file, and afterwards a candidate is left in
    the folder exactly when its removal failed.  A call that returns False
    asked for no removal and left the folder as it was. *)
Theorem sync_sales_deletes_after_commit_only (w : SalesWorld) (watch_folder store : string)
  (show_notification : bool) (st : SalesState) :
  let result := sync_sales int_of_string float_of_string column_sum parse_report_date
                  format_2f w watch_folder store show_notification st in
  let all_files := snd (get_latest_sales_file (sales_folder st) watch_folder) in
  exists new,
    sales_events (snd result) = (sales_events st ++ new)%list
    /\ (fst result = true <->
        exists record,
          In record (sales_upserts_of new) /\ sales_upsert w record = Returned tt)
    /\ (fst result = true ->
        exists record,
          sales_upserts_of new = [record]
          /\ sales_upsert w record = Returned tt
          /\ sales_removals_of new = all_files
          /\ forall p, In p all_files ->
               (present watch_folder (sales_folder (snd result)) p
                <-> sales_remove_error w p <> None))
    /\ (fst result = false ->
        sales_folder (snd result) = sales_folder st /\ sales_removals_of new = []).
Proof.
  intros result all_files. subst result all_files. unfold sync_sales.
  pose proof (located_after_remove w watch_folder st) as Hleft.
  assert (exists new : list SalesEvent,
             sales_events st = (sales_events st ++ new)%list
             /\ (false = true <->
                 exists record,
                   In record (sales_upserts_of new) /\ sales_upsert w record = Returned tt)
             /\ (false = true ->
                 exists record,
                   sales_upserts_of new = [record]
                   /\ sales_upsert w record = Returned tt
                   /\ sales_removals_of new
                      = snd (get_latest_sales_file (sales_folder st) watch_folder)
                   /\ forall p,
                        In p (snd (get_latest_sales_file (sales_folder st) watch_folder)) ->
                        (present watch_folder (sales_folder st) p
                         <-> sales_remove_error w p <> None))
             /\ (false = false -> sales_folder st = sales_folder st /\ sales_removals_of new = []))
    as Hnothing.
  { exists []. rewrite app_nil_r. split; [reflexivity|].
    split; [split; [discriminate | intros [record [[] _]]]|].
    split; [discriminate|]. auto. }
  destruct (get_latest_sales_file (sales_folder st) watch_folder) as [[latest|] all_files];
    [|exact Hnothing].
  destruct (truthy latest); [|exact Hnothing]. simpl negb. cbv iota.
  destruct (process_sales_file int_of_string float_of_string column_sum parse_report_date
              (sales_read_excel w) latest store)
    as [record|]; [|exact Hnothing].
  clear Hnothing. simpl snd in Hleft.
  destruct (sales_upsert w record) as [[]|msg] eqn:Hup.
  - destruct (sales_notify_events w (synced_message format_2f record) "Sales Sync"
                (remove_sales_files w watch_folder all_files
                   (sales_emit (EvSalesUpsert record) st)))
      as [note [Hev [Hnu [Hnr Hfolder]]]].
    exists ((EvSalesUpsert record :: map EvSalesRemove all_files)
            ++ if show_notification then note else [])%list.
    destruct show_notification; simpl fst; simpl snd.
    + rewrite Hev, Hfolder. simpl sales_events. rewrite <- !app_assoc. split; [reflexivity|].
      rewrite sales_upserts_of_app, sales_removals_of_app, Hnu, Hnr. simpl.
      rewrite sales_upserts_of_removes, sales_removals_of_removes, !app_nil_r.
      split; [split; [intros _; exists record; split; [left; reflexivity | exact Hup]
                     | reflexivity]|].
      split; [|discriminate]. intros _. exists record.
      split; [reflexivity|]. split; [exact Hup|]. split; [reflexivity|].
      intros p Hp. apply Hleft; [reflexivity | exact Hp].
    + simpl sales_events. rewrite app_nil_r, <- !app_assoc. split; [reflexivity|].
      simpl. rewrite sales_upserts_of_removes, sales_removals_of_removes.
      split; [split; [intros _; exists record; split; [left; reflexivity | exact Hup]
                     | reflexivity]|].
      split; [|discriminate]. intros _. exists record.
      split; [reflexivity|]. split; [exact Hup|]. split; [reflexivity|].
      intros p Hp. apply Hleft; [reflexivity | exact Hp].
  - destruct (sales_notify_events w ("Sales sync error: " ++ first50 msg) "Sales Sync Error"
                (sales_emit (EvSalesUpsert record) st))
      as [note [Hev [Hnu [Hnr Hfolder]]]].
    exists (EvSalesUpsert record :: note). simpl fst; simpl snd.
    rewrite Hev, Hfolder. simpl. rewrite <- app_assoc. split; [reflexivity|].
    rewrite Hnu.
    split; [split; [discriminate | intros [r [[<- | []] Hr]]; congruence]|].
    split; [discriminate|]. intros _. split; [reflexivity | exact Hnr].
Qed.

End SalesSyncProps.

(** The report of an ordinary day is committed while an older copy of it
    is open in Excel: the call returns True and asks for the removal of
    both files, and the copy stays. *)
Example sync_sales_of_an_ordinary_day :
  sync_sales SyncScenario.int_of_text SyncScenario.float_of_text SalesScenario.column_total
    SalesScenario.date_text SalesScenario.two_decimals
    (SalesScenario.sales_world SalesScenario.ordinary_day SalesScenario.copy_is_open)
    "C:\exports" "All Stores" true (mkSalesState (Some SalesScenario.sales_entries) [])
  = (true,
     mkSalesState
       (Some [mkEntry "Sales by Transaction (1).xlsx" 40; mkEntry "notes.txt" 300])
       [ EvSalesUpsert
           (mkDailySales "All Stores" "2025-03-14" 2 5 (Hundredths 450000)
              (Hundredths 330000) (Hundredths 120000) (Hundredths 2667) (Hundredths 0)
              (Hundredths 0) (Hundredths 450000));
         EvSalesRemove "C:\exports\Sales by Transaction.xlsx";
         EvSalesRemove "C:\exports\Sales by Transaction (1).xlsx";
         EvSalesNotify "Sales synced: 2 transactions, $4500.00" "Sales Sync" ]).
Proof. vm_compute. reflexivity. Qed.

End SalesSyncFacts.

(** ** The polling cycle and the watch folder *)

Module CycleFacts.

Import PyStr PyStrFacts Locator LocatorSpec LocatorFacts.
Import Inventory SyncSpec SyncFacts Sales SalesSync SalesSyncSpec SalesSyncFacts Cycle CycleSpec.






Section CycleProps.
Variable int_of_string : string -> Outcome Z.
Variable float_of_string : string -> Outcome PyFloat.float.
Variable column_sum : list NumCell -> Outcome NumCell.
Variable parse_report_date : Cell -> string.
Variable format_2f : Amount -> string.








End CycleProps.

End CycleFacts.

(** ** The pass of the polling script *)

Module ScriptPassFacts.

Import PyStr PyStrFacts Orders OrdersSpec OrdersFacts PollingScript ScriptPass.

Lemma db_update_effect (w : OrderWorld) (id : string) (u : Update) (st : PollState) :
  events (snd (db_update w id u st)) = (events st ++ [EvUpdate id u])%list
  /\ (forall id', id' <> id -> store (snd (db_update w id u st)) !! id' = store st !! id')
  /\ (fst (db_update w id u st) = Returned tt ->
      store (snd (db_update w id u st)) = alter (apply_update u) id (store st)).
Proof.
  unfold db_update. destruct (update_error w id u); simpl.
  - split; [reflexivity|]. split; [reflexivity | discriminate].
  - split; [reflexivity|]. split; [|reflexivity].
    intros id' Hne. apply lookup_after_update, Hne.
Qed.

(** [mark_order_printed] requests updates for its own order only, and
    leaves the rows of the others as they are. *)
Lemma mark_order_printed_effect (w : OrderWorld) (id : string) (path : option string)
  (st : PollState) :
  exists new,
    events (snd (mark_order_printed w id path st)) = (events st ++ new)%list
    /\ processing_of new = []
    /\ (forall id' u, In (id', u) (updates_of new) -> id' = id)
    /\ (forall id', id' <> id ->
          store (snd (mark_order_printed w id path st)) !! id' = store st !! id').
Proof.
  assert (forall u st0,
            exists new,
              events (snd (db_update w id u st0)) = (events st0 ++ new)%list
              /\ processing_of new = []
              /\ (forall id' u', In (id', u') (updates_of new) -> id' = id)
              /\ (forall id', id' <> id ->
                    store (snd (db_update w id u st0)) !! id' = store st0 !! id')) as Hone.
  { intros u st0. destruct (db_update_effect w id u st0) as [Hev [Hst _]].
    exists [EvUpdate id u]. split; [exact Hev|]. split; [reflexivity|].
    split; [|exact Hst]. intros id' u' [H|[]]. congruence. }
  assert (forall u u' st0,
            exists new,
              events (snd (db_update w id u' (snd (db_update w id u st0))))
              = (events st0 ++ new)%list
              /\ processing_of new = []
              /\ (forall id' u'', In (id', u'') (updates_of new) -> id' = id)
              /\ (forall id', id' <> id ->
                    store (snd (db_update w id u' (snd (db_update w id u st0)))) !! id'
                    = store st0 !! id')) as Htwo.
  { intros u u' st0.
    destruct (db_update_effect w id u st0) as [Hev [Hst _]].
    destruct (db_update_effect w id u' (snd (db_update w id u st0))) as [Hev' [Hst' _]].
    exists [EvUpdate id u; EvUpdate id u']. rewrite Hev', Hev, <- app_assoc.
    split; [reflexivity|]. split; [reflexivity|]. split.
    - intros id' u'' [H|[H|[]]]; congruence.
    - intros id' Hne. rewrite Hst', Hst by exact Hne. reflexivity. }
  unfold mark_order_printed.
  destruct (match path with
            | Some p => if truthy p then Some p else None
            | None => None
            end) as [p|].
  - pose proof (Hone (mkUpdate true (utcnow_iso w) (Some p)) st) as H1.
    pose proof (Htwo (mkUpdate true (utcnow_iso w) (Some p)) (mkUpdate true (utcnow_iso w) None)
                  st) as H2.
    destruct (db_update w id (mkUpdate true (utcnow_iso w) (Some p)) st) as [[[]|msg] st1];
      simpl snd in *; [exact H1|].
    destruct (contains "pdf_path" msg); [|exact H1].
    destruct (db_update w id (mkUpdate true (utcnow_iso w) None) st1) as [[[]|msg'] st2];
      simpl snd in *; exact H2.
  - pose proof (Hone (mkUpdate true (utcnow_iso w) None) st) as H1.
    destruct (db_update w id (mkUpdate true (utcnow_iso w) None) st) as [[[]|msg] st1];
      simpl snd in *; exact H1.
Qed.

(** What the loop of the script does: it takes up orders of the list in
    order, requests updates for them only, and leaves all other rows. *)
Lemma process_orders_effect (w : OrderWorld) (data : list Order) (st : PollState) :
  exists new,
    events (snd (process_orders w data st)) = (events st ++ new)%list
    /\ (forall id, In id (processing_of new) -> exists o, In o data /\ order_id o = id)
    /\ (forall id u, In (id, u) (updates_of new) -> exists o, In o data /\ order_id o = id)
    /\ (forall id, (forall o, In o data -> order_id o <> id) ->
          store (snd (process_orders w data st)) !! id = store st !! id).
Proof.
  revert st. induction data as [|order data IH]; intros st.
  - exists []. simpl. rewrite app_nil_r. split; [reflexivity|].
    split; [intros ? []|]. split; [intros ? ? []|reflexivity].
  - simpl process_orders.
    set (st0 := emit (EvProcessing (order_id order)) st).
    assert (forall st1 mid,
              events st1 = (events st0 ++ mid)%list ->
              processing_of mid = [] ->
              (forall id u, In (id, u) (updates_of mid) -> id = order_id order) ->
              (forall id, id <> order_id order -> store st1 !! id = store st !! id) ->
              exists new,
                events (snd (process_orders w data st1)) = (events st ++ new)%list
                /\ (forall id, In id (processing_of new) ->
                      exists o, In o (order :: data) /\ order_id o = id)
                /\ (forall id u, In (id, u) (updates_of new) ->
                      exists o, In o (order :: data) /\ order_id o = id)
                /\ (forall id, (forall o, In o (order :: data) -> order_id o <> id) ->
                      store (snd (process_orders w data st1)) !! id = store st !! id)) as Hrest.
    { intros st1 mid Hev Hproc Hup Hst.
      destruct (IH st1) as [new [Hev' [Hproc' [Hup' Hst']]]].
      exists (EvProcessing (order_id order) :: mid ++ new)%list.
      rewrite Hev', Hev. subst st0. simpl events. rewrite <- !app_assoc.
      split; [reflexivity|]. split; [|split].
      - intros id Hin. simpl in Hin. rewrite processing_of_app, Hproc in Hin.
        destruct Hin as [<-|Hin]; [exists order; split; [left|]; reflexivity|].
        destruct (Hproc' id Hin) as [o [Ho Hid]]. exists o. split; [right|]; assumption.
      - intros id u Hin. simpl in Hin. rewrite updates_of_app in Hin.
        apply in_app_or in Hin as [Hin|Hin].
        + exists order. split; [left; reflexivity|]. symmetry. exact (Hup id u Hin).
        + destruct (Hup' id u Hin) as [o [Ho Hid]]. exists o. split; [right|]; assumption.
      - intros id Hother. rewrite Hst'.
        + apply Hst. intros ->. apply (Hother order); [left|]; reflexivity.
        + intros o Ho. apply Hother. right. exact Ho. }
    destruct (create_pdf_order w order (pdf_path_of w order)) as [[]|e].
    + destruct (mark_order_printed_effect w (order_id order) (Some (pdf_path_of w order)) st0)
        as [mid [Hev [Hproc [Hup Hst]]]].
      apply (Hrest _ mid Hev Hproc Hup). intros id Hne. rewrite Hst by exact Hne. reflexivity.
    + apply (Hrest st0 []); [rewrite app_nil_r; reflexivity | reflexivity | intros ? ? []
                             | reflexivity].
    + exists [EvProcessing (order_id order)]. simpl snd. split; [reflexivity|]. split; [|split].
      * intros id [<-|[]]. exists order. split; [left|]; reflexivity.
      * intros id u [].
      * reflexivity.
Qed.

(** The loop stops at the first order whose document raises. *)
Lemma process_orders_stops (w : OrderWorld) (pre : list Order) (order : Order)
  (post : list Order) (e : string) (st : PollState) :
  (forall o, In o pre -> exists b, create_pdf_order w o (pdf_path_of w o) = Returned b) ->
  create_pdf_order w order (pdf_path_of w order) = Raised e ->
  process_orders w (pre ++ order :: post) st
  = (Raised e, emit (EvProcessing (order_id order)) (snd (process_orders w pre st))).
Proof.
  intros Hpre Hraise. revert st. induction pre as [|o pre IH]; intros st.
  - simpl. rewrite Hraise. reflexivity.
  - simpl. destruct (Hpre o (or_introl eq_refl)) as [b ->].
    assert (forall o', In o' pre ->
                       exists b, create_pdf_order w o' (pdf_path_of w o') = Returned b) as Hpre'
      by (intros o' Ho'; apply Hpre; right; exact Ho').
    destruct b; apply (IH Hpre').
Qed.

(** X5. In the polling script an exception while rendering a document
    ends the pass: the order it was raised for and every order after it in
    the query keep their rows, still unprinted; no update is requested for
    any of them, and none of the later ones is even taken up. *)
Theorem script_render_exception_ends_the_pass (w : OrderWorld) (st : PollState)
  (pre : list Order) (order : Order) (post : list Order) (e : string) :
  select_error w = None ->
  run_query (mkQuery false None) (store st) = (pre ++ order :: post)%list ->
  (forall o, In o pre -> exists b, create_pdf_order w o (pdf_path_of w o) = Returned b) ->
  create_pdf_order w order (pdf_path_of w order) = Raised e ->
  exists new,
    events (poll_for_orders w st) = (events st ++ new)%list
    /\ forall o, In o (order :: post) ->
         store (poll_for_orders w st) !! order_id o = Some (snd o)
         /\ printed (snd o) = false
         /\ (forall u, ~ In (order_id o, u) (updates_of new))
         /\ (In o post -> ~ In (order_id o) (processing_of new)).
Proof.
  intros Hsel Hq Hpre Hraise.
  unfold poll_for_orders. rewrite Hsel, Hq, (process_orders_stops w pre order post e st Hpre Hraise).
  simpl snd.
  destruct (process_orders_effect w pre st) as [new [Hev [Hproc [Hup Hst]]]].
  exists (new ++ [EvProcessing (order_id order)])%list.
  simpl events. rewrite Hev, <- app_assoc. split; [reflexivity|].
  intros o Ho.
  pose proof (PassFacts.run_query_NoDup (mkQuery false None) (store st)) as Hnd.
  assert (In o (run_query (mkQuery false None) (store st))) as Hin
    by (rewrite Hq; apply in_or_app; right; exact Ho).
  assert (forall o', In o' pre -> order_id o' <> order_id o) as Hfresh.
  { intros o' Ho' Hid.
    assert (In o' (run_query (mkQuery false None) (store st))) as Hin'
      by (rewrite Hq; apply in_or_app; left; exact Ho').
    pose proof (same_id_same_order _ _ _ _ Hin' Hin Hid) as ->.
    rewrite Hq in Hnd. clear - Hnd Ho Ho'.
    induction pre as [|p pre IH]; [destruct Ho'|].
    simpl in Hnd. apply List.NoDup_cons_iff in Hnd as [Hnot Hnd].
    destruct Ho' as [->|Ho']; [|exact (IH Hnd Ho')].
    apply Hnot, in_or_app. right. exact Ho. }
  apply run_query_In in Hin as [Hlookup Hm].
  split; [|split; [|split]].
  - simpl store. rewrite Hst by exact Hfresh. exact Hlookup.
  - unfold matches in Hm. simpl in Hm. rewrite andb_true_r in Hm.
    destruct (printed (snd o)); [discriminate|reflexivity].
  - intros u Hu. rewrite updates_of_app in Hu. simpl in Hu. rewrite app_nil_r in Hu.
    destruct (Hup _ _ Hu) as [o' [Ho' Hid]]. exact (Hfresh o' Ho' Hid).
  - intros Hpost Hp. rewrite processing_of_app in Hp. apply in_app_or in Hp as [Hp|Hp].
    + destruct (Hproc _ Hp) as [o' [Ho' Hid]]. exact (Hfresh o' Ho' Hid).
    + simpl in Hp. destruct Hp as [Hid|[]].
      assert (In order (run_query (mkQuery false None) (store st))) as Hino
        by (rewrite Hq; apply in_or_app; right; left; reflexivity).
      assert (In o (run_query (mkQuery false None) (store st))) as Hino'
        by (rewrite Hq; apply in_or_app; right; right; exact Hpost).
      pose proof (same_id_same_order _ _ _ _ Hino Hino' Hid) as ->.
      rewrite Hq in Hnd. apply NoDup_remove_2 in Hnd. apply Hnd, in_or_app. right. exact Hpost.
Qed.

Lemma script_render_exception_ends_the_pass_witness :
  store (poll_for_orders (ScriptScenario.failing_renderer "1002") OrdersScenario.orders_start)
    !! "a1"
  = Some (OrdersScenario.order_row "1001" "yakima" false 10).
Proof.
  destruct (script_render_exception_ends_the_pass
              (ScriptScenario.failing_renderer "1002") OrdersScenario.orders_start
              [("c3", OrdersScenario.order_row "1003" "both" false 30)]
              ("b2", OrdersScenario.order_row "1002" "toppenish" false 20)
              [("a1", OrdersScenario.order_row "1001" "yakima" false 10)]
              "'NoneType' object has no attribute 'get'")
    as [new [_ H]].
  - reflexivity.
  - vm_compute. reflexivity.
  - intros o [<-|[]]. exists true. reflexivity.
  - reflexivity.
  - apply (H ("a1", OrdersScenario.order_row "1001" "yakima" false 10)).
    right. left. reflexivity.
Defined.

Lemma pdf_path_truthy (w : OrderWorld) (order : Order) : truthy (pdf_path_of w order) = true.
Proof.
  unfold pdf_path_of. destruct (pdf_output_dir w); reflexivity.
Qed.

(** [mark_order_printed] when the store accepts the first update. *)
Lemma mark_order_printed_success (w : OrderWorld) (order : Order) (st : PollState) :
  update_error w (order_id order) (script_full_update w (pdf_path_of w order)) = None ->
  store (snd (mark_order_printed w (order_id order) (Some (pdf_path_of w order)) st))
  = alter (apply_update (script_full_update w (pdf_path_of w order))) (order_id order)
      (store st).
Proof.
  intros Hok. unfold mark_order_printed. rewrite pdf_path_truthy.
  unfold db_update. unfold script_full_update in Hok. rewrite Hok. reflexivity.
Qed.

Lemma process_orders_app (w : OrderWorld) (pre rest : list Order) (st : PollState) :
  (forall o, In o pre -> exists b, create_pdf_order w o (pdf_path_of w o) = Returned b) ->
  process_orders w (pre ++ rest) st = process_orders w rest (snd (process_orders w pre st)).
Proof.
  revert st. induction pre as [|o pre IH]; intros st Hpre; [reflexivity|].
  simpl. destruct (Hpre o (or_introl eq_refl)) as [b ->].
  assert (forall o', In o' pre ->
                     exists b, create_pdf_order w o' (pdf_path_of w o') = Returned b) as Hpre'
    by (intros o' Ho'; apply Hpre; right; exact Ho').
  destruct b; apply IH, Hpre'.
Qed.

(** X6. The polling script marks what it renders: when no document of the
    pass raises, an unprinted order of any location whose document is
    rendered and whose first update the store accepts is printed after the
    pass, stamped with the UTC time and the path of its document. No
    printer is involved and no store name is consulted. *)
Theorem script_marks_every_rendered_order (w : OrderWorld) (st : PollState) (id : string)
  (row : OrderRow) :
  select_error w = None ->
  store st !! id = Some row ->
  printed row = false ->
  (forall o, In o (run_query (mkQuery false None) (store st)) ->
     exists b, create_pdf_order w o (pdf_path_of w o) = Returned b) ->
  render_ok w (id, row) ->
  update_error w id (script_full_update w (pdf_path_of w (id, row))) = None ->
  store (poll_for_orders w st) !! id
  = Some {| order_number := order_number row;
            order_location := order_location row;
            printed := true;
            printed_at := Some (utcnow_iso w);
            pdf_path := Some (pdf_path_of w (id, row));
            created_at := created_at row |}.
Proof.
  intros Hsel Hlookup Hunprinted Hall Hrender Hok.
  assert (In (id, row) (run_query (mkQuery false None) (store st))) as Hin.
  { apply run_query_In. split; [exact Hlookup|].
    unfold matches. simpl. rewrite Hunprinted. reflexivity. }
  pose proof (PassFacts.run_query_NoDup (mkQuery false None) (store st)) as Hnd.
  assert (forall o, In o (run_query (mkQuery false None) (store st)) ->
                    order_id o = id -> o = (id, row)) as Hsame.
  { intros o Ho Hid. apply (same_id_same_order _ _ _ _ Ho Hin). exact Hid. }
  unfold poll_for_orders. rewrite Hsel.
  destruct (in_split _ _ Hin) as [pre [post Hsplit]].
  rewrite Hsplit in Hnd, Hsame, Hall |- *.
  apply NoDup_remove_2 in Hnd.
  rewrite process_orders_app
    by (intros o Ho; apply Hall, in_or_app; left; exact Ho).
  simpl process_orders. unfold render_ok in Hrender. rewrite Hrender.
  destruct (process_orders_effect w post
              (snd (mark_order_printed w (order_id (id, row)) (Some (pdf_path_of w (id, row)))
                      (emit (EvProcessing (order_id (id, row)))
                         (snd (process_orders w pre st))))))
    as [_ [_ [_ [_ Hpost]]]].
  rewrite Hpost.
  2:{ intros o Ho Hid. apply Hnd, in_or_app. right.
      rewrite <- (Hsame o); [exact Ho | | exact Hid]. apply in_or_app. right. right. exact Ho. }
  rewrite (mark_order_printed_success w (id, row) _ Hok).
  unfold order_id. simpl fst. rewrite lookup_alter_eq. simpl store.
  destruct (process_orders_effect w pre st) as [_ [_ [_ [_ Hpre]]]].
  rewrite Hpre.
  2:{ intros o Ho Hid. apply Hnd, in_or_app. left.
      rewrite <- (Hsame o); [exact Ho | | exact Hid]. apply in_or_app. left. exact Ho. }
  rewrite Hlookup. reflexivity.
Qed.

Lemma script_marks_every_rendered_order_witness :
  printed <$> (store (poll_for_orders (OrdersScenario.orders_world 1 OrdersScenario.accepts_all)
                        OrdersScenario.orders_start) !! "b2")
  = Some true.
Proof.
  rewrite (script_marks_every_rendered_order
             (OrdersScenario.orders_world 1 OrdersScenario.accepts_all)
             OrdersScenario.orders_start "b2"
             (OrdersScenario.order_row "1002" "toppenish" false 20)).
  - reflexivity.
  - reflexivity.
  - vm_compute. reflexivity.
  - reflexivity.
  - intros o _. exists true. reflexivity.
  - reflexivity.
  - reflexivity.
Defined.

End ScriptPassFacts.

(** ** Polling on a machine that cannot print *)

Module DispatchFacts.

Import PyStr Printer Orders OrdersSpec OrdersFacts.

(** Without the rasteriser, or without any printer to name, nothing is
    sent. *)
Lemma send_pdf_to_printer_unable (env : PrintEnv) (pdf_path : string)
  (printer : option string) :
  ghostscript_path env = None \/ (printer = None /\ default_printer env = None) ->
  send_pdf_to_printer env pdf_path printer = false.
Proof.
  intros [Hgs|[-> Hdefault]]; unfold send_pdf_to_printer.
  - destruct (negb (path_exists env pdf_path)); [reflexivity|].
    destruct printer as [n|]; [|destruct (default_printer env)];
      unfold send_via_ghostscript; rewrite ?Hgs; reflexivity.
  - rewrite Hdefault. destruct (negb (path_exists env pdf_path)); reflexivity.
Qed.

(** X7. With printing enabled on a machine that has no Ghostscript, or
    with no printer configured and no default printer, a pass changes no
    row and requests no update, whatever the store holds; the number it
    returns still counts every order the query returned. *)
Theorem unable_to_print_marks_nothing (w : OrderWorld) (c : Config) (st : PollState) :
  enable_printer c = true ->
  ghostscript_path (print_env w) = None
  \/ (printer_name c = None /\ default_printer (print_env w) = None) ->
  select_error w = None ->
  let result := poll_for_orders_once w (Some c) st in
  store (snd result) = store st
  /\ updates_of (events (snd result)) = updates_of (events st)
  /\ fst result
     = Z.of_nat (length (run_query (build_query (lower (store_name c))) (store st))).
Proof.
  intros Henabled Hunable Hsel result. subst result.
  destruct (poll_for_orders_once_pass w (Some c) st) as [data [-> Hdata]].
  rewrite Hsel in Hdata. simpl in Hdata. subst data. simpl fst. simpl snd.
  destruct (pass_effect w (Some c) (run_query (build_query (lower (store_name c))) (store st))
              st) as [new [Hev [_ [Hup Hstore]]]].
  assert (updates_of new = []) as Hnone.
  { destruct (updates_of new) as [|[id u] l] eqn:Hl; [reflexivity|].
    destruct (Hup id u (or_introl eq_refl)) as [order [_ [_ [_ Hdispatch]]]].
    specialize (Hdispatch Henabled). unfold dispatch_ok in Hdispatch. simpl in Hdispatch.
    rewrite send_pdf_to_printer_unable in Hdispatch by exact Hunable. discriminate. }
  split; [|split; [|reflexivity]].
  - apply map_eq. intros id. apply Hstore. intros u. rewrite Hnone. intros [].
  - rewrite Hev, updates_of_app, Hnone, app_nil_r. reflexivity.
Qed.

Lemma unable_to_print_marks_nothing_witness :
  store (snd (poll_for_orders_once DispatchScenario.bare_world
                (Some OrdersScenario.yakima_config) OrdersScenario.orders_start))
  = OrdersScenario.orders_table
  /\ fst (poll_for_orders_once DispatchScenario.bare_world
            (Some OrdersScenario.yakima_config) OrdersScenario.orders_start) = 2%Z.
Proof.
  destruct (unable_to_print_marks_nothing DispatchScenario.bare_world
              OrdersScenario.yakima_config OrdersScenario.orders_start)
    as [Hstore [_ Hcount]].
  - reflexivity.
  - left. reflexivity.
  - reflexivity.
  - split; [exact Hstore|]. rewrite Hcount. vm_compute. reflexivity.
Defined.

End DispatchFacts.

(** ** What reaches the inventory table *)

Module UpsertFacts.

Import PyStr PyStrFacts Locator Inventory InventorySpec SyncSpec SyncFacts UpsertSpec.

Lemma lstrip_strip (s : string) : lstrip (strip s) = strip s.
Proof.
  unfold strip. induction s as [|c s IH]; [reflexivity|].
  change (lstrip (String c s)) with (if is_space c then lstrip s else String c s).
  destruct (is_space c) eqn:Hc; [exact IH|].
  simpl rstrip. rewrite Hc. destruct (rstrip s); simpl; rewrite Hc; reflexivity.
Qed.

Lemma rstrip_rstrip (s : string) : rstrip (rstrip s) = rstrip s.
Proof.
  induction s as [|c s IH]; [reflexivity|].
  simpl. destruct (rstrip s) as [|a r] eqn:Hr.
  - destruct (is_space c) eqn:Hc; [reflexivity|]. simpl. rewrite Hc. reflexivity.
  - change (rstrip (String c (String a r))) with
      (match rstrip (String a r) with
       | EmptyString => if is_space c then EmptyString else String c EmptyString
       | String x y => String c (String x y)
       end).
    rewrite IH. reflexivity.
Qed.

Lemma rstrip_strip (s : string) : rstrip (strip s) = strip s.
Proof. apply rstrip_rstrip. Qed.


Section Upserts.

Variable int_of_string : string -> Outcome Z.
Variable float_of_string : string -> Outcome PyFloat.float.




End Upserts.

End UpsertFacts.

(** ** The item groups of the order form *)

Module OrderFormFacts.

Import PyStr PyStrFacts OrderForm OrderFormSpec.

Lemma dict_get_append (k key : string) (item : Item) (d : Groups) :
  dict_get k (dict_append key item d)
  = if String.eqb key k then Some (default [] (dict_get k d) ++ [item])%list
    else dict_get k d.
Proof.
  induction d as [|[k' v] d IH]; simpl.
  - destruct (String.eqb key k); reflexivity.
  - destruct (String.eqb k' key) eqn:Hk'; simpl.
    + apply String.eqb_eq in Hk' as ->.
      destruct (String.eqb key k); reflexivity.
    + destruct (String.eqb k' k) eqn:Hk.
      * apply String.eqb_eq in Hk as ->. rewrite String.eqb_sym, Hk'. reflexivity.
      * exact IH.
Qed.

Lemma keys_append (key : string) (item : Item) (d : Groups) :
  map fst (dict_append key item d)
  = if str_in key (map fst d) then map fst d else (map fst d ++ [key])%list.
Proof.
  unfold str_in. induction d as [|[k v] d IH]; simpl; [reflexivity|].
  rewrite (String.eqb_sym key k).
  destruct (String.eqb k key); simpl; [reflexivity|].
  rewrite IH. destruct (existsb (String.eqb key) (map fst d)); reflexivity.
Qed.

Lemma dict_get_keys (k : string) (d : Groups) :
  str_in k (map fst d) = match dict_get k d with Some _ => true | None => false end.
Proof.
  unfold str_in. induction d as [|[k' v] d IH]; simpl; [reflexivity|].
  rewrite (String.eqb_sym k k'). destruct (String.eqb k' k); [reflexivity | exact IH].
Qed.

(** The loop files every item under its key, behind the items filed
    there before. *)
Lemma dict_get_fold (k : string) (items : list Item) (d : Groups) :
  dict_get k (fold_left (fun d item => dict_append (group_key item) item d) items d)
  = match dict_get k d, filed_under k items with
    | None, [] => None
    | g, group => Some (default [] g ++ group)%list
    end.
Proof.
  revert d. induction items as [|item items IH]; intros d; simpl.
  - destruct (dict_get k d); simpl; [rewrite app_nil_r|]; reflexivity.
  - rewrite IH, dict_get_append.
    destruct (String.eqb (group_key item) k); simpl.
    + rewrite <- app_assoc. simpl. destruct (dict_get k d); reflexivity.
    + reflexivity.
Qed.

Lemma dict_get_items (k : string) (items : list Item) :
  dict_get k (items_by_fulfillment items)
  = match filed_under k items with [] => None | group => Some group end.
Proof.
  unfold items_by_fulfillment. rewrite dict_get_fold. simpl.
  destruct (filed_under k items); reflexivity.
Qed.

Lemma keys_NoDup (items : list Item) (d : Groups) :
  List.NoDup (map fst d) ->
  List.NoDup (map fst (fold_left (fun d item => dict_append (group_key item) item d) items d)).
Proof.
  revert d. induction items as [|item items IH]; intros d Hd; simpl; [exact Hd|].
  apply IH. rewrite keys_append.
  destruct (str_in (group_key item) (map fst d)) eqn:Hin; [exact Hd|].
  apply List.NoDup_app; [exact Hd | constructor; [intros []|constructor] |].
  intros x Hx [<-|[]]. apply str_in_spec in Hx. congruence.
Qed.

(** The keys the loop over the dictionary appends to the fixed ones. *)
Lemma fulfillment_order_fold (keys order : list string) :
  List.NoDup keys ->
  fold_left (fun order key => if str_in key order then order else (order ++ [key])%list)
    keys order
  = (order ++ List.filter (fun key => negb (str_in key order)) keys)%list.
Proof.
  revert order. induction keys as [|k keys IH]; intros order Hnd; simpl.
  - rewrite app_nil_r. reflexivity.
  - apply List.NoDup_cons_iff in Hnd as [Hk Hnd]. rewrite (IH _ Hnd).
    destruct (str_in k order) eqn:Hin; simpl; [reflexivity|].
    rewrite <- app_assoc. simpl. do 2 f_equal.
    apply filter_ext_in. intros x Hx. unfold str_in. rewrite existsb_app. simpl.
    rewrite orb_false_r. destruct (String.eqb x k) eqn:Hxk; [|rewrite orb_false_r; reflexivity].
    apply String.eqb_eq in Hxk as ->. contradiction.
Qed.

Lemma filed_under_nil (items : list Item) (key : string) :
  in_use items key = false -> filed_under key items = [].
Proof.
  unfold in_use, filed_under. induction items as [|item items IH]; simpl; [reflexivity|].
  destruct (String.eqb (group_key item) key); simpl; [discriminate | exact IH].
Qed.

Lemma filed_under_in_use (items : list Item) (key : string) :
  in_use items key = true -> filed_under key items <> [].
Proof.
  unfold in_use, filed_under. induction items as [|item items IH]; simpl; [discriminate|].
  destruct (String.eqb (group_key item) key); simpl; [discriminate | exact IH].
Qed.

(** Going through distinct keys that cover the keys of all items visits
    every item once. *)
Lemma filed_under_all (items : list Item) (keys : list string) :
  List.NoDup keys ->
  (forall item, In item items -> In (group_key item) keys) ->
  Permutation (flat_map (fun key => filed_under key items) keys) items.
Proof.
  intros Hnd. induction items as [|item items IH]; intros Hcover.
  - clear. induction keys; [constructor | exact IHkeys].
  - assert (forall keys', List.NoDup keys' ->
              Permutation
                (flat_map (fun key => filed_under key (item :: items)) keys')
                ((if str_in (group_key item) keys' then [item] else [])
                 ++ flat_map (fun key => filed_under key items) keys')) as Hstep.
    { clear. intros keys' Hnd. unfold str_in.
      induction keys' as [|k keys' IH]; [constructor|].
      apply List.NoDup_cons_iff in Hnd as [Hk Hnd]. specialize (IH Hnd).
      simpl flat_map. unfold filed_under at 1. simpl List.filter. simpl existsb.
      destruct (String.eqb (group_key item) k) eqn:Hik.
      - apply String.eqb_eq in Hik. simpl. constructor.
        apply Permutation_app_head.
        assert (existsb (String.eqb (group_key item)) keys' = false) as Hnot.
        { apply not_true_is_false. intros H. apply Hk. rewrite <- Hik.
          apply (proj1 (str_in_spec _ _) H). }
        rewrite Hnot in IH. exact IH.
      - simpl. fold (filed_under k items).
        etransitivity; [apply Permutation_app_head, IH|].
        rewrite !app_assoc. apply Permutation_app_tail, Permutation_app_comm. }
    etransitivity; [apply (Hstep keys Hnd)|].
    assert (str_in (group_key item) keys = true) as ->
      by (apply str_in_spec, Hcover; left; reflexivity).
    simpl. constructor. apply IH. intros i Hi. apply Hcover. right. exact Hi.
Qed.

(** The groups that are drawn: the keys in use, in the order of
    [fulfillment_order], each with the items filed under it. *)
Lemma drawn_groups_eq (items : list Item) :
  drawn_groups items
  = map (fun key => (key, filed_under key items))
      (List.filter (in_use items)
         (known_order
          ++ List.filter (fun key => negb (str_in key known_order))
               (map fst (items_by_fulfillment items)))).
Proof.
  unfold drawn_groups, fulfillment_order. cbv zeta.
  rewrite fulfillment_order_fold by (apply keys_NoDup; constructor).
  induction (known_order
             ++ List.filter (fun key => negb (str_in key known_order))
                  (map fst (items_by_fulfillment items)))%list as [|k ks IH];
    [reflexivity|].
  simpl. rewrite IH, dict_get_items.
  destruct (in_use items k) eqn:Huse.
  - pose proof (filed_under_in_use items k Huse).
    destruct (filed_under k items) eqn:Hf; [contradiction|]. simpl. rewrite Hf. reflexivity.
  - rewrite (filed_under_nil items k Huse). reflexivity.
Qed.

Lemma concat_groups (items : list Item) (keys : list string) :
  concat (map snd (map (fun key => (key, filed_under key items))
                     (List.filter (in_use items) keys)))
  = flat_map (fun key => filed_under key items) keys.
Proof.
  induction keys as [|k ks IH]; [reflexivity|].
  simpl. destruct (in_use items k) eqn:Huse; simpl.
  - rewrite IH. reflexivity.
  - rewrite (filed_under_nil items k Huse). exact IH.
Qed.

Lemma keys_of_groups (items : list Item) (keys : list string) :
  map fst (map (fun key => (key, filed_under key items)) keys) = keys.
Proof. induction keys as [|k ks IH]; [reflexivity | simpl; rewrite IH; reflexivity]. Qed.

(** X9. The item groups of the order form: every item of the order is in
    exactly one drawn group, so none is left out and none is drawn twice;
    no drawn group is empty; a group holds the items filed under its key in
    the order of the order; and the groups come as shipping, delivery,
    pickup at Yakima, pickup at Toppenish, then the remaining keys. *)
Theorem every_item_is_drawn_once (items : list Item) :
  let groups := drawn_groups items in
  Permutation (concat (map snd groups)) items
  /\ List.NoDup (map fst groups)
  /\ (forall key group, In (key, group) groups ->
        group <> [] /\ group = filed_under key items)
  /\ exists other,
      map fst groups = (List.filter (in_use items) known_order ++ other)%list
      /\ forall key, In key other -> ~ In key known_order.
Proof.
  intros groups. subst groups. rewrite drawn_groups_eq.
  set (extra := List.filter (fun key => negb (str_in key known_order))
                  (map fst (items_by_fulfillment items))).
  assert (List.NoDup (known_order ++ extra)) as Hnd.
  { apply List.NoDup_app.
    - repeat constructor; simpl; intuition discriminate.
    - subst extra. apply List.NoDup_filter, keys_NoDup. constructor.
    - intros x Hx Hextra. subst extra. apply filter_In in Hextra as [_ Hnot].
      apply str_in_spec in Hx. rewrite Hx in Hnot. discriminate. }
  assert (forall item, In item items -> In (group_key item) (known_order ++ extra)) as Hcover.
  { intros item Hitem.
    destruct (str_in (group_key item) known_order) eqn:Hknown.
    - apply in_or_app. left. apply str_in_spec, Hknown.
    - apply in_or_app. right. subst extra. apply filter_In. split; [|rewrite Hknown; reflexivity].
      apply str_in_spec. rewrite dict_get_keys, dict_get_items.
      destruct (filed_under (group_key item) items) eqn:Hf; [|reflexivity].
      assert (In item (filed_under (group_key item) items)) as Hin
        by (apply filter_In; split; [exact Hitem | apply String.eqb_refl]).
      rewrite Hf in Hin. destruct Hin. }
  split; [|split; [|split]].
  - rewrite concat_groups. apply (filed_under_all items _ Hnd Hcover).
  - rewrite keys_of_groups. apply List.NoDup_filter, Hnd.
  - intros key group Hin. apply in_map_iff in Hin as [k [Heq Hk]].
    injection Heq as -> <-. apply filter_In in Hk as [_ Huse].
    split; [apply filed_under_in_use, Huse | reflexivity].
  - exists (List.filter (in_use items) extra).
    rewrite keys_of_groups, List.filter_app.
    split; [reflexivity|].
    intros key Hkey Hknown. apply filter_In in Hkey as [Hextra _].
    subst extra. apply filter_In in Hextra as [_ Hnot].
    apply str_in_spec in Hknown. rewrite Hknown in Hnot. discriminate.
Qed.

End OrderFormFacts.

(** ** The update check *)

Module UpdaterFacts.

Import PyStr PyStrSpec PyStrFacts Updater UpdaterSpec.

Lemma strip_without_space (s : string) : all_chars not_space s = true -> strip s = s.
Proof.
  intros H. unfold strip.
  assert (lstrip s = s) as ->.
  { destruct s as [|c s]; [reflexivity|]. simpl in *.
    apply andb_true_iff in H as [Hc _]. unfold not_space in Hc.
    destruct (is_space c); [discriminate | reflexivity]. }
  induction s as [|c s IH]; [reflexivity|].
  simpl in H. apply andb_true_iff in H as [Hc Hs]. simpl. rewrite (IH Hs).
  unfold not_space in Hc. destruct s; [destruct (is_space c); [discriminate|]|]; reflexivity.
Qed.

Lemma all_chars_weaken (P Q : ascii -> bool) (s : string) :
  (forall c, P c = true -> Q c = true) -> all_chars P s = true -> all_chars Q s = true.
Proof.
  intros HPQ. induction s as [|c s IH]; [reflexivity|]. simpl. intros H.
  apply andb_true_iff in H as [Hc Hs]. rewrite (HPQ c Hc), (IH Hs). reflexivity.
Qed.

Lemma all_chars_app (P : ascii -> bool) (a b : string) :
  all_chars P (a ++ b) = all_chars P a && all_chars P b.
Proof.
  induction a as [|c a IH]; [reflexivity|].
  change (String c a ++ b)%string with (String c (a ++ b)). simpl.
  rewrite IH, andb_assoc. reflexivity.
Qed.

Lemma is_digit_cases (c : ascii) :
  is_digit c = true ->
  is_space c = false /\ Ascii.eqb c "." = false /\ Ascii.eqb c "v" = false
  /\ Ascii.eqb c "_" = false /\ Ascii.eqb c "-" = false /\ Ascii.eqb c "+" = false.
Proof.
  destruct c as [[] [] [] [] [] [] [] []]; intros H; try discriminate H;
    repeat split; reflexivity.
Qed.

Lemma digits_of_text (d : Decimal.uint) :
  all_chars is_digit (NilEmpty.string_of_uint d) = true.
Proof. induction d; simpl; auto. Qed.

(** The decimal text of a natural number is a non-empty row of digits
    that reads back as the number. *)
Lemma str_of_nonneg (n : Z) :
  (0 <= n)%Z ->
  exists d, str_of_Z n = NilEmpty.string_of_uint d /\ d <> Decimal.Nil /\ Z.of_uint d = n.
Proof.
  intros Hn. unfold str_of_Z. destruct n as [|p|p]; [| |lia].
  - exists (Decimal.D0 Decimal.Nil). repeat split. discriminate.
  - exists (Pos.to_uint p). simpl. split; [|split].
    + unfold NilZero.string_of_uint.
      pose proof (DecimalPos.Unsigned.to_uint_nonnil p). destruct (Pos.to_uint p); congruence.
    + apply DecimalPos.Unsigned.to_uint_nonnil.
    + unfold Z.of_uint. rewrite DecimalPos.Unsigned.of_to. reflexivity.
Qed.

Lemma str_of_nonneg_digits (n : Z) :
  (0 <= n)%Z -> all_chars is_digit (str_of_Z n) = true /\ truthy (str_of_Z n) = true.
Proof.
  intros Hn. destruct (str_of_nonneg n Hn) as [d [-> [Hd _]]].
  split; [apply digits_of_text|]. destruct d; try reflexivity. congruence.
Qed.

Lemma well_grouped_digits (s : string) (after_digit : bool) :
  all_chars is_digit s = true -> well_grouped s after_digit = after_digit || truthy s.
Proof.
  revert after_digit. induction s as [|c s IH]; intros after_digit H; simpl.
  - rewrite orb_false_r. reflexivity.
  - simpl in H. apply andb_true_iff in H as [Hc Hs].
    destruct (is_digit_cases c Hc) as [_ [_ [_ [-> _]]]].
    rewrite (IH _ Hs), orb_true_r. reflexivity.
Qed.

Lemma remove_char_absent (s : string) :
  all_chars is_digit s = true -> remove_char "_" s = s.
Proof.
  induction s as [|c s IH]; [reflexivity|]. simpl. intros H.
  apply andb_true_iff in H as [Hc Hs].
  destruct (is_digit_cases c Hc) as [_ [_ [_ [-> _]]]]. rewrite (IH Hs). reflexivity.
Qed.

Section WithDigitLimit.

Variable max_str_digits : option nat.

(** [int(str(n)) == n] for a natural number within the limit on digits. *)
Lemma py_int_str (n : Z) :
  (0 <= n)%Z -> exceeds_limit max_str_digits (str_of_Z n) = false ->
  py_int max_str_digits (str_of_Z n) = Some n.
Proof.
  intros Hn Hlimit. destruct (str_of_nonneg_digits n Hn) as [Hdigits Hne].
  destruct (str_of_nonneg n Hn) as [d [Htext [_ Hd]]].
  unfold py_int.
  rewrite strip_without_space
    by (apply (all_chars_weaken is_digit); [|exact Hdigits];
        intros c Hc; unfold not_space; destruct (is_digit_cases c Hc) as [-> _]; reflexivity).
  destruct (str_of_Z n) as [|c r] eqn:Hs; [discriminate|].
  pose proof Hdigits as Hall. simpl in Hdigits. apply andb_true_iff in Hdigits as [Hc _].
  destruct (is_digit_cases c Hc) as [_ [_ [_ [_ [-> ->]]]]].
  rewrite (well_grouped_digits _ false Hall), (remove_char_absent _ Hall), Hlimit.
  simpl orb. cbv iota. rewrite Htext, NilEmpty.usu, Hd. reflexivity.
Qed.

Lemma ints_map_str (ns : list Z) :
  Forall (fun n => (0 <= n)%Z /\ exceeds_limit max_str_digits (str_of_Z n) = false) ns ->
  ints max_str_digits (map str_of_Z ns) = Some ns.
Proof.
  induction 1 as [|n ns [Hn Hlimit] _ IH]; [reflexivity|].
  simpl. rewrite (py_int_str n Hn Hlimit), IH. reflexivity.
Qed.

End WithDigitLimit.

Lemma split_dot_piece (a : string) :
  all_chars is_digit a = true -> split_dot a = [a].
Proof.
  induction a as [|c a IH]; [reflexivity|]. simpl. intros H.
  apply andb_true_iff in H as [Hc Ha].
  destruct (is_digit_cases c Hc) as [_ [-> _]]. rewrite (IH Ha). reflexivity.
Qed.

Lemma split_dot_app (a rest : string) :
  all_chars is_digit a = true ->
  split_dot (a ++ "." ++ rest) = a :: split_dot rest.
Proof.
  induction a as [|c a IH]; [reflexivity|]. intros H. simpl in H.
  apply andb_true_iff in H as [Hc Ha].
  change (String c a ++ "." ++ rest)%string with (String c (a ++ "." ++ rest)).
  simpl split_dot. destruct (is_digit_cases c Hc) as [_ [-> _]].
  rewrite (IH Ha). reflexivity.
Qed.

Lemma split_dot_dotted (ns : list Z) :
  ns <> [] -> Forall (fun n => (0 <= n)%Z) ns ->
  split_dot (dotted ns) = map str_of_Z ns.
Proof.
  intros Hne Hall. induction Hall as [|n ns Hn Hns IH]; [congruence|].
  destruct ns as [|m ns].
  - simpl. apply split_dot_piece, str_of_nonneg_digits, Hn.
  - change (dotted (n :: m :: ns)) with (str_of_Z n ++ "." ++ dotted (m :: ns))%string.
    rewrite split_dot_app by (apply str_of_nonneg_digits, Hn).
    rewrite IH by discriminate. reflexivity.
Qed.

Lemma dotted_chars (ns : list Z) :
  Forall (fun n => (0 <= n)%Z) ns -> all_chars digit_or_dot (dotted ns) = true.
Proof.
  assert (forall n, (0 <= n)%Z -> all_chars digit_or_dot (str_of_Z n) = true) as Hone.
  { intros n Hn. apply (all_chars_weaken is_digit); [|apply str_of_nonneg_digits, Hn].
    intros c Hc. unfold digit_or_dot. rewrite Hc. reflexivity. }
  induction 1 as [|n ns Hn Hns IH]; [reflexivity|].
  destruct ns as [|m ns]; [apply Hone, Hn|].
  change (dotted (n :: m :: ns)) with (str_of_Z n ++ "." ++ dotted (m :: ns))%string.
  rewrite !all_chars_app, (Hone n Hn), IH. reflexivity.
Qed.

Lemma dotted_head (ns : list Z) :
  ns <> [] -> Forall (fun n => (0 <= n)%Z) ns ->
  exists c r, dotted ns = String c r /\ is_digit c = true.
Proof.
  intros Hne Hall. destruct Hall as [|n ns Hn Hns]; [congruence|].
  destruct (str_of_nonneg_digits n Hn) as [Hdigits Htruthy].
  destruct (str_of_Z n) as [|c r] eqn:Hs; [discriminate|].
  simpl in Hdigits. apply andb_true_iff in Hdigits as [Hc _].
  destruct ns as [|m ns].
  - exists c, r. simpl. rewrite Hs. split; [reflexivity | exact Hc].
  - exists c, (r ++ "." ++ dotted (m :: ns))%string.
    change (dotted (n :: m :: ns)) with (str_of_Z n ++ "." ++ dotted (m :: ns))%string.
    rewrite Hs. split; [reflexivity | exact Hc].
Qed.

Lemma digit_or_dot_not_space (c : ascii) : digit_or_dot c = true -> not_space c = true.
Proof.
  destruct c as [[] [] [] [] [] [] [] []]; intros H; try discriminate H; reflexivity.
Qed.

Lemma tuple_le_false (a b : list Z) : tuple_le a b = false -> older b a.
Proof.
  revert b. induction a as [|x a IH]; intros b H; [discriminate|].
  destruct b as [|y b]; [constructor|]. simpl in H.
  destruct (Z.ltb_spec x y); [discriminate|].
  destruct (Z.eqb_spec x y) as [->|Hne].
  - apply older_tail, IH, H.
  - apply older_head. lia.
Qed.

Lemma older_tuple_le (a b : list Z) : older b a -> tuple_le a b = false.
Proof.
  induction 1 as [y b|x y a b Hlt|x a b _ IH]; simpl.
  - reflexivity.
  - destruct (Z.ltb_spec y x); [lia|]. destruct (Z.eqb_spec y x); [lia | reflexivity].
  - rewrite Z.ltb_irrefl, Z.eqb_refl. exact IH.
Qed.

Section UpdateCheck.

Variable max_str_digits : option nat.

(** X10. A version written as natural numbers joined by dots, with or
    without a leading "v", parses to exactly these numbers, provided each
    number fits the interpreter's limit on digits. *)
Theorem parse_version_round_trip (ns : list Z) :
  ns <> [] ->
  Forall (fun n => (0 <= n)%Z /\ exceeds_limit max_str_digits (str_of_Z n) = false) ns ->
  parse_version max_str_digits (dotted ns) = ns
  /\ parse_version max_str_digits ("v" ++ dotted ns) = ns.
Proof.
  intros Hne Hall.
  assert (Forall (fun n => (0 <= n)%Z) ns) as Hnonneg
    by (eapply List.Forall_impl; [|exact Hall]; intros n [Hn _]; exact Hn).
  assert (all_chars not_space (dotted ns) = true) as Hclean.
  { apply (all_chars_weaken digit_or_dot); [apply digit_or_dot_not_space|].
    apply dotted_chars, Hnonneg. }
  assert (lstrip_v (dotted ns) = dotted ns) as Hv.
  { destruct (dotted_head ns Hne Hnonneg) as [c [r [-> Hc]]]. simpl.
    destruct (is_digit_cases c Hc) as [_ [_ [-> _]]]. reflexivity. }
  assert (parse_version max_str_digits (dotted ns) = ns) as Hplain.
  { unfold parse_version. rewrite (strip_without_space _ Hclean), Hv.
    rewrite (split_dot_dotted ns Hne Hnonneg), (ints_map_str _ ns Hall). reflexivity. }
  split; [exact Hplain|].
  unfold parse_version. rewrite strip_without_space by (simpl; exact Hclean).
  change (lstrip_v ("v" ++ dotted ns)) with (lstrip_v (dotted ns)). rewrite Hv.
  rewrite (split_dot_dotted ns Hne Hnonneg), (ints_map_str _ ns Hall). reflexivity.
Qed.

(** The two outcomes of [check_for_update]. *)
Lemma check_for_update_cases (has_requests : bool) (reply : Reply) (current_version : string) :
  let result := check_for_update max_str_digits has_requests reply current_version in
  result = no_update
  \/ exists status_code release asset tag,
      has_requests = true
      /\ reply = ReplyStatus status_code (Returned release)
      /\ status_code <> 404%Z
      /\ tag_name release = Some tag
      /\ first_installer release = Some asset
      /\ truthy (browser_download_url asset) = true
      /\ tuple_le (parse_version max_str_digits tag)
            (parse_version max_str_digits current_version) = false
      /\ result = (true, Some tag, Some (browser_download_url asset)).
Proof.
  intros result. subst result. unfold check_for_update.
  destruct has_requests; [|left; reflexivity]. simpl negb. cbv iota.
  destruct reply as [msg|status_code [release|msg]]; try (left; reflexivity).
  - destruct (Z.eqb_spec status_code 404) as [|Hne]; [left; reflexivity|].
    destruct ((400 <=? status_code)%Z && (status_code <? 600)%Z); [left; reflexivity|].
    destruct (tag_name release) as [tag|] eqn:Htag; simpl default; [|left; reflexivity].
    destruct (truthy tag) eqn:Htruthy; simpl negb; cbv iota; [|left; reflexivity].
    destruct (tuple_le (parse_version max_str_digits tag)
                (parse_version max_str_digits current_version)) eqn:Hle; [left; reflexivity|].
    fold (first_installer release).
    destruct (first_installer release) as [asset|] eqn:Hfind; [|left; reflexivity].
    destruct (truthy (browser_download_url asset)) eqn:Hurl; [|left; reflexivity].
    right. exists status_code, release, asset, tag.
    repeat (split; [first [assumption | reflexivity]|]). reflexivity.
  - destruct (status_code =? 404)%Z; [left; reflexivity|].
    destruct ((400 <=? status_code)%Z && (status_code <? 600)%Z); left; reflexivity.
Qed.

(** X11. The update check offers nothing or a strictly newer release: an
    offer carries the tag of the release, the version of that tag comes
    after the running one in the order of Python tuples, and the address is
    the non-empty address of the first asset whose name ends with ".exe",
    whatever the case of the letters. *)
Theorem check_for_update_offers_newer (has_requests : bool) (reply : Reply)
  (current_version : string) :
  let result := check_for_update max_str_digits has_requests reply current_version in
  result = no_update
  \/ exists status_code release asset,
      has_requests = true
      /\ reply = ReplyStatus status_code (Returned release)
      /\ status_code <> 404%Z
      /\ first_installer release = Some asset
      /\ browser_download_url asset <> ""
      /\ older (parse_version max_str_digits current_version)
            (parse_version max_str_digits (default "" (tag_name release)))
      /\ result = (true, tag_name release, Some (browser_download_url asset)).
Proof.
  intros result. subst result.
  destruct (check_for_update_cases has_requests reply current_version)
    as [H|[status_code [release [asset [tag [Hreq [Hreply [Hne [Htag [Hfind [Hurl [Hle H]]]]]]]]]]]];
    [left; exact H|].
  right. exists status_code, release, asset. rewrite Htag.
  repeat (split; [first [assumption | reflexivity]|]).
  split; [intros Hempty; rewrite Hempty in Hurl; discriminate|].
  split; [apply tuple_le_false, Hle | exact H].
Qed.

(** X12. A release whose tag is not a dotted list of integers is never
    offered to a version that is at least 0.0.0: the tag then counts as
    0.0.0. *)
Theorem malformed_tag_is_never_offered (has_requests : bool) (status_code : Z)
  (tag current_version : string) (release_assets : list Asset) :
  malformed max_str_digits tag ->
  tuple_le [0; 0; 0]%Z (parse_version max_str_digits current_version) = true ->
  check_for_update max_str_digits has_requests
    (ReplyStatus status_code (Returned (mkRelease (Some tag) release_assets)))
    current_version
  = no_update.
Proof.
  intros Hbad Hcurrent. unfold check_for_update.
  destruct has_requests; [|reflexivity]. simpl negb. cbv iota.
  destruct (status_code =? 404)%Z; [reflexivity|].
  destruct ((400 <=? status_code)%Z && (status_code <? 600)%Z); [reflexivity|].
  simpl tag_name. simpl default.
  destruct (truthy tag); simpl negb; cbv iota; [|reflexivity].
  assert (parse_version max_str_digits tag = [0; 0; 0]%Z) as ->
    by (unfold parse_version; unfold malformed in Hbad; rewrite Hbad; reflexivity).
  rewrite Hcurrent. reflexivity.
Qed.

End UpdateCheck.

Lemma parse_version_round_trip_witness :
  parse_version (Some 4300%nat) "v1.12.0" = [1; 12; 0]%Z.
Proof.
  apply (parse_version_round_trip (Some 4300%nat) [1; 12; 0]%Z).
  - discriminate.
  - repeat constructor; vm_compute; congruence.
Defined.

Lemma malformed_tag_is_never_offered_witness :
  check_for_update (Some 4300%nat) true
    (ReplyStatus 200 (Returned (mkRelease (Some "v1.1.0-beta")
                                  [mkAsset "InventorySync.exe" "https://example.org/a.exe"])))
    "1.0.0"
  = no_update.
Proof.
  apply (malformed_tag_is_never_offered (Some 4300%nat)).
  - vm_compute. reflexivity.
  - vm_compute. reflexivity.
Defined.

(** A release that is offered, and one that a shorter running version
    takes for newer although it names the same version. *)
Example newer_release_is_offered :
  check_for_update (Some 4300%nat) true
    (ReplyStatus 200 (Returned (mkRelease (Some "v1.0.1")
                                  [mkAsset "notes.txt" "https://example.org/notes.txt";
                                   mkAsset "InventorySync.EXE" "https://example.org/a.exe"])))
    "1.0.0"
  = (true, Some "v1.0.1", Some "https://example.org/a.exe").
Proof. vm_compute. reflexivity. Qed.

Example trailing_zero_counts_as_newer :
  older (parse_version None "1.0") (parse_version None "v1.0.0").
Proof. vm_compute. apply older_tail, older_tail, older_prefix. Qed.

End UpdaterFacts.

(** ** From the update check to the prompt *)

Module UpdateNoticeFacts.

Import PyStr Mailbox Updater UpdaterSpec UpdaterFacts UpdateNotice.

Lemma parse_app_version (max_str_digits : option nat) :
  valid_limit max_str_digits -> parse_version max_str_digits APP_VERSION = [1; 0; 0]%Z.
Proof.
  intros Hvalid. unfold parse_version, APP_VERSION.
  assert (forall digit, exceeds_limit max_str_digits (String digit "") = false) as Hlimit.
  { intros digit. unfold exceeds_limit. destruct max_str_digits as [limit|]; [|reflexivity].
    simpl in Hvalid. simpl. destruct limit; [lia | reflexivity]. }
  assert (py_int max_str_digits "1" = Some 1%Z) as H1
    by (unfold py_int; simpl; rewrite Hlimit; reflexivity).
  assert (py_int max_str_digits "0" = Some 0%Z) as H0
    by (unfold py_int; simpl; rewrite Hlimit; reflexivity).
  change (split_dot (lstrip_v (strip "1.0.0"))) with ["1"; "0"; "0"].
  simpl ints. rewrite H1, H0. reflexivity.
Qed.

(** A release that the check offers: it was decoded from an answer that is
    no error, its tag is newer than the running version, and its first
    installer has an address. *)
Lemma check_for_update_offers (max_str_digits : option nat) (status_code : Z)
  (release : Release) (asset : Asset) (tag : string) :
  valid_limit max_str_digits ->
  (status_code < 400)%Z \/ (600 <= status_code)%Z ->
  tag_name release = Some tag ->
  older [1; 0; 0]%Z (parse_version max_str_digits tag) ->
  first_installer release = Some asset ->
  browser_download_url asset <> "" ->
  check_for_update max_str_digits true (ReplyStatus status_code (Returned release))
    APP_VERSION
  = (true, Some tag, Some (browser_download_url asset)).
Proof.
  intros Hvalid Hstatus Htag Holder Hfind Hurl. unfold check_for_update. simpl negb. cbv iota.
  destruct (Z.eqb_spec status_code 404) as [|_]; [lia|].
  assert ((400 <=? status_code)%Z && (status_code <? 600)%Z = false) as ->.
  { destruct (Z.leb_spec 400 status_code), (Z.ltb_spec status_code 600); try reflexivity.
    lia. }
  rewrite Htag. simpl default.
  destruct (truthy tag) eqn:Htruthy.
  2:{ destruct tag; [|discriminate]. exfalso.
      change (parse_version max_str_digits "") with [0; 0; 0]%Z in Holder.
      inversion Holder; lia. }
  simpl negb. cbv iota. rewrite (parse_app_version max_str_digits Hvalid).
  rewrite (older_tuple_le _ _ Holder).
  fold (first_installer release). rewrite Hfind.
  destruct (truthy (browser_download_url asset)) eqn:Htruthy'; [reflexivity|].
  destruct (browser_download_url asset); [destruct (Hurl eq_refl) | discriminate].
Qed.

(** X13. The prompt after the start-up check: with an empty mailbox, the
    check followed by one tick of the UI thread either shows nothing or
    prompts once, for the tag of a release whose version comes strictly
    after 1.0.0 and with the address of its first ".exe" asset; nothing
    stays pending.  And it does prompt, for that tag and that address,
    whenever the answer is no error and decodes to a release whose tag
    comes strictly after 1.0.0 and whose first ".exe" asset has an
    address. *)
Theorem update_prompt_names_a_newer_release (max_str_digits : option nat)
  (has_requests : bool) (reply : Reply) (st : MailboxState) :
  valid_limit max_str_digits ->
  pending_action st = None ->
  let st' := check_pending_actions (run_update_check max_str_digits has_requests reply st) in
  pending_action st' = None
  /\ (executed st' = executed st
      \/ exists status_code release asset tag,
          reply = ReplyStatus status_code (Returned release)
          /\ tag_name release = Some tag
          /\ first_installer release = Some asset
          /\ older [1; 0; 0]%Z (parse_version max_str_digits tag)
          /\ executed st'
             = (executed st ++ [PromptUpdate tag (browser_download_url asset)])%list)
  /\ (forall status_code release asset tag,
        has_requests = true ->
        reply = ReplyStatus status_code (Returned release) ->
        (status_code < 400)%Z \/ (600 <= status_code)%Z ->
        tag_name release = Some tag ->
        first_installer release = Some asset ->
        browser_download_url asset <> "" ->
        older [1; 0; 0]%Z (parse_version max_str_digits tag) ->
        executed st'
        = (executed st ++ [PromptUpdate tag (browser_download_url asset)])%list).
Proof.
  intros Hvalid Hempty st'. subst st'. unfold run_update_check. split; [|split].
  - destruct (check_for_update_cases max_str_digits has_requests reply APP_VERSION)
      as [->|[status_code [release [asset [tag [_ [_ [_ [_ [_ [_ [_ ->]]]]]]]]]]]].
    + simpl. unfold check_pending_actions. rewrite Hempty. exact Hempty.
    + reflexivity.
  - destruct (check_for_update_cases max_str_digits has_requests reply APP_VERSION)
      as [->|[status_code [release [asset [tag [_ [Hreply [_ [Htag [Hfind [_ [Hle ->]]]]]]]]]]]].
    + simpl. unfold check_pending_actions. rewrite Hempty. left. reflexivity.
    + simpl. right. exists status_code, release, asset, tag.
      repeat (split; [assumption|]).
      split; [|reflexivity].
      rewrite <- (parse_app_version max_str_digits Hvalid). apply tuple_le_false, Hle.
  - intros status_code release asset tag -> -> Hstatus Htag Hfind Hurl Holder.
    rewrite (check_for_update_offers _ _ _ _ _ Hvalid Hstatus Htag Holder Hfind Hurl).
    reflexivity.
Qed.

Lemma update_prompt_names_a_newer_release_witness :
  executed
    (check_pending_actions
       (run_update_check (Some 4300%nat) true
          (ReplyStatus 200
             (Returned (mkRelease (Some "v1.0.1")
                          [mkAsset "notes.txt" "https://example.org/notes.txt";
                           mkAsset "InventorySync.EXE" "https://example.org/a.exe"])))
          (mkMailbox None [])))
  = [PromptUpdate "v1.0.1" "https://example.org/a.exe"].
Proof.
  destruct (update_prompt_names_a_newer_release (Some 4300%nat) true
              (ReplyStatus 200
                 (Returned (mkRelease (Some "v1.0.1")
                              [mkAsset "notes.txt" "https://example.org/notes.txt";
                               mkAsset "InventorySync.EXE" "https://example.org/a.exe"])))
              (mkMailbox None []))
    as [_ [_ Hprompt]].
  - simpl. lia.
  - reflexivity.
  - apply (Hprompt 200%Z
             (mkRelease (Some "v1.0.1")
                [mkAsset "notes.txt" "https://example.org/notes.txt";
                 mkAsset "InventorySync.EXE" "https://example.org/a.exe"])
             (mkAsset "InventorySync.EXE" "https://example.org/a.exe") "v1.0.1");
      try reflexivity.
    + left. lia.
    + discriminate.
    + change (parse_version (Some 4300%nat) "v1.0.1") with [1; 0; 1]%Z.
      apply older_tail, older_tail, older_head. lia.
Defined.

(** The release the program is running is not offered again. *)
Example same_release_is_not_prompted :
  executed
    (check_pending_actions
       (run_update_check (Some 4300%nat) true
          (ReplyStatus 200
             (Returned (mkRelease (Some "v1.0.0")
                          [mkAsset "InventorySync.exe" "https://example.org/a.exe"])))
          (mkMailbox None [])))
  = [].
Proof. vm_compute. reflexivity. Qed.

End UpdateNoticeFacts.

(** ** FedEx *)

Module FedExFacts.

Import PyStr PyStrFacts OrderForm FedEx FedExSpec.

Lemma serve_fresh (post : AuthRequest -> AuthReply) (st : TokenState) (c : Call)
  (token : string) (expiry : Z) :
  cache st = mkTokenCache (Some token) (Some expiry) ->
  token <> "" -> (call_now c < expiry)%Z ->
  serve post st c = (Some token, st).
Proof.
  intros Hcache Htoken Hnow. unfold serve, get_fedex_token. rewrite Hcache. simpl.
  assert (truthy token = true) as -> by (destruct token; [congruence | reflexivity]).
  destruct (Z.ltb_spec (call_now c) expiry); [reflexivity | lia].
Qed.

Lemma serve_all_fresh (post : AuthRequest -> AuthReply) (st : TokenState) (calls : list Call)
  (token : string) (expiry : Z) :
  cache st = mkTokenCache (Some token) (Some expiry) ->
  token <> "" ->
  Forall (fun c => (call_now c < expiry)%Z) calls ->
  serve_all post st calls = (map (fun _ => Some token) calls, st).
Proof.
  intros Hcache Htoken. induction 1 as [|c calls Hc _ IH]; [reflexivity|].
  simpl. rewrite (serve_fresh post st c token expiry Hcache Htoken Hc), IH. reflexivity.
Qed.

(** X14. The access token is fetched once and reused: when the cache is
    stale and the endpoint answers 200 with a non-empty token, the call
    sends one request and returns that token; every later call whose clock
    reads less than the time of storing plus the lifetime minus five
    minutes returns the same token without a request, whatever credentials
    and whichever environment it asks for. *)
Theorem token_is_reused_until_it_expires (post : AuthRequest -> AuthReply)
  (st : TokenState) (first : Call) (token : string) (lifetime : option Z)
  (later : list Call) :
  let request :=
    mkAuthRequest (if call_use_sandbox first then FEDEX_AUTH_URL_SANDBOX else FEDEX_AUTH_URL)
      (call_api_key first) (call_secret_key first) in
  let expiry := (call_now_stored first + seconds (default 3600 lifetime - 300))%Z in
  stale st (call_now first) ->
  post request = AuthStatus 200 (Some token) lifetime ->
  token <> "" ->
  Forall (fun c => (call_now c < expiry)%Z) later ->
  let st1 := mkTokenState (mkTokenCache (Some token) (Some expiry))
               (requests st ++ [request]) in
  serve post st first = (Some token, st1)
  /\ serve_all post st1 later = (map (fun _ => Some token) later, st1).
Proof.
  intros request expiry Hstale Hpost Htoken Hlater st1. split.
  - unfold serve, get_fedex_token. fold request.
    assert (match cached_token (cache st), expires_at (cache st) with
            | Some t, Some e => truthy t && (call_now first <? e)%Z
            | _, _ => false
            end = false) as ->.
    { unfold stale in Hstale.
      destruct (cached_token (cache st)) as [t|]; [|reflexivity].
      destruct (expires_at (cache st)) as [e|]; [|reflexivity].
      destruct Hstale as [->|He]; [reflexivity|].
      destruct (Z.ltb_spec (call_now first) e); [lia|]. apply andb_false_r. }
    simpl requests. rewrite Hpost. reflexivity.
  - apply (serve_all_fresh post st1 later token expiry); [reflexivity | exact Htoken | exact Hlater].
Qed.

Lemma token_is_reused_until_it_expires_witness :
  let post := fun _ => AuthStatus 200 (Some "eyJhbGciOi") (Some 3600%Z) in
  let st := mkTokenState (mkTokenCache None None) [] in
  fst (serve_all post (snd (serve post st (mkCall "key" "secret" false 0 2000000)))
         [mkCall "other key" "other secret" true 3000000000 3000000001])
  = [Some "eyJhbGciOi"].
Proof.
  intros post st.
  destruct (token_is_reused_until_it_expires post st (mkCall "key" "secret" false 0 2000000)
              "eyJhbGciOi" (Some 3600%Z)
              [mkCall "other key" "other secret" true 3000000000 3000000001])
    as [Hfirst Hlater].
  - exact I.
  - reflexivity.
  - discriminate.
  - repeat constructor.
  - rewrite Hfirst. cbn [snd]. rewrite Hlater. reflexivity.
Defined.

Lemma ship_from_items_store (items : list Item) (default_location : string) :
  is_store (ship_from_items items default_location)
  \/ ship_from_items items default_location = default_location.
Proof.
  induction items as [|item items IH]; [right; reflexivity|]. simpl.
  destruct (is_shipping item); [|exact IH].
  destruct (json_truthy _); [|exact IH].
  destruct (_ || _); [left; left; reflexivity|].
  destruct (_ || _); [left; right; reflexivity | exact IH].
Qed.

Lemma ship_from_items_none (items : list Item) (default_location : string) :
  has_shipping_items items = false -> ship_from_items items default_location = default_location.
Proof.
  unfold has_shipping_items. induction items as [|item items IH]; [reflexivity|]. simpl.
  destruct (is_shipping item); [discriminate | exact IH].
Qed.

(** X15. The store a shipping label is sent from is always Yakima or
    Toppenish. A station configured as one of the two ships from itself,
    whatever the order says; otherwise the location of the order decides
    when it names one of the two, then the first shipping item that names
    one; and an order without shipping items and without such a location
    ships from Toppenish. *)
Theorem label_ships_from_a_store (config_store_name order_location : string)
  (items : list Item) :
  let ship_from := label_ship_from config_store_name order_location items in
  is_store ship_from
  /\ (lower config_store_name = "yakima" -> ship_from = "Yakima")
  /\ (lower config_store_name = "toppenish" -> ship_from = "Toppenish")
  /\ (lower config_store_name <> "yakima" -> lower config_store_name <> "toppenish" ->
      ship_from = get_ship_from_location order_location items "Toppenish"
      /\ (lower order_location = "yakima" -> ship_from = "Yakima")
      /\ (lower order_location = "toppenish" -> ship_from = "Toppenish")
      /\ (lower order_location <> "yakima" -> lower order_location <> "toppenish" ->
          has_shipping_items items = false -> ship_from = "Toppenish")).
Proof.
  intros ship_from. subst ship_from. unfold label_ship_from, get_ship_from_location.
  destruct (String.eqb_spec (lower config_store_name) "yakima") as [Hy|Hy].
  { split; [left; reflexivity|]. split; [reflexivity|]. split; [congruence|]. contradiction. }
  destruct (String.eqb_spec (lower config_store_name) "toppenish") as [Ht|Ht].
  { split; [right; reflexivity|]. split; [contradiction|]. split; [reflexivity|]. contradiction. }
  split; [|split; [contradiction|split; [contradiction|]]].
  - destruct (String.eqb (lower order_location) "yakima"); [left; reflexivity|].
    destruct (String.eqb (lower order_location) "toppenish"); [right; reflexivity|].
    destruct (ship_from_items_store items "Toppenish") as [H | Heq]; [exact H | rewrite Heq; right; reflexivity].
  - intros _ _. split; [reflexivity|].
    destruct (String.eqb_spec (lower order_location) "yakima") as [Hoy|Hoy].
    { split; [reflexivity|]. split; [congruence | contradiction]. }
    destruct (String.eqb_spec (lower order_location) "toppenish") as [Hot|Hot].
    { split; [contradiction|]. split; [reflexivity | contradiction]. }
    split; [contradiction|]. split; [contradiction|].
    intros _ _. apply ship_from_items_none.
Qed.

End FedExFacts.

(** ** The settings window *)

Module SettingsFacts.

Import PyStr PyStrFacts Settings Orders OrdersSpec.

(** X16. Settings that the window saves: the store field, stripped, is
    Yakima or Toppenish, the watch folder is a directory, and pattern, URL
    and key each hold a letter or a digit; the fields are saved as typed.
    When the store field carries no white space around the name, polling
    with the saved configuration asks for the orders of that store and of
    both. *)
Theorem saved_settings_poll_their_store (isdir : string -> bool) (form : Form)
  (config : AppConfig) :
  save_settings isdir form = Some config ->
  (strip (store_var form) = "Yakima" \/ strip (store_var form) = "Toppenish")
  /\ isdir (folder_var form) = true
  /\ any_alnum (strip (pattern_var form)) = true
  /\ any_alnum (strip (url_var form)) = true
  /\ any_alnum (strip (key_var form)) = true
  /\ Settings.store_name config = store_var form
  /\ Settings.watch_folder config = folder_var form
  /\ Settings.file_pattern config = pattern_var form
  /\ (strip (store_var form) = store_var form ->
      known_store (lower (store_var form))
      /\ build_query (lowered_store_name (Some (polling_config config)))
         = mkQuery false (Some [lower (store_var form); "both"])).
Proof.
  unfold save_settings, validate_all_fields, field_errors.
  destruct (negb (truthy (strip (store_var form)))
            || negb (str_in (strip (store_var form)) ["Yakima"; "Toppenish"])) eqn:Hstore;
    [discriminate|].
  destruct (negb (truthy (folder_var form)) || negb (isdir (folder_var form))) eqn:Hfolder;
    [discriminate|].
  unfold lacks_text.
  destruct (negb (truthy (strip (pattern_var form))) || negb (any_alnum (strip (pattern_var form))))
    eqn:Hpattern; [discriminate|].
  destruct (negb (truthy (strip (url_var form))) || negb (any_alnum (strip (url_var form))))
    eqn:Hurl; [discriminate|].
  destruct (negb (truthy (strip (key_var form))) || negb (any_alnum (strip (key_var form))))
    eqn:Hkey; [discriminate|].
  simpl. intros H. injection H as <-. simpl.
  apply orb_false_iff in Hstore as [_ Hstore], Hfolder as [_ Hfolder],
    Hpattern as [_ Hpattern], Hurl as [_ Hurl], Hkey as [_ Hkey].
  apply negb_false_iff in Hstore, Hfolder, Hpattern, Hurl, Hkey.
  apply str_in_spec in Hstore.
  assert (strip (store_var form) = "Yakima" \/ strip (store_var form) = "Toppenish") as Hname
    by (destruct Hstore as [H|[H|[]]]; auto).
  repeat (split; [first [assumption | reflexivity]|]).
  intros Hsame. rewrite Hsame in Hname.
  destruct Hname as [-> | ->]; (split; [|reflexivity]); [left | right]; reflexivity.
Qed.

Lemma saved_settings_poll_their_store_witness :
  exists config,
    save_settings (fun _ => true) SettingsScenario.filled_form = Some config
    /\ build_query (lowered_store_name (Some (polling_config config)))
       = mkQuery false (Some ["yakima"; "both"]).
Proof.
  eexists. split; [reflexivity|].
  apply (saved_settings_poll_their_store (fun _ => true) SettingsScenario.filled_form);
    reflexivity.
Defined.

(** The name is saved as typed: with a blank after it the form is
    accepted and polling no longer filters by location. *)
Example padded_store_name_is_not_filtered :
  let form :=
    mkForm "Yakima " "C:\exports" "Inventory by Product" "https://project.supabase.co"
      "service-key" 1 "Canon TR4700 series" "" "" "" SettingsScenario.blank
      SettingsScenario.blank 0 in
  option_map (fun config => build_query (lowered_store_name (Some (polling_config config))))
    (save_settings (fun _ => true) form)
  = Some (mkQuery false None).
Proof. vm_compute. reflexivity. Qed.

End SettingsFacts.

(** ** Printing from the orders window *)

Module OrdersWindowFacts.

Import PyStr PyStrFacts Printer Orders OrdersSpec OrdersFacts OrdersWindow.

(** The result of [print_order_pdf] tells what happened to the row. *)
Lemma print_order_pdf_result (w : OrderWorld) (order : Order) (send : bool)
  (printer : option string) (st : PollState) :
  match print_order_pdf w order send printer st with
  | (Some path, st') =>
      path = pdf_path_of w order
      /\ render_ok w order
      /\ (send = true ->
          send_pdf_to_printer (print_env w) (pdf_path_of w order) printer = true)
      /\ exists u,
          (u = full_update w order \/ u = reduced_update w)
          /\ store st' = alter (apply_update u) (order_id order) (store st)
  | (None, st') => store st' = store st
  end.
Proof.
  unfold print_order_pdf.
  destruct (create_pdf_order w order (pdf_path_of w order)) as [[]|msg] eqn:Hrender;
    try reflexivity.
  destruct send; simpl andb.
  - destruct (send_pdf_to_printer (print_env w) (pdf_path_of w order) printer) eqn:Hsend;
      simpl negb; cbv iota; [|reflexivity].
    unfold db_update.
    destruct (update_error w (order_id order) (mkUpdate true (now_iso w)
                                                 (Some (pdf_path_of w order)))) as [msg|].
    + destruct (contains "pdf_path" msg || contains "PGRST204" msg); [|reflexivity].
      destruct (update_error w (order_id order) (mkUpdate true (now_iso w) None));
        [reflexivity|].
      simpl. repeat (split; [first [assumption | reflexivity]|]).
      exists (reduced_update w). split; [right|]; reflexivity.
    + simpl. repeat (split; [first [assumption | reflexivity]|]).
      exists (full_update w order). split; [left|]; reflexivity.
  - unfold db_update.
    destruct (update_error w (order_id order) (mkUpdate true (now_iso w)
                                                 (Some (pdf_path_of w order)))) as [msg|].
    + destruct (contains "pdf_path" msg || contains "PGRST204" msg); [|reflexivity].
      destruct (update_error w (order_id order) (mkUpdate true (now_iso w) None));
        [reflexivity|].
      simpl. split; [reflexivity|]. split; [exact Hrender|]. split; [discriminate|].
      exists (reduced_update w). split; [right|]; reflexivity.
    + simpl. split; [reflexivity|]. split; [exact Hrender|]. split; [discriminate|].
      exists (full_update w order). split; [left|]; reflexivity.
Qed.

(** X17. Printing from the orders window: the success message appears
    only when a printer is configured, the order exists, its document was
    rendered and handed to that printer, and its row is now printed and
    stamped, whether or not automatic printing is enabled and whether or
    not the order was printed before; rows of other orders are never
    touched, and after any other message the table is as it was. *)
Theorem manual_print_reports_what_happened (w : OrderWorld) (config : option Config)
  (selected : option string) (st : PollState) :
  let result := print_selected w config selected st in
  (forall id, selected <> Some id -> store (snd result) !! id = store st !! id)
  /\ (fst result <> PrintedSuccessfully -> store (snd result) = store st)
  /\ (fst result = PrintedSuccessfully ->
      exists id row name,
        selected = Some id
        /\ store st !! id = Some row
        /\ configured_printer config = Some name /\ name <> ""
        /\ render_ok w (id, row)
        /\ send_pdf_to_printer (print_env w) (pdf_path_of w (id, row)) (Some name) = true
        /\ exists row',
            store (snd result) !! id = Some row'
            /\ printed row' = true /\ printed_at row' = Some (now_iso w)
            /\ order_number row' = order_number row
            /\ order_location row' = order_location row).
Proof.
  intros result. subst result. unfold print_selected.
  destruct selected as [id|]; [|simpl; repeat split; discriminate || reflexivity].
  destruct config as [c|]; [|simpl; repeat split; discriminate || reflexivity].
  simpl configured_printer.
  destruct (printer_name c) as [name|]; [|simpl; repeat split; discriminate || reflexivity].
  destruct (truthy name) eqn:Hname; [|simpl; repeat split; discriminate || reflexivity].
  destruct (select_error w); [simpl; repeat split; discriminate || reflexivity|].
  destruct (store st !! id) as [row|] eqn:Hrow;
    [|simpl; repeat split; discriminate || reflexivity].
  pose proof (print_order_pdf_result w (id, row) true (Some name) st) as Hres.
  destruct (print_order_pdf w (id, row) true (Some name) st) as [[path|] st']; simpl fst; simpl snd.
  - destruct Hres as [_ [Hrender [Hsend [u [Hu Hstore]]]]].
    unfold order_id in Hstore. simpl fst in Hstore.
    split; [|split; [congruence|]].
    + intros id' Hne. rewrite Hstore. apply lookup_alter_ne. congruence.
    + intros _. exists id, row, name.
      split; [reflexivity|]. split; [exact Hrow|]. split; [reflexivity|].
      split; [intros ->; discriminate|]. split; [exact Hrender|].
      split; [apply Hsend; reflexivity|].
      exists (apply_update u row). rewrite Hstore, lookup_alter_eq, Hrow.
      split; [reflexivity|]. destruct Hu as [-> | ->]; repeat split.
  - split; [intros id' _; rewrite Hres; reflexivity|]. split; [intros _; exact Hres|].
    discriminate.
Qed.

(** A printed order is printed again from the window, although automatic
    printing is switched off. *)
Example reprint_from_the_window :
  let quiet := mkConfig "Yakima" false (Some "canon tr4700 series") in
  let result :=
    print_selected (OrdersScenario.orders_world 0 OrdersScenario.accepts_all) (Some quiet)
      (Some "d4") OrdersScenario.orders_start in
  fst result = PrintedSuccessfully
  /\ printed_at <$> (store (snd result) !! "d4") = Some (Some "2025-03-14T10:15:00").
Proof. vm_compute. split; reflexivity. Qed.

End OrdersWindowFacts.

(** ** The printer list *)

Module PrinterListFacts.

Import PyStr PyStrSpec PyStrFacts Printer PrinterList PrinterListSpec.

Lemma split_char_pieces (sep : ascii) (s piece : string) :
  In piece (split_char sep s) ->
  all_chars (fun c => negb (Ascii.eqb c sep)) piece = true.
Proof.
  revert piece. induction s as [|c s IH]; intros piece; simpl.
  - intros [<-|[]]. reflexivity.
  - destruct (Ascii.eqb c sep) eqn:Hc.
    + intros [<-|H]; [reflexivity | apply IH, H].
    + destruct (split_char sep s) as [|first rest].
      * intros [<-|[]]. simpl. rewrite Hc. reflexivity.
      * intros [<-|H].
        -- simpl. rewrite Hc. simpl. apply IH. left. reflexivity.
        -- apply IH. right. exact H.
Qed.

Lemma split_char_line (line : string) :
  all_chars no_line_break line = true -> split_char newline line = [line].
Proof.
  induction line as [|c line IH]; [reflexivity|]. simpl. intros H.
  apply andb_true_iff in H as [Hc Hline]. unfold no_line_break in Hc.
  apply negb_true_iff in Hc. rewrite Hc, (IH Hline). reflexivity.
Qed.

Lemma split_char_first_line (line rest : string) :
  all_chars no_line_break line = true ->
  split_char newline (line ++ String newline rest) = line :: split_char newline rest.
Proof.
  induction line as [|c line IH]; intros H.
  - change (split_char newline (String newline rest) = "" :: split_char newline rest).
    reflexivity.
  - simpl in H. apply andb_true_iff in H as [Hc Hline]. unfold no_line_break in Hc.
    apply negb_true_iff in Hc.
    change (split_char newline (String c (line ++ String newline rest))
            = String c line :: split_char newline rest).
    simpl. rewrite Hc, (IH Hline). reflexivity.
Qed.

(** [split] returns the lines of the text, and nothing else does. *)
Lemma split_char_lines (text : string) (lines : list string) :
  lines_of text lines -> split_char newline text = lines.
Proof.
  intros [Hne [<- Hall]]. destruct lines as [|line rest]; [destruct (Hne eq_refl)|].
  clear Hne. revert line Hall. induction rest as [|next rest IH]; intros line Hall;
    apply List.Forall_cons_iff in Hall as [Hline Hrest].
  - apply split_char_line, Hline.
  - change (join_lines (line :: next :: rest))
      with (line ++ String newline (join_lines (next :: rest))).
    rewrite (split_char_first_line _ _ Hline), (IH next Hrest). reflexivity.
Qed.

Lemma truthy_not_blank (line : string) : truthy (strip line) = negb (blank line).
Proof. unfold blank. destruct (strip line); reflexivity. Qed.

(** X18. The printer names read from PowerShell.  When the run returns 0,
    the names are the lines of its output (the output without the white
    space around it, cut at the line breaks) that are not blank, in their
    order and each without the white space around it; so a name is not
    empty, neither starts nor ends with white space and holds no line
    break.  A failing or non-zero run gives the empty list, for which the
    resolver keeps the configured name. *)
Theorem printer_names_are_clean (result : Outcome (Z * string)) :
  (forall stdout lines,
     result = Returned (0%Z, stdout) -> lines_of (strip stdout) lines ->
     get_available_printers result = names_on lines)
  /\ (forall name, In name (get_available_printers result) ->
        name <> "" /\ lstrip name = name /\ rstrip name = name
        /\ all_chars no_line_break name = true)
  /\ ((forall stdout, result <> Returned (0%Z, stdout)) ->
      get_available_printers result = []
      /\ forall lower configured,
           get_actual_printer_name lower (get_available_printers result) configured
           = configured).
Proof.
  split; [|split].
  - intros stdout lines -> Hlines. unfold get_available_printers, names_on. simpl.
    rewrite (split_char_lines _ _ Hlines). f_equal.
    apply List.filter_ext. intros line. apply truthy_not_blank.
  - intros name Hin. unfold get_available_printers in Hin.
    destruct result as [[returncode stdout]|msg]; [|destruct Hin].
    destruct (returncode =? 0)%Z; [|destruct Hin].
    apply in_map_iff in Hin as [line [<- Hline]]. apply filter_In in Hline as [Hline Htruthy].
    split; [intros Hempty; rewrite Hempty in Htruthy; discriminate|].
    split; [apply UpsertFacts.lstrip_strip|]. split; [apply UpsertFacts.rstrip_strip|].
    unfold strip. apply all_chars_rstrip, all_chars_lstrip.
    apply (split_char_pieces newline _ _ Hline).
  - intros Hfailed.
    assert (get_available_printers result = []) as Hnone.
    { unfold get_available_printers. destruct result as [[returncode stdout]|msg]; [|reflexivity].
      destruct (Z.eqb_spec returncode 0) as [->|]; [|reflexivity].
      exfalso. apply (Hfailed stdout). reflexivity. }
    split; [exact Hnone|]. intros lower configured. rewrite Hnone. reflexivity.
Qed.

Example printers_from_powershell :
  get_available_printers (Returned (0%Z, powershell_output))
  = ["Canon TR4700 series"; "Microsoft Print to PDF"].
Proof. vm_compute. reflexivity. Qed.

Lemma printer_names_are_clean_witness :
  get_available_printers (Returned (0%Z, powershell_output))
  = names_on ["Canon TR4700 series "; ""; "Microsoft Print to PDF"].
Proof.
  destruct (printer_names_are_clean (Returned (0%Z, powershell_output))) as [Hnames _].
  apply (Hnames powershell_output); [reflexivity|].
  split; [discriminate|]. split; [vm_compute; reflexivity|].
  repeat constructor.
Defined.

End PrinterListFacts.

(** ** After a synchronisation *)

Module ConsumedFacts.

Import PyStr PyStrFacts Locator LocatorSpec LocatorFacts.
Import Inventory InventorySpec SyncSpec SyncFacts Sales SalesSync SalesSyncFacts.

(** Every candidate of the folder is among the located paths. *)
Lemma candidates_are_located (watch_folder file_pattern : string) (entries : list DirEntry)
  (e : DirEntry) :
  In e entries -> is_inventory_file file_pattern e = true ->
  In (os_path_join watch_folder (file_name e))
    (snd (get_latest_inventory_file (Some entries) watch_folder file_pattern)).
Proof.
  intros Hin Hc. unfold get_latest_inventory_file.
  assert (In (info_of watch_folder e)
            (sort_desc (fun f : FileInfo => snd (fst f))
               (find_all_inventory_files (Some entries) watch_folder file_pattern))) as Hf.
  { apply sort_desc_In. simpl. apply In_scan. exists e.
    split; [exact Hin|]. split; [reflexivity|]. apply is_inventory_file_spec, Hc. }
  destruct (sort_desc _ _) as [|f rest]; [destruct Hf|].
  simpl snd. apply (in_map (fun g : FileInfo => fst (fst g))) in Hf. exact Hf.
Qed.

(** Once the located files are removed, a scan finds the candidates whose
    removal failed, and only them. *)
Lemma scan_after_delete (remove_error : string -> option string)
  (watch_folder file_pattern : string) (entries : list DirEntry) (f : FileInfo) :
  In f (scan watch_folder file_pattern
          (delete_all_inventory_files remove_error watch_folder
             (snd (get_latest_inventory_file (Some entries) watch_folder file_pattern))
             entries))
  <-> In f (scan watch_folder file_pattern entries) /\ remove_error (path_of f) <> None.
Proof.
  rewrite !In_scan. split.
  - intros [e [He [-> Hc]]]. apply In_delete_all in He as [He Hall]. split.
    + exists e. auto.
    + apply (Hall (os_path_join watch_folder (file_name e))).
      * apply candidates_are_located; [exact He | apply is_inventory_file_spec, Hc].
      * unfold has_path. apply String.eqb_refl.
  - intros [[e [He [-> Hc]]] Hfail]. exists e. split; [|auto].
    apply In_delete_all. split; [exact He|].
    intros p _ Hhas. unfold has_path in Hhas. apply String.eqb_eq in Hhas. subst p.
    exact Hfail.
Qed.

Section Consumed.

Variable int_of_string : string -> Outcome Z.
Variable float_of_string : string -> Outcome PyFloat.float.
Variable column_sum : list NumCell -> Outcome NumCell.
Variable parse_report_date : Cell -> string.
Variable format_2f : Amount -> string.

(** X19. A synchronisation that succeeds consumes its input, as far as
    the files can be removed: after [sync_inventory] returns True the
    inventory files left for the pattern are the candidates whose removal
    failed, and after [sync_sales] returns True the sales files left are
    those whose removal failed.  When no removal fails none is left, and
    the polling loop finds nothing to do until a new export arrives. *)
Theorem successful_sync_consumes_its_input :
  (forall (w : SyncWorld) (watch_folder file_pattern : string) (show_notification : bool)
          (st : SyncState),
     let result :=
       sync_inventory int_of_string float_of_string w watch_folder file_pattern
         show_notification st in
     fst result = true ->
     (forall f,
        In f (find_all_inventory_files (folder (snd result)) watch_folder file_pattern)
        <-> In f (find_all_inventory_files (folder st) watch_folder file_pattern)
            /\ removal_fails w (path_of f))
     /\ ((forall p, remove_error w p = None) ->
         find_all_inventory_files (folder (snd result)) watch_folder file_pattern = []))
  /\ (forall (w : SalesWorld) (watch_folder store : string) (show_notification : bool)
             (st : SalesState),
        let result :=
          sync_sales int_of_string float_of_string column_sum parse_report_date format_2f
            w watch_folder store show_notification st in
        fst result = true ->
        (forall f,
           In f (find_sales_files (sales_folder (snd result)) watch_folder)
           <-> In f (find_sales_files (sales_folder st) watch_folder)
               /\ sales_remove_error w (path_of f) <> None)
        /\ ((forall p, sales_remove_error w p = None) ->
            find_sales_files (sales_folder (snd result)) watch_folder = [])).
Proof.
  assert (forall (fs fs' : Folder) (remove_error : string -> option string)
                 (watch_folder file_pattern : string),
            (forall f,
               In f (find_all_inventory_files fs' watch_folder file_pattern)
               <-> In f (find_all_inventory_files fs watch_folder file_pattern)
                   /\ remove_error (path_of f) <> None) ->
            (forall p, remove_error p = None) ->
            find_all_inventory_files fs' watch_folder file_pattern = []) as Hnone.
  { intros fs fs' remove_error watch_folder file_pattern Hleft Hok.
    destruct (find_all_inventory_files fs' watch_folder file_pattern) as [|f rest];
      [reflexivity|].
    destruct (Hleft f) as [Hf _]. destruct Hf as [_ Hfail]; [left; reflexivity|].
    destruct (Hfail (Hok _)). }
  split.
  - intros w watch_folder file_pattern show_notification st result. subst result.
    destruct (get_latest_inventory_file (folder st) watch_folder file_pattern)
      as [[latest|] all_files] eqn:Hlatest.
    2:{ unfold sync_inventory. rewrite Hlatest. discriminate. }
    rewrite (sync_inventory_chosen _ _ _ _ _ _ _ _ _ Hlatest).
    destruct (read_excel w latest) as [df|msg]; [|discriminate].
    destruct (validate_inventory_file int_of_string df) as [v|msg]; [|discriminate].
    destruct (verdict_of v) as [[| |]|]; try discriminate.
    destruct (clean_data int_of_string float_of_string (filter_markers df))
      as [[|r rs]|msg]; try discriminate.
    destruct (upsert w (r :: rs)) as [[]|msg]; [|discriminate].
    intros _. simpl snd. rewrite folder_synced_notice. unfold delete_files. simpl folder.
    assert (forall f,
              In f (find_all_inventory_files
                      match folder st with
                      | Some entries =>
                          Some (delete_all_inventory_files (remove_error w) watch_folder
                                  all_files entries)
                      | None => None
                      end watch_folder file_pattern)
              <-> In f (find_all_inventory_files (folder st) watch_folder file_pattern)
                  /\ removal_fails w (path_of f)) as Hleft.
    { intros f. destruct (folder st) as [entries|] eqn:Hf; [|simpl; tauto].
      assert (all_files
              = snd (get_latest_inventory_file (Some entries) watch_folder file_pattern))
        as -> by (rewrite Hlatest; reflexivity).
      apply scan_after_delete. }
    split; [exact Hleft | exact (Hnone _ _ _ _ _ Hleft)].
  - intros w watch_folder store show_notification st result. subst result.
    unfold sync_sales. rewrite get_latest_sales_file_eq.
    destruct (get_latest_inventory_file (sales_folder st) watch_folder SALES_FILE_PATTERN)
      as [[latest|] all_files] eqn:Hlatest; [|discriminate].
    destruct (truthy latest); simpl negb; cbv iota; [|discriminate].
    destruct (process_sales_file int_of_string float_of_string column_sum parse_report_date
                (sales_read_excel w) latest store)
      as [record|]; [|discriminate].
    destruct (sales_upsert w record) as [[]|msg]; [|discriminate].
    intros _. simpl snd.
    assert (sales_folder
              (if show_notification
               then sales_notify w (synced_message format_2f record) "Sales Sync"
                      (remove_sales_files w watch_folder all_files
                         (sales_emit (EvSalesUpsert record) st))
               else remove_sales_files w watch_folder all_files
                      (sales_emit (EvSalesUpsert record) st))
            = sales_folder (remove_sales_files w watch_folder all_files
                              (sales_emit (EvSalesUpsert record) st))) as ->.
    { destruct show_notification; [|reflexivity].
      unfold sales_notify. destruct (sales_tray_icon w); reflexivity. }
    unfold remove_sales_files. simpl sales_folder.
    assert (forall f,
              In f (find_sales_files
                      match sales_folder st with
                      | Some entries =>
                          Some (delete_all_inventory_files (sales_remove_error w)
                                  watch_folder all_files entries)
                      | None => None
                      end watch_folder)
              <-> In f (find_sales_files (sales_folder st) watch_folder)
                  /\ sales_remove_error w (path_of f) <> None) as Hleft.
    { intros f. destruct (sales_folder st) as [entries|] eqn:Hf; [|simpl; tauto].
      assert (all_files
              = snd (get_latest_inventory_file (Some entries) watch_folder
                       SALES_FILE_PATTERN))
        as -> by (rewrite Hlatest; reflexivity).
      apply scan_after_delete. }
    split; [exact Hleft|].
    exact (Hnone (sales_folder st) _ (sales_remove_error w) watch_folder SALES_FILE_PATTERN
             Hleft).
Qed.

End Consumed.

End ConsumedFacts.

(** ** A margin that cannot be read *)

Module MarginFacts.

Import PyStr PyStrFacts Locator Inventory InventorySpec SyncSpec SyncFacts UpsertSpec.

Section Margins.

Variable int_of_string : string -> Outcome Z.
Variable float_of_string : string -> Outcome PyFloat.float.

(** [clean_data] gives up at the first row with a number that does not
    convert, whatever it collected before. *)
Lemma clean_data_from_raises (df : list Row) (acc : list InventoryRecord) (row : Row) :
  In row df ->
  (exists msg, convert_row int_of_string float_of_string row = Raised msg) ->
  exists msg, clean_data_from int_of_string float_of_string df acc = Raised msg.
Proof.
  intros Hin Hbad. revert acc. induction df as [|r df IH]; intros acc; [destruct Hin|].
  simpl. destruct (convert_row int_of_string float_of_string r) as [numbers|msg] eqn:Hr;
    [|exists msg; reflexivity].
  destruct Hin as [->|Hin]; [destruct Hbad as [msg Hbad]; congruence|].
  apply (IH Hin).
Qed.

(** When the rows before it convert, the message is that of the row. *)
Lemma clean_data_from_first_raise (pre post : list Row) (acc : list InventoryRecord)
  (row : Row) (msg : string) :
  List.Forall (fun r => exists numbers, converted int_of_string float_of_string r numbers)
    pre ->
  convert_row int_of_string float_of_string row = Raised msg ->
  clean_data_from int_of_string float_of_string (pre ++ row :: post) acc = Raised msg.
Proof.
  intros Hpre Hrow. revert acc. induction Hpre as [|r pre [numbers Hr] _ IH]; intros acc.
  - simpl. rewrite Hrow. reflexivity.
  - simpl. unfold converted in Hr. rewrite Hr. simpl. apply IH.
Qed.

(** The margin is the first number of a row that is converted. *)
Lemma convert_row_margin_raises (row : Row) (text msg : string) :
  r_gross_margin row = NStr text ->
  float_of_string (remove_char "%" text) = Raised msg ->
  convert_row int_of_string float_of_string row = Raised msg.
Proof.
  intros Hmargin Hfloat. unfold convert_row, convert_gross_margin.
  rewrite Hmargin, Hfloat. reflexivity.
Qed.

(** X20. One unreadable Gross Margin blocks the whole synchronisation: in
    a sheet judged valid, a single row outside the markers whose margin is
    a text that is no number, with or without a sku, makes [sync_inventory]
    return False with nothing upserted, nothing removed and the folder
    as it was; the only trace is the error notice when the tray icon is
    there.  When the rows before that row convert, the notice carries the
    first 50 characters of what [float] said of the text. *)
Theorem unreadable_margin_blocks_the_sync (w : SyncWorld) (watch_folder file_pattern : string)
  (show_notification : bool) (st : SyncState) (latest : string) (all_files : list string)
  (df : list Row) (row : Row) (text msg : string) :
  get_latest_inventory_file (folder st) watch_folder file_pattern = (Some latest, all_files) ->
  read_excel w latest = Returned df ->
  verdict (validate_inventory_file int_of_string df) = Some valid ->
  In row df -> is_marker_row row = false ->
  r_gross_margin row = NStr text ->
  float_of_string (remove_char "%" text) = Raised msg ->
  let result :=
    sync_inventory int_of_string float_of_string w watch_folder file_pattern
      show_notification st in
  fst result = false
  /\ folder (snd result) = folder st
  /\ exists note,
      sync_events (snd result) = (sync_events st ++ note)%list
      /\ upserts_of note = [] /\ removals_of note = []
      /\ (tray_icon w = true ->
          exists said, note = [EvNotify ("Sync error: " ++ first50 said) "Inventory Sync Error"])
      /\ (forall pre post,
            df = (pre ++ row :: post)%list ->
            List.Forall
              (fun r => exists numbers, converted int_of_string float_of_string r numbers)
              (filter_markers pre) ->
            tray_icon w = true ->
            note = [EvNotify ("Sync error: " ++ first50 msg) "Inventory Sync Error"]).
Proof.
  intros Hlatest Hread Hvalid Hin Hmarker Hmargin Hfloat result. subst result.
  rewrite (sync_inventory_chosen _ _ _ _ _ _ _ _ _ Hlatest), Hread.
  destruct (validate_inventory_file int_of_string df) as [v|vmsg]; [|discriminate].
  simpl in Hvalid. rewrite Hvalid.
  pose proof (convert_row_margin_raises row text msg Hmargin Hfloat) as Hrow.
  destruct (clean_data_from_raises (filter_markers df) [] row) as [said Hraise].
  { unfold filter_markers. apply filter_In. split; [exact Hin|]. rewrite Hmarker. reflexivity. }
  { exists msg. exact Hrow. }
  unfold clean_data. rewrite Hraise. simpl fst. simpl snd.
  split; [reflexivity|]. unfold error_notice. rewrite folder_notify. split; [reflexivity|].
  rewrite events_notify. eexists. split; [reflexivity|].
  rewrite upserts_of_note, removals_of_note. split; [reflexivity|]. split; [reflexivity|].
  split.
  - intros ->. exists said. reflexivity.
  - intros pre post Hdf Hpre ->. subst df.
    unfold filter_markers in Hraise. rewrite List.filter_app in Hraise. simpl in Hraise.
    rewrite Hmarker in Hraise. simpl in Hraise.
    rewrite (clean_data_from_first_raise _ _ _ _ _ Hpre Hrow) in Hraise.
    injection Hraise as <-. reflexivity.
Qed.

End Margins.

Import SyncScenario MarginScenario.

Lemma unreadable_margin_blocks_the_sync_witness :
  sync_inventory int_of_text float_of_text (sync_world sheet_with_odd_margin true)
    watch_folder file_pattern true sync_start
  = (false,
     mkSyncState (Some entries)
       [EvNotify "Sync error: could not convert string to float: 'abc'"
          "Inventory Sync Error"]).
Proof.
  destruct (unreadable_margin_blocks_the_sync int_of_text float_of_text
              (sync_world sheet_with_odd_margin true)
              watch_folder file_pattern true sync_start
              "C:\exports\Inventory_tuesday.xlsx"
              ["C:\exports\Inventory_tuesday.xlsx"; "C:\exports\Inventory_monday.xlsx"]
              sheet_with_odd_margin odd_product "abc"
              "could not convert string to float: 'abc'")
    as [Hfalse [Hfolder [note [Hevents [_ [_ [_ Hnote]]]]]]].
  - vm_compute. reflexivity.
  - reflexivity.
  - vm_compute. reflexivity.
  - right. right. left. reflexivity.
  - vm_compute. reflexivity.
  - reflexivity.
  - reflexivity.
  - rewrite (Hnote [toppenish_marker 1; product "Widget" (CStr "W-1") 12] [yakima_marker 0])
      in Hevents.
    + destruct (sync_inventory int_of_text float_of_text
                  (sync_world sheet_with_odd_margin true) watch_folder file_pattern true
                  sync_start) as [result [fs events]].
      simpl in Hfalse, Hfolder, Hevents. subst. reflexivity.
    + reflexivity.
    + repeat constructor. eexists. vm_compute. reflexivity.
    + reflexivity.
Defined.

End MarginFacts.

(** ** The Total row of a sales sheet *)

Module TotalsFacts.

Import PyFloat Inventory InventorySpec ValidatorFacts Sales SalesSpec SalesFacts.

Lemma filter_transactions (pre : list SalesRow) :
  Forall (fun row => is_total row = false) pre ->
  List.filter (fun row => is_total row) pre = []
  /\ List.filter (fun row => negb (is_total row)) pre = pre.
Proof.
  induction 1 as [|row pre Hrow _ [IH1 IH2]]; [split; reflexivity|].
  simpl. rewrite Hrow, IH1, IH2. split; reflexivity.
Qed.

Section Totals.

Variable int_of_string : string -> Outcome Z.
Variable float_of_string : string -> Outcome float.
Variable column_sum : list NumCell -> Outcome NumCell.
Variable parse_report_date : Cell -> string.
Variable read_excel : string -> Outcome (list SalesRow).

(** X21. The first Total row of a sales sheet decides the amounts,
    wherever it stands: quantity and amounts of the record are those of
    that row (a blank cell counting as 0, amounts rounded to cents, the
    margin computed from its sales and gross profit), the rows with
    another Trans ID are only counted and give the date from the first of
    them; further Total rows are ignored, and a sheet with no other row
    than Total rows gives no record.  Nor does a sheet whose first Total
    row holds, in Qty Sold or Sales, a text that is no number. *)
Theorem first_total_row_decides (file_path store : string) (pre : list SalesRow)
  (total : SalesRow) (post : list SalesRow) :
  read_excel file_path = Returned (pre ++ total :: post)%list ->
  is_total total = true ->
  Forall (fun row => is_total row = false) pre ->
  let transactions := (pre ++ List.filter (fun row => negb (is_total row)) post)%list in
  let result :=
    process_sales_file int_of_string float_of_string column_sum parse_report_date read_excel
      file_path store in
  (forall quantity sold spent profit discounts taxes receipts,
     quantity_in int_of_string (qty_sold total) quantity ->
     amount_in float_of_string (sales total) sold ->
     amount_in float_of_string (cogs total) spent ->
     amount_in float_of_string (gross_profit total) profit ->
     amount_in float_of_string (disc_mkd total) discounts ->
     amount_in float_of_string (tax total) taxes ->
     amount_in float_of_string (receipt_total total) receipts ->
     result
     = match transactions with
       | [] => None
       | first_row :: _ =>
           Some {| store_name := store;
                   report_date := parse_report_date (date first_row);
                   total_transactions := Z.of_nat (length transactions);
                   total_qty_sold := quantity;
                   total_sales := round2 sold;
                   total_cogs := round2 spent;
                   total_gross_profit := round2 profit;
                   avg_gross_margin :=
                     round2 (if gt sold zero then mul (div profit sold) (of_Z 100)
                             else zero);
                   total_discounts := round2 discounts;
                   total_tax := round2 taxes;
                   total_receipts := round2 receipts |}
       end)
  /\ (transactions = [] -> result = None)
  /\ ((forall quantity, ~ quantity_in int_of_string (qty_sold total) quantity)
      \/ (forall sold, ~ amount_in float_of_string (sales total) sold) ->
      result = None).
Proof.
  intros Hread Htotal Hpre transactions result. subst transactions result.
  destruct (filter_transactions pre Hpre) as [Hnone Hall].
  unfold process_sales_file. rewrite Hread. cbv zeta.
  rewrite !List.filter_app. simpl List.filter. rewrite Htotal, Hnone, Hall. simpl negb.
  cbv iota. simpl app.
  destruct (pre ++ List.filter (fun row => negb (is_total row)) post)%list
    as [|first_row rest].
  { split; [reflexivity | split; reflexivity]. }
  split; [|split; [discriminate|]].
  - intros quantity sold spent profit discounts taxes receipts Hq Hs Hc Hg Hd Hx Hr.
    apply int_or_zero_spec in Hq. apply float_or_zero_spec in Hs, Hc, Hg, Hd, Hx, Hr.
    unfold compute_totals. rewrite Hq, Hs, Hc, Hg, Hd, Hx, Hr. reflexivity.
  - intros [Hq | Hs]; unfold compute_totals.
    + destruct (int_or_zero int_of_string (qty_sold total)) as [q|msg] eqn:Hq';
        [|reflexivity].
      apply int_or_zero_spec in Hq'. destruct (Hq q Hq').
    + destruct (int_or_zero int_of_string (qty_sold total)) as [q|msg]; [|reflexivity].
      simpl. destruct (float_or_zero float_of_string (sales total)) as [s|msg] eqn:Hs';
        [|reflexivity].
      apply float_or_zero_spec in Hs'. destruct (Hs s Hs').
Qed.

End Totals.

Import SalesScenario.

Lemma first_total_row_decides_witness :
  total_sales
  <$> process_sales_file SyncScenario.int_of_text SyncScenario.float_of_text column_total
        date_text (reader ordinary_day) "Sales by Transaction.xlsx" "All Stores"
  = Some (Hundredths 450000).
Proof.
  destruct (first_total_row_decides SyncScenario.int_of_text SyncScenario.float_of_text
              column_total date_text (reader ordinary_day)
              "Sales by Transaction.xlsx" "All Stores"
              [transaction 1001 3 3000 800; transaction 1002 2 1500 400]
              (total_line 5 4500 1200) []) as [Hrecord _].
  - reflexivity.
  - reflexivity.
  - repeat constructor.
  - rewrite (Hrecord 5%Z (of_Z 4500) (of_Z 3300) (of_Z 1200) zero zero (of_Z 4500));
      [vm_compute; reflexivity | constructor; reflexivity ..].
Defined.

End TotalsFacts.
